(** * Verification of the multi-policy A3C-GCN solver
    (virne/solver/learning/a3c_gcn/solver.py)

    Shallow embedding of [A3CGcnMultiPoliciesSolver] (buffer splitting,
    fine-tuning update loop, checkpoint save/load, policy routing) and of
    [obs_as_tensor]. *)

From Stdlib Require Import ZArith.
From stdpp Require Import base list sorting strings gmap.

Open Scope Z_scope.
Set Warnings "-register-all".

(* ------------------------------------------------------------------ *)
(** ** Python dictionaries with insertion order *)

Module PyDict.
Section Dict.
  Context {K V : Type} `{EqDecision K}.

  (** [d[k] = v]: overwrite in place when [k] is present, append otherwise. *)
Fixpoint dict_set (d : list (K * V)) (k : K) (v : V) : list (K * V) :=
    match d with
    | [] => [(k, v)]
    | (k', v') :: d' =>
        if decide (k = k') then (k, v) :: d' else (k', v') :: dict_set d' k v
    end.

  (** [d[k]]; [None] is the [KeyError]. *)
Fixpoint dict_get (d : list (K * V)) (k : K) : option V :=
    match d with
    | [] => None
    | (k', v') :: d' => if decide (k = k') then Some v' else dict_get d' k
    end.

Definition dict_keys (d : list (K * V)) : list K := map fst d.
End Dict.
End PyDict.
Import PyDict.


(* ------------------------------------------------------------------ *)
(** ** Python exceptions and an exception-raising state monad *)

Module Py.
Inductive exc_class :=
    | Exception | KeyError | TypeError | IndexError | ValueError
    | RuntimeError | FileNotFoundError | UnpicklingError.

  (** The built-in class hierarchy restricted to these classes: every one
      derives from [Exception] and from itself only. *)
Definition is_subclass (c parent : exc_class) : bool :=
    match c, parent with
    | _, Exception => true
    | Exception, _ => false
    | KeyError, KeyError | TypeError, TypeError | IndexError, IndexError
    | ValueError, ValueError | RuntimeError, RuntimeError
    | FileNotFoundError, FileNotFoundError
    | UnpicklingError, UnpicklingError => true
    | _, _ => false
    end.

Record exc := mkExc { exc_cls : exc_class; exc_msg : string }.

Inductive result (A : Type) := Ok (a : A) | Raise (e : exc).
  Arguments Ok {A} a.
  Arguments Raise {A} e.

  (** Hashable dictionary keys: [str] or [int]. *)
Inductive PyKey := KStr (k : string) | KInt (n : Z).
#[global] Instance PyKey_eq_dec : EqDecision PyKey.
  Proof. solve_decision. Defined.

  (** [x != 0] *)
Definition ne_zero (k : PyKey) : bool :=
    match k with KInt 0 => false | _ => true end.
End Py.
Import Py.

Module St.
Section Monad.
  Context {S : Type}.
  (** A statement either returns or raises; its effects on the state up to
      the raise are kept, as in Python. *)
Definition M (A : Type) := S -> result A * S.
Definition ret {A} (a : A) : M A := fun s => (Ok a, s).
Definition bind {A B} (m : M A) (k : A -> M B) : M B :=
    fun s => match m s with
             | (Ok a, s') => k a s'
             | (Raise e, s') => (Raise e, s')
             end.
Definition raise {A} (e : exc) : M A := fun s => (Raise e, s).
Definition gets {A} (f : S -> A) : M A := fun s => (Ok (f s), s).
Definition modify (f : S -> S) : M unit := fun s => (Ok tt, f s).
  (** [x = d[k]] for an [option]-valued lookup. *)
Definition lift {A} (o : option A) (e : exc) : M A :=
    match o with Some a => ret a | None => raise e end.
  (** [try: m  except Exception: h] *)
Definition try_except {A} (m : M A) (h : exc -> M A) : M A :=
    fun s => match m s with
             | (Ok a, s') => (Ok a, s')
             | (Raise e, s') => h e s'
             end.
Fixpoint for_ {A} (xs : list A) (body : A -> M unit) : M unit :=
    match xs with
    | [] => ret tt
    | x :: xs' => bind (body x) (fun _ => for_ xs' body)
    end.
End Monad.
Arguments M : clear implicits.
End St.
Import St.

Notation "x <- c1 ;; c2" := (St.bind c1 (fun x => c2))
  (at level 100, c1 at next level, right associativity).
Notation "c1 ;; c2" := (St.bind c1 (fun _ => c2))
  (at level 100, right associativity).

(* ------------------------------------------------------------------ *)
(** ** Rollout buffers and [_split_buffer] *)

Module Buffer.
Section Split.
  Context {Obs Act Mask LP Rew Ret : Type}.
  (** [obs['v_net_size']] of an observation record. *)
  Variable obs_v_net_size : Obs -> Z.

  (** The fields of [RolloutBuffer] that [_split_buffer] reads or writes. *)
Record RolloutBuffer := mkBuffer {
    observations : list Obs;
    actions : list Act;
    action_masks : list Mask;
    logprobs : list LP;
    rewards : list Rew;
    returns : list Ret
  }.

  (** Modelled from the spec: the [RolloutBuffer()] constructor (rl_base,
      not in this source file); a buffer is "created empty". *)
Definition RolloutBuffer_new : RolloutBuffer := mkBuffer [] [] [] [] [] [].

  (** Modelled from the spec: [RolloutBuffer.clear()]; the buffer's
      contents are cleared. *)
Definition RolloutBuffer_clear (b : RolloutBuffer) : RolloutBuffer :=
    RolloutBuffer_new.

  (** Spec invariant of a rollout buffer: the parallel sequences are
      index-aligned. *)
Definition well_formed (b : RolloutBuffer) : Prop :=
    length (actions b) = length (observations b) /\
    length (logprobs b) = length (observations b) /\
    length (rewards b) = length (observations b) /\
    length (returns b) = length (observations b).

  (** [np.array([obs['v_net_size'] for obs in buffer.observations])] *)
Definition v_net_size_list (b : RolloutBuffer) : list Z :=
    map obs_v_net_size (observations b).

  (** [np.where(v_net_size_list == task_id)[0]] *)
Definition task_indices (labels : list Z) (task_id : Z) : list nat :=
    List.filter (fun i => Z.eqb (nth i labels 0) task_id)
                (seq 0 (length labels)).

  (** [[xs[i] for i in idx]] and [np.array(xs)[idx].tolist()];
      [None] is the [IndexError] of an index out of range. *)
Definition index_list {A} (xs : list A) (idx : list nat) : option (list A) :=
    mapM (fun i => xs !! i) idx.

  (** Body of the loop of [_split_buffer] for one task id.  The
      [action_masks] line is commented out in the source. *)
Definition make_task_buffer (b : RolloutBuffer) (labels : list Z) (task_id : Z)
      : option RolloutBuffer :=
    let idx := task_indices labels task_id in
    let tb := RolloutBuffer_new in
    obs ← index_list (observations b) idx;
    acts ← index_list (actions b) idx;
    lps ← index_list (logprobs b) idx;
    rews ← index_list (rewards b) idx;
    rets ← index_list (returns b) idx;
    Some (mkBuffer obs acts (action_masks tb) lps rews rets).

Fixpoint split_loop (b : RolloutBuffer) (labels : list Z) (tasks : list Z)
      (task_buffers : list (Z * RolloutBuffer)) : option (list (Z * RolloutBuffer)) :=
    match tasks with
    | [] => Some task_buffers
    | task_id :: tasks' =>
        tb ← make_task_buffer b labels task_id;
        split_loop b labels tasks' (dict_set task_buffers task_id tb)
    end.

  (** [sorted(list(set(v_net_size_list)))] *)
Definition tasks_list (labels : list Z) : list Z :=
    merge_sort Z.le (remove_dups labels).

  (** [A3CGcnMultiPoliciesSolver._split_buffer] *)
Definition split_buffer (b : RolloutBuffer) : option (list (Z * RolloutBuffer)) :=
    let labels := v_net_size_list b in
    task_buffers ← split_loop b labels (tasks_list labels) [];
    (* {k: task_buffers[k] for k in sorted(list(task_buffers.keys()))} *)
    mapM (fun k => v ← dict_get task_buffers k; Some (k, v))
         (merge_sort Z.le (dict_keys task_buffers)).
End Split.
Arguments RolloutBuffer : clear implicits.
End Buffer.

(* ------------------------------------------------------------------ *)
(** ** The agent: an object heap, the solver's attributes, the disk *)

Module Agent.
Import Buffer.

(** Object identities of policies, optimizers and buffers. *)
Definition loc := nat.
(** A policy's [state_dict()]: its parameter values. *)
Definition Params := list Z.
(** An Adam optimizer's [state_dict()]: the size of its parameter group
    and its moment state. *)
Definition OptState := (nat * list Z)%type.

(** Values stored by [torch.save]: nested dictionaries of state dicts. *)
Inductive Val :=
  | VDict (kvs : list (PyKey * Val))
  | VParams (p : Params)
  | VOpt (o : OptState).

(** A file on disk: a readable archive, or bytes [torch.load] rejects. *)
Inductive File := Archive (v : Val) | Corrupt.

(** [path.endswith('/')] *)
Definition ends_with_sep (path : string) : bool :=
  String.eqb (String.substring (pred (String.length path)) 1 path) "/".

(** [os.path.join(a, b)] on POSIX ([posixpath.join] with two arguments):
    an absolute [b] replaces [a]; otherwise [b] is appended, after a
    separator unless [a] is empty or already ends with one. *)
Definition path_join (a b : string) : string :=
  if String.prefix "/" b then b
  else if String.eqb a "" || ends_with_sep a then a +:+ b
  else a +:+ "/" +:+ b.

(** [v[k]] on a loaded checkpoint value. *)
Definition val_get (v : Val) (k : PyKey) : result Val :=
  match v with
  | VDict kvs =>
      match dict_get kvs k with
      | Some w => Ok w
      | None => Raise (mkExc KeyError "")
      end
  | _ => Raise (mkExc TypeError "object is not subscriptable")
  end.

Definition val_keys (v : Val) : result (list PyKey) :=
  match v with
  | VDict kvs => Ok (dict_keys kvs)
  | _ => Raise (mkExc TypeError "object has no attribute 'keys'")
  end.

Section Agent.
  Context {Obs Act Mask LP Rew Ret Inst Sol : Type}.
  Abbreviation Buf := (RolloutBuffer Obs Act Mask LP Rew Ret).

Record St := mkSt {
    meta_policy : loc;
    meta_optimizer : loc;
    task_policies : list (PyKey * loc);
    task_optimizers : list (PyKey * loc);
    policy : loc;
    optimizer : loc;
    buffer : loc;
    searcher_policy : loc;
    infer_with_single_task_policy_id : PyKey;
    model_dir : string;
    pols : loc -> Params;
    opts : loc -> OptState;
    bufs : loc -> Buf;
    files : list (string * File);
    next_loc : loc
  }.

Definition upd {A} (h : loc -> A) (l : loc) (v : A) : loc -> A :=
    fun l' => if Nat.eqb l' l then v else h l'.

Definition set_task_policies d s :=
    mkSt (meta_policy s) (meta_optimizer s) d (task_optimizers s) (policy s)
      (optimizer s) (buffer s) (searcher_policy s)
      (infer_with_single_task_policy_id s) (model_dir s) (pols s) (opts s)
      (bufs s) (files s) (next_loc s).
Definition set_task_optimizers d s :=
    mkSt (meta_policy s) (meta_optimizer s) (task_policies s) d (policy s)
      (optimizer s) (buffer s) (searcher_policy s)
      (infer_with_single_task_policy_id s) (model_dir s) (pols s) (opts s)
      (bufs s) (files s) (next_loc s).
Definition set_active (pl ol bl : loc) s :=
    mkSt (meta_policy s) (meta_optimizer s) (task_policies s)
      (task_optimizers s) pl ol bl (searcher_policy s)
      (infer_with_single_task_policy_id s) (model_dir s) (pols s) (opts s)
      (bufs s) (files s) (next_loc s).
Definition set_searcher_policy l s :=
    mkSt (meta_policy s) (meta_optimizer s) (task_policies s)
      (task_optimizers s) (policy s) (optimizer s) (buffer s) l
      (infer_with_single_task_policy_id s) (model_dir s) (pols s) (opts s)
      (bufs s) (files s) (next_loc s).
Definition set_heaps ps os bs nl s :=
    mkSt (meta_policy s) (meta_optimizer s) (task_policies s)
      (task_optimizers s) (policy s) (optimizer s) (buffer s)
      (searcher_policy s) (infer_with_single_task_policy_id s) (model_dir s)
      ps os bs (files s) nl.
Definition set_files fs s :=
    mkSt (meta_policy s) (meta_optimizer s) (task_policies s)
      (task_optimizers s) (policy s) (optimizer s) (buffer s)
      (searcher_policy s) (infer_with_single_task_policy_id s) (model_dir s)
      (pols s) (opts s) (bufs s) fs (next_loc s).

Definition write_policy (l : loc) (p : Params) : M St unit :=
    modify (fun s => set_heaps (upd (pols s) l p) (opts s) (bufs s) (next_loc s) s).
Definition write_optimizer (l : loc) (o : OptState) : M St unit :=
    modify (fun s => set_heaps (pols s) (upd (opts s) l o) (bufs s) (next_loc s) s).
Definition write_buffer (l : loc) (b : Buf) : M St unit :=
    modify (fun s => set_heaps (pols s) (opts s) (upd (bufs s) l b) (next_loc s) s).

  (** [copy.deepcopy(policy)]: a new object with the same parameters. *)
Definition deepcopy_policy (l : loc) : M St loc :=
    fun s => let n := next_loc s in
             (Ok n, set_heaps (upd (pols s) n (pols s l)) (opts s) (bufs s) (S n) s).
  (** [torch.optim.Adam(policy.parameters(), lr=...)]: a new optimizer
      over the policy's parameters, with no moment state yet. *)
Definition Adam (pl : loc) : M St loc :=
    fun s => let n := next_loc s in
             (Ok n, set_heaps (pols s) (upd (opts s) n (length (pols s pl), [])) (bufs s) (S n) s).
  (** [RolloutBuffer()] holding the given contents: a new buffer object. *)
Definition new_buffer (b : Buf) : M St loc :=
    fun s => let n := next_loc s in
             (Ok n, set_heaps (pols s) (opts s) (upd (bufs s) n b) (S n) s).

Definition key_error : exc := mkExc KeyError "".

  (** [self.task_policies[k]], [self.task_optimizers[k]] *)
Definition get_task_policy (k : PyKey) : M St loc :=
    d <- gets task_policies ;; lift (dict_get d k) key_error.
Definition get_task_optimizer (k : PyKey) : M St loc :=
    d <- gets task_optimizers ;; lift (dict_get d k) key_error.

  (** Lines 167-169 and 110-112 (same statements as
      [_init_task_policy_and_task_optimizer]): a deep copy of the
      meta-policy with a fresh optimizer, registered under [task_id]. *)
Definition create_task_policy (task_id : PyKey) : M St unit :=
    m <- gets meta_policy ;;
    l <- deepcopy_policy m ;;
    modify (fun s => set_task_policies (dict_set (task_policies s) task_id l) s) ;;
    pl <- get_task_policy task_id ;;
    o <- Adam pl ;;
    modify (fun s => set_task_optimizers (dict_set (task_optimizers s) task_id o) s).

  (** [if task_id not in self.task_policies: ...create...] *)
Definition ensure_task_policy (task_id : PyKey) : M St unit :=
    tp <- gets task_policies ;;
    if bool_decide (task_id ∈ dict_keys tp) then ret tt else create_task_policy task_id.

  (* ---------------- solve ---------------- *)

  (** [kwargs.get('infer_with_single_task_policy_id', 0)] in [__init__]. *)
Definition infer_id_of_kwargs (kwargs : list (string * PyKey)) : PyKey :=
    match dict_get kwargs "infer_with_single_task_policy_id" with
    | Some v => v
    | None => KInt 0
    end.

  (** [instance['v_net'].num_nodes] *)
  Variable inst_num_nodes : Inst -> Z.
  (** [super().solve(instance)]: the inherited solver, run with the policy
      installed in [self.searcher.policy]. *)
  Variable base_solve : Inst -> M St Sol.

  (** [A3CGcnMultiPoliciesSolver.solve] *)
Definition solve (instance : Inst) : M St Sol :=
    let v_net_size := inst_num_nodes instance in
    i <- gets infer_with_single_task_policy_id ;;
    if ne_zero i then
      (l <- get_task_policy i ;;
       modify (set_searcher_policy l) ;;
       base_solve instance)
    else
      (tp <- gets task_policies ;;
       (if bool_decide (KInt v_net_size ∈ dict_keys tp)
        then (l <- get_task_policy (KInt v_net_size) ;; modify (set_searcher_policy l))
        else (m <- gets meta_policy ;; modify (set_searcher_policy m))) ;;
       base_solve instance).

  (* ---------------- save_model / load_model ---------------- *)

  (** [{'policy': policy.state_dict(), 'optimizer': optimizer.state_dict()}] *)
Definition state_dict_entry (pl ol : loc) : M St Val :=
    p <- gets (fun s => pols s pl) ;;
    o <- gets (fun s => opts s ol) ;;
    ret (VDict [(KStr "policy", VParams p); (KStr "optimizer", VOpt o)]).

  (** [[(task_id, self.task_policies[task_id], self.task_optimizers[task_id])
        for task_id in self.task_policies.keys()]] *)
Fixpoint model_list (ks : list PyKey) : M St (list (PyKey * loc * loc)) :=
    match ks with
    | [] => ret []
    | k :: ks' =>
        pl <- get_task_policy k ;;
        ol <- get_task_optimizer k ;;
        rest <- model_list ks' ;;
        ret ((k, pl, ol) :: rest)
    end.

  (** [for task_id, policy, optimizer in model_list:
         task_model_dict['task_policies'][task_id] = {...}] *)
Fixpoint task_entries (ml : list (PyKey * loc * loc)) (acc : list (PyKey * Val))
      : M St (list (PyKey * Val)) :=
    match ml with
    | [] => ret acc
    | (k, pl, ol) :: ml' =>
        e <- state_dict_entry pl ol ;;
        task_entries ml' (dict_set acc k e)
    end.

  (** [torch.save(obj, path)] *)
Definition torch_save (v : Val) (path : string) : M St unit :=
    modify (fun s => set_files (dict_set (files s) path (Archive v)) s).

  (** [A3CGcnMultiPoliciesSolver.save_model] *)
Definition save_model (checkpoint_fname : string) : M St unit :=
    path <- gets (fun s => path_join (model_dir s) checkpoint_fname) ;;
    ks <- gets (fun s => dict_keys (task_policies s)) ;;
    ml <- model_list ks ;;
    mp <- gets meta_policy ;;
    mo <- gets meta_optimizer ;;
    meta <- state_dict_entry mp mo ;;
    tps <- task_entries ml [] ;;
    torch_save (VDict [(KStr "meta_policy", meta); (KStr "task_policies", VDict tps)]) path.

  (** [torch.load(path)] *)
Definition torch_load (path : string) : M St Val :=
    fs <- gets files ;;
    match dict_get fs path with
    | Some (Archive v) => ret v
    | Some Corrupt => raise (mkExc UnpicklingError "invalid load key")
    | None => raise (mkExc FileNotFoundError path)
    end.

Definition getv (v : Val) (k : PyKey) : M St Val :=
    match val_get v k with Ok w => ret w | Raise e => raise e end.

  (** [policy.load_state_dict(sd)] (strict): the saved tensors must have
      the shapes of the policy's parameters; the parameters are then
      overwritten in place.  The parameters are one flat list here, so a
      shape mismatch raises with nothing written, whereas torch first
      copies the tensors whose shapes match; the statements below use the
      state after a mismatch only for what both keep: the parameter count
      and the objects other than [l]. *)
Definition policy_load_state_dict (l : loc) (sd : Val) : M St unit :=
    p <- gets (fun s => pols s l) ;;
    match sd with
    | VParams q =>
        if Nat.eqb (length q) (length p) then write_policy l q
        else raise (mkExc RuntimeError "Error(s) in loading state_dict")
    | _ => raise (mkExc TypeError "Expected state_dict to be dict-like")
    end.

  (** [optimizer.load_state_dict(sd)]: the saved parameter group must have
      the size of the optimizer's group. *)
Definition optimizer_load_state_dict (l : loc) (sd : Val) : M St unit :=
    o <- gets (fun s => opts s l) ;;
    match sd with
    | VOpt (n, st) =>
        if Nat.eqb n o.1 then write_optimizer l (n, st)
        else raise (mkExc ValueError "loaded state dict contains a parameter group that does not match the size of optimizer's group")
    | _ => raise (mkExc TypeError "optimizer state_dict is not a dict")
    end.

  (** Body of the loop over [checkpoint['task_policies'].keys()]. *)
Definition load_task (checkpoint : Val) (task_id : PyKey) : M St unit :=
    ensure_task_policy task_id ;;
    pl <- get_task_policy task_id ;;
    c1 <- getv checkpoint (KStr "task_policies") ;;
    c2 <- getv c1 task_id ;;
    sd <- getv c2 (KStr "policy") ;;
    policy_load_state_dict pl sd ;;
    ol <- get_task_optimizer task_id ;;
    c1' <- getv checkpoint (KStr "task_policies") ;;
    c2' <- getv c1' task_id ;;
    sd' <- getv c2' (KStr "optimizer") ;;
    optimizer_load_state_dict ol sd'.

  (** [A3CGcnMultiPoliciesSolver.load_model] *)
Definition load_model (checkpoint_path : string) : M St unit :=
    try_except
      (checkpoint <- torch_load checkpoint_path ;;
       m <- gets meta_policy ;;
       c1 <- getv checkpoint (KStr "meta_policy") ;;
       sd <- getv c1 (KStr "policy") ;;
       policy_load_state_dict m sd ;;
       mo <- gets meta_optimizer ;;
       c1' <- getv checkpoint (KStr "meta_policy") ;;
       sd' <- getv c1' (KStr "optimizer") ;;
       optimizer_load_state_dict mo sd' ;;
       tps <- getv checkpoint (KStr "task_policies") ;;
       ks <- (match val_keys tps with Ok ks => ret ks | Raise e => raise e end) ;;
       for_ ks (load_task checkpoint))
      (fun _ => ret tt).

  (** The bookkeeping that [__init__], [_init_task_policy_and_task_optimizer]
      and [load_model] keep, for policies with [n] parameters: the two task
      dictionaries have the same keys, no two entries share an object and
      none is the meta-policy's or meta-optimizer's, every object is
      allocated, every policy has [n] parameters and every optimizer a
      parameter group of size [n]. *)
Definition wf_agent (n : nat) (s : St) : Prop :=
    NoDup (dict_keys (task_policies s)) /\
    dict_keys (task_optimizers s) = dict_keys (task_policies s) /\
    NoDup (meta_policy s :: map snd (task_policies s)) /\
    NoDup (meta_optimizer s :: map snd (task_optimizers s)) /\
    Forall (fun l => l < next_loc s)%nat (meta_policy s :: map snd (task_policies s)) /\
    Forall (fun l => l < next_loc s)%nat (meta_optimizer s :: map snd (task_optimizers s)) /\
    Forall (fun l => length (pols s l) = n) (meta_policy s :: map snd (task_policies s)) /\
    Forall (fun l => (opts s l).1 = n) (meta_optimizer s :: map snd (task_optimizers s)).

#[global] Instance wf_agent_dec n s : Decision (wf_agent n s).
  Proof. unfold wf_agent. apply _. Defined.

  (* ---------------- update / _fine_tuning_update ---------------- *)

  Variable obs_v_net_size : Obs -> Z.

  (** Modelled from the spec: the generic policy-gradient update
      [super().update()] (PPOSolver, not in this source file).  It "reads
      the active buffer and mutates the active policy's parameters and
      optimizer state in place", or raises ([Some e]); it is given the
      active buffer, policy and optimizer and returns what it leaves in
      them, also when it raises. *)
  Variable generic_update : Buf -> Params -> OptState -> option exc * (Params * OptState * Buf).

Definition super_update : M St unit :=
    fun s =>
      let '(r, (p, o, b)) :=
        generic_update (bufs s (buffer s)) (pols s (policy s)) (opts s (optimizer s)) in
      let s' := set_heaps (upd (pols s) (policy s) p) (upd (opts s) (optimizer s) o)
                          (upd (bufs s) (buffer s) b) (next_loc s) s in
      match r with None => (Ok tt, s') | Some e => (Raise e, s') end.

  (** [Counter(v_net_size_list).keys()]: distinct labels, first occurrence
      first. *)
Definition dedup_first (l : list Z) : list Z :=
    fold_left (fun acc x => if bool_decide (x ∈ acc) then acc else acc ++ [x]) l [].

Definition stats_task_dist_keys (b : Buf) : list Z :=
    dedup_first (v_net_size_list obs_v_net_size b).

  (** The [RolloutBuffer] objects built by [_split_buffer]. *)
Fixpoint alloc_task_buffers (tbs : list (Z * Buf)) : M St (list (Z * loc)) :=
    match tbs with
    | [] => ret []
    | (t, b) :: tbs' =>
        l <- new_buffer b ;;
        rest <- alloc_task_buffers tbs' ;;
        ret ((t, l) :: rest)
    end.

  (** Body of the inner loop of [_fine_tuning_update]. *)
Definition task_step (e : Z * loc) : M St unit :=
    let '(task_id, bl) := e in
    pl <- get_task_policy (KInt task_id) ;;
    modify (fun s => set_active pl (optimizer s) (buffer s) s) ;;
    ol <- get_task_optimizer (KInt task_id) ;;
    modify (fun s => set_active (policy s) ol (buffer s) s) ;;
    modify (fun s => set_active (policy s) (optimizer s) bl s) ;;
    super_update.

  (** Everything [_fine_tuning_update] does before its inner loop. *)
Definition prepare_update : M St (list (Z * loc)) :=
    b <- gets (fun s => bufs s (buffer s)) ;;
    for_ (stats_task_dist_keys b) (fun t => ensure_task_policy (KInt t)) ;;
    b' <- gets (fun s => bufs s (buffer s)) ;;
    tbs <- lift (split_buffer obs_v_net_size b') (mkExc IndexError "index out of range") ;;
    alloc_task_buffers tbs.

  (** [A3CGcnMultiPoliciesSolver._fine_tuning_update], i.e. [update()]. *)
Definition fine_tuning_update : M St unit :=
    meta_buffer <- gets buffer ;;
    task_buffers <- prepare_update ;;
    for_ task_buffers task_step ;;
    b0 <- gets (fun s => bufs s meta_buffer) ;;
    write_buffer meta_buffer (RolloutBuffer_clear b0).

  (** [A3CGcnMultiPoliciesSolver.update] *)
Definition update : M St unit := fine_tuning_update.
End Agent.
Arguments St : clear implicits.
End Agent.

(* ------------------------------------------------------------------ *)
(** ** [obs_as_tensor] *)

Module Tensor.

(** The Python values an observation batch can be built from. *)
Inductive PyObj :=
  | PDict (kvs : list (string * PyObj))
  | PList (xs : list PyObj)
  | PTuple (xs : list PyObj)
  | PArray (xs : list Z)
  | PInt (z : Z)
  | PStr (s : string)
  | PNone.

(** [type(o).__name__] ([str(type(o))] is ["<class '" ++ name ++ "'>"]). *)
Definition type_name (o : PyObj) : string :=
  match o with
  | PDict _ => "dict" | PList _ => "list" | PTuple _ => "tuple"
  | PArray _ => "numpy.ndarray" | PInt _ => "int" | PStr _ => "str"
  | PNone => "NoneType"
  end.

(** [o[k]] for a string key [k]. *)
Definition getitem (o : PyObj) (k : string) : result PyObj :=
  match o with
  | PDict kvs =>
      match dict_get kvs k with
      | Some v => Ok v
      | None => Raise (mkExc KeyError k)
      end
  | PList _ | PTuple _ =>
      Raise (mkExc TypeError (type_name o +:+ " indices must be integers or slices, not str"))
  | PArray _ => Raise (mkExc IndexError "only integers, slices, ellipsis, numpy.newaxis and integer or boolean arrays are valid indices")
  | PStr _ => Raise (mkExc TypeError "string indices must be integers")
  | PInt _ | PNone => Raise (mkExc TypeError ("'" +:+ type_name o +:+ "' object is not subscriptable"))
  end.

Definition rbind {A B} (r : result A) (k : A -> result B) : result B :=
  match r with Ok a => k a | Raise e => Raise e end.

Section ObsAsTensor.
  Context {Data Batch Arr Tensor Device : Type}.
  (** [get_pyg_data(x, edge_index)], a utility of the package *)
  Variable get_pyg_data : PyObj -> PyObj -> Data.
  (** [Batch.from_data_list(l)] and [batch.to(device)]; [Batch.from_data_list]
      raises on an empty list, so [batch_from_data_list] stands for it on
      non-empty lists only. *)
  Variable batch_from_data_list : list Data -> Batch.
  Variable batch_to : Batch -> Device -> Batch.
  (** [np.array(l)], [torch.FloatTensor(a)], [torch.LongTensor(a)] and
      [tensor.to(device)] *)
  Variable np_array : list PyObj -> Arr.
  Variable FloatTensor LongTensor : Arr -> Tensor.
  Variable tensor_to : Tensor -> Device -> Tensor.

Inductive TVal := TBatch (b : Batch) | TTensor (t : Tensor).

  (** The lists the batch branch appends to. *)
Record BatchLists := mkLists {
    p_net_data_list : list Data;
    v_net_x_list : list PyObj;
    v_net_size_list : list PyObj;
    curr_v_node_id_list : list PyObj;
    action_mask_list : list PyObj
  }.

  (** [for observation in obs: ...] *)
Fixpoint batch_loop (obs : list PyObj) (acc : BatchLists) : result BatchLists :=
    match obs with
    | [] => Ok acc
    | observation :: obs' =>
        rbind (getitem observation "p_net_x") (fun x =>
        rbind (getitem observation "p_net_edge_index") (fun ei =>
        let p_net_data := get_pyg_data x ei in
        rbind (getitem observation "v_net_x") (fun vx =>
        rbind (getitem observation "v_net_size") (fun vs =>
        rbind (getitem observation "curr_v_node_id") (fun c =>
        rbind (getitem observation "action_mask") (fun am =>
        batch_loop obs'
          (mkLists (p_net_data_list acc ++ [p_net_data]) (v_net_x_list acc ++ [vx])
                   (v_net_size_list acc ++ [vs]) (curr_v_node_id_list acc ++ [c])
                   (action_mask_list acc ++ [am]))))))))
    end.

  (** [obs_as_tensor(obs, device)]; the file defines it twice, with the
      same body. *)
Definition obs_as_tensor (obs : PyObj) (device : Device) : result (list (string * TVal)) :=
    match obs with
    | PDict _ =>
        rbind (getitem obs "p_net_x") (fun x =>
        rbind (getitem obs "p_net_edge_index") (fun ei =>
        let tensor_obs_p_net := batch_to (batch_from_data_list [get_pyg_data x ei]) device in
        rbind (getitem obs "v_net_x") (fun vx =>
        let tensor_obs_v_net_x := tensor_to (FloatTensor (np_array [vx])) device in
        rbind (getitem obs "curr_v_node_id") (fun c =>
        let tensor_obs_curr_v_node_id := tensor_to (LongTensor (np_array [c])) device in
        rbind (getitem obs "action_mask") (fun am =>
        let tensor_obs_action_mask := tensor_to (FloatTensor (np_array [am])) device in
        rbind (getitem obs "v_net_size") (fun vs =>
        let tensor_obs_v_net_size := tensor_to (FloatTensor (np_array [vs])) device in
        Ok [("p_net", TBatch tensor_obs_p_net); ("v_net_x", TTensor tensor_obs_v_net_x);
            ("curr_v_node_id", TTensor tensor_obs_curr_v_node_id);
            ("action_mask", TTensor tensor_obs_action_mask);
            ("v_net_size", TTensor tensor_obs_v_net_size)]))))))
    | PList os =>
        rbind (batch_loop os (mkLists [] [] [] [] [])) (fun l =>
        let tensor_obs_p_net := batch_to (batch_from_data_list (p_net_data_list l)) device in
        let tensor_obs_v_net_x := tensor_to (FloatTensor (np_array (v_net_x_list l))) device in
        let tensor_obs_v_net_size := tensor_to (FloatTensor (np_array (v_net_size_list l))) device in
        let tensor_obs_curr_v_node_id := tensor_to (LongTensor (np_array (curr_v_node_id_list l))) device in
        let tensor_obs_action_mask := tensor_to (FloatTensor (np_array (action_mask_list l))) device in
        Ok [("p_net", TBatch tensor_obs_p_net); ("v_net_x", TTensor tensor_obs_v_net_x);
            ("v_net_size", TTensor tensor_obs_v_net_size);
            ("curr_v_node_id", TTensor tensor_obs_curr_v_node_id);
            ("action_mask", TTensor tensor_obs_action_mask)])
    | _ =>
        Raise (mkExc Exception ("Unrecognized type of observation <class '" +:+ type_name obs +:+ "'>"))
    end.
End ObsAsTensor.
Arguments TVal : clear implicits.

(** The keys every observation carries. *)
Definition obs_keys : list string :=
  ["p_net_x"; "p_net_edge_index"; "v_net_x"; "curr_v_node_id"; "action_mask"; "v_net_size"].
End Tensor.

(* ------------------------------------------------------------------ *)
(** ** [__init__], [learn_with_instance], [_stats_task_dist] *)

Module Lifecycle.
Import Buffer Agent.

Section Lifecycle.
  Context {Obs Act Mask LP Rew Ret Inst R : Type}.
  Abbreviation State := (Agent.St Obs Act Mask LP Rew Ret).

Definition set_meta_policy (l : loc) (s : State) : State :=
    mkSt l (meta_optimizer s) (task_policies s) (task_optimizers s) (policy s)
      (optimizer s) (buffer s) (searcher_policy s)
      (infer_with_single_task_policy_id s) (model_dir s) (pols s) (opts s)
      (bufs s) (files s) (next_loc s).
Definition set_meta_optimizer (l : loc) (s : State) : State :=
    mkSt (meta_policy s) l (task_policies s) (task_optimizers s) (policy s)
      (optimizer s) (buffer s) (searcher_policy s)
      (infer_with_single_task_policy_id s) (model_dir s) (pols s) (opts s)
      (bufs s) (files s) (next_loc s).
Definition set_infer_id (k : PyKey) (s : State) : State :=
    mkSt (meta_policy s) (meta_optimizer s) (task_policies s) (task_optimizers s)
      (policy s) (optimizer s) (buffer s) (searcher_policy s) k (model_dir s)
      (pols s) (opts s) (bufs s) (files s) (next_loc s).

  (** Lines 72-79 of [A3CGcnMultiPoliciesSolver.__init__], run on the
      state [InstanceAgent.__init__] and [PPOSolver.__init__] leave (with
      [self.policy] and [self.optimizer] built by [make_policy]).
      [self.target_steps] and the message printed are not modelled. *)
Definition init (kwargs : list (string * PyKey)) : M State unit :=
    p <- gets policy ;;
    m <- deepcopy_policy p ;;
    modify (set_meta_policy m) ;;
    mp <- gets meta_policy ;;
    mo <- Adam mp ;;
    modify (set_meta_optimizer mo) ;;
    modify (set_task_policies []) ;;
    modify (set_task_optimizers []) ;;
    modify (set_infer_id (infer_id_of_kwargs kwargs)).

  (** [A3CGcnMultiPoliciesSolver._init_task_policy_and_task_optimizer]:
      the statements of [create_task_policy]. *)
Definition init_task_policy_and_task_optimizer (task_id : PyKey) : M State unit :=
    m <- gets meta_policy ;;
    l <- deepcopy_policy m ;;
    modify (fun s => set_task_policies (dict_set (task_policies s) task_id l) s) ;;
    pl <- get_task_policy task_id ;;
    o <- Adam pl ;;
    modify (fun s => set_task_optimizers (dict_set (task_optimizers s) task_id o) s).

  (** [instance['v_net'].num_nodes] *)
  Variable inst_num_nodes : Inst -> Z.
  (** [super().learn_with_instance(instance)] (PPOSolver), run with the
      policy and optimizer installed in [self.policy], [self.optimizer]. *)
  Variable base_learn_with_instance : Inst -> M State R.

  (** [A3CGcnMultiPoliciesSolver.learn_with_instance] *)
Definition learn_with_instance (instance : Inst) : M State R :=
    let v_net_size := inst_num_nodes instance in
    let task_id := KInt v_net_size in
    tp <- gets task_policies ;;
    (if bool_decide (task_id ∈ dict_keys tp) then ret tt
     else init_task_policy_and_task_optimizer task_id) ;;
    pl <- get_task_policy (KInt v_net_size) ;;
    modify (fun s => set_active pl (optimizer s) (buffer s) s) ;;
    ol <- get_task_optimizer (KInt v_net_size) ;;
    modify (fun s => set_active (policy s) ol (buffer s) s) ;;
    base_learn_with_instance instance.
End Lifecycle.

(** [collections.Counter(xs)]: [d[x] = d.get(x, 0) + 1] for each element,
    keys in order of first occurrence. *)
Definition Counter (xs : list Z) : list (Z * nat) :=
  fold_left (fun d x => dict_set d x (from_option id 0%nat (dict_get d x) + 1)%nat) xs [].

(** [A3CGcnMultiPoliciesSolver._stats_task_dist] *)
Definition stats_task_dist {Obs Act Mask LP Rew Ret} (obs_v_net_size : Obs -> Z)
    (b : RolloutBuffer Obs Act Mask LP Rew Ret) : list (Z * nat) :=
  Counter (v_net_size_list obs_v_net_size b).
End Lifecycle.

(** A buffer of six steps whose observations carry [v_net_size] labels
    3, 3, 5, 5, 5, 3; each observation also records its step number,
    and every other sequence holds the step number itself. *)
Module Scenario.
  Import Buffer.
  Import Agent.
Definition obs_label (o : Z * nat) : Z := fst o.
Definition buf : RolloutBuffer (Z * nat) nat nat nat nat nat :=
    mkBuffer [(3, 0%nat); (3, 1%nat); (5, 2%nat); (5, 3%nat); (5, 4%nat); (3, 5%nat)]
             [0; 1; 2; 3; 4; 5]%nat [7; 7; 7; 7; 7; 7]%nat
             [0; 1; 2; 3; 4; 5]%nat [0; 1; 2; 3; 4; 5]%nat [0; 1; 2; 3; 4; 5]%nat.
Definition expected : list (Z * RolloutBuffer (Z * nat) nat nat nat nat nat) :=
    [(3, mkBuffer [(3, 0%nat); (3, 1%nat); (3, 5%nat)] [0; 1; 5]%nat []
                  [0; 1; 5]%nat [0; 1; 5]%nat [0; 1; 5]%nat);
     (5, mkBuffer [(5, 2%nat); (5, 3%nat); (5, 4%nat)] [2; 3; 4]%nat []
                  [2; 3; 4]%nat [2; 3; 4]%nat [2; 3; 4]%nat)].

  (** An agent holding a meta-policy (object 0, optimizer 1), one task
      policy for task 3 (objects 2 and 3), the policy it was built from
      (4, 5) and the six-step buffer above (object 6). *)
Definition agent0 : Agent.St (Z * nat) nat nat nat nat nat :=
    {| Agent.meta_policy := 0%nat; Agent.meta_optimizer := 1%nat;
       Agent.task_policies := [(KInt 3, 2%nat)];
       Agent.task_optimizers := [(KInt 3, 3%nat)];
       Agent.policy := 4%nat; Agent.optimizer := 5%nat; Agent.buffer := 6%nat;
       Agent.searcher_policy := 4%nat;
       Agent.infer_with_single_task_policy_id := KInt 0;
       Agent.model_dir := "save";
       Agent.pols := fun l => match l with 2%nat => [3; 4] | _ => [1; 2] end;
       Agent.opts := fun l => (2%nat, []);
       Agent.bufs := fun l => if Nat.eqb l 6%nat then buf else RolloutBuffer_new;
       Agent.files := [];
       Agent.next_loc := 7%nat |}.

  (** [agent0] configured with [infer_with_single_task_policy_id = 5]. *)
Definition agent0_infer5 : Agent.St (Z * nat) nat nat nat nat nat :=
    {| Agent.meta_policy := 0%nat; Agent.meta_optimizer := 1%nat;
       Agent.task_policies := [(KInt 3, 2%nat)];
       Agent.task_optimizers := [(KInt 3, 3%nat)];
       Agent.policy := 4%nat; Agent.optimizer := 5%nat; Agent.buffer := 6%nat;
       Agent.searcher_policy := 4%nat;
       Agent.infer_with_single_task_policy_id := KInt 5;
       Agent.model_dir := "save";
       Agent.pols := Agent.pols agent0; Agent.opts := Agent.opts agent0;
       Agent.bufs := Agent.bufs agent0; Agent.files := []; Agent.next_loc := 7%nat |}.

  (** An instance whose virtual network has [n] nodes is represented by [n];
      the inherited [solve] is stubbed by a solver returning the policy it
      was given. *)
Definition inst_nodes (n : Z) : Z := n.
Definition base_solve_echo : Z -> Agent.St (Z * nat) nat nat nat nat nat -> result nat * Agent.St (Z * nat) nat nat nat nat nat :=
    fun _ s => (Ok (Agent.searcher_policy s), s).

  (** Modelled from the spec: generic updates as the spec describes them,
      one step on the policy's parameters that consumes the buffer it was
      given (leaves it empty); the second raises on the buffer of task 5,
      leaving that buffer as it is. *)
Definition gu_step (b : RolloutBuffer (Z * nat) nat nat nat nat nat) (p : Params) (o : OptState)
      : option exc * (Params * OptState * RolloutBuffer (Z * nat) nat nat nat nat nat) :=
    (None, (map (Z.add 1) p, o, RolloutBuffer_new)).
Definition nan_error : exc := mkExc RuntimeError "nan in loss".
Definition gu_fail5 (b : RolloutBuffer (Z * nat) nat nat nat nat nat) (p : Params) (o : OptState)
      : option exc * (Params * OptState * RolloutBuffer (Z * nat) nat nat nat nat nat) :=
    if existsb (fun ob => Z.eqb ob.1 5) (observations b)
    then (Some nan_error, (p, o, b))
    else (None, (map (Z.add 1) p, o, RolloutBuffer_new)).

  (** The states of [update obs_label gu_fail5 agent0] after preparing the
      tasks, after task 3, and after the failing generic update of task 5. *)
Definition fail_s0 := snd (prepare_update obs_label agent0).
Definition fail_s1 := snd (St.for_ [(3, 9%nat)] (task_step gu_fail5) fail_s0).
Definition fail_s2 := snd (super_update gu_fail5 (set_active 7%nat 8%nat 10%nat fail_s1)).

  (** [agent0] after [save_model('ckpt')], and a second agent with the same
      architecture, other parameters and no task policy, that sees the
      checkpoint file. *)
Definition saved_agent0 := snd (save_model "ckpt" agent0).
Definition fresh_agent : Agent.St (Z * nat) nat nat nat nat nat :=
    {| Agent.meta_policy := 0%nat; Agent.meta_optimizer := 1%nat;
       Agent.task_policies := []; Agent.task_optimizers := [];
       Agent.policy := 0%nat; Agent.optimizer := 1%nat; Agent.buffer := 2%nat;
       Agent.searcher_policy := 0%nat;
       Agent.infer_with_single_task_policy_id := KInt 0;
       Agent.model_dir := "other";
       Agent.pols := fun _ => [0; 0]; Agent.opts := fun _ => (2%nat, [5]);
       Agent.bufs := fun _ => RolloutBuffer_new;
       Agent.files := Agent.files saved_agent0;
       Agent.next_loc := 3%nat |}.

  (** A checkpoint whose meta-policy entry is complete but which has no
      [task_policies] entry, stored at [save/ckpt] next to [agent0]. *)
Definition ckpt_meta_only : Val :=
    VDict [(KStr "meta_policy",
            VDict [(KStr "policy", VParams [9; 9]); (KStr "optimizer", VOpt (2%nat, [1]))])].
Definition agent0_ckpt : Agent.St (Z * nat) nat nat nat nat nat :=
    {| Agent.meta_policy := 0%nat; Agent.meta_optimizer := 1%nat;
       Agent.task_policies := [(KInt 3, 2%nat)];
       Agent.task_optimizers := [(KInt 3, 3%nat)];
       Agent.policy := 4%nat; Agent.optimizer := 5%nat; Agent.buffer := 6%nat;
       Agent.searcher_policy := 4%nat;
       Agent.infer_with_single_task_policy_id := KInt 0;
       Agent.model_dir := "save";
       Agent.pols := Agent.pols agent0; Agent.opts := Agent.opts agent0;
       Agent.bufs := Agent.bufs agent0;
       Agent.files := [("save/ckpt", Archive ckpt_meta_only)];
       Agent.next_loc := 7%nat |}.

  (** [obs_as_tensor] with the library calls replaced by constructors that
      keep their arguments: a graph is the pair of its arrays, a batch the
      list of its graphs, [np.array] the list of its rows, a tensor its
      dtype (float or long) with its rows, and [.to(device)] the identity. *)
Definition pyg (x e : Tensor.PyObj) : Tensor.PyObj * Tensor.PyObj := (x, e).
Definition batch_of (l : list (Tensor.PyObj * Tensor.PyObj)) := l.
Definition batch_on (b : list (Tensor.PyObj * Tensor.PyObj)) (device : string) := b.
Definition np_rows (l : list Tensor.PyObj) := l.
Definition float_tensor (a : list Tensor.PyObj) := (true, a).
Definition long_tensor (a : list Tensor.PyObj) := (false, a).
Definition tensor_on (t : bool * list Tensor.PyObj) (device : string) := t.
Definition obs_as_tensor_stub :=
    Tensor.obs_as_tensor pyg batch_of batch_on np_rows float_tensor long_tensor tensor_on.

  (** An observation with all five fields. *)
Definition obs1 : Tensor.PyObj :=
    Tensor.PDict [("p_net_x", Tensor.PArray [1; 2]); ("p_net_edge_index", Tensor.PArray [0; 1]);
                  ("v_net_x", Tensor.PArray [3]); ("curr_v_node_id", Tensor.PInt 0);
                  ("action_mask", Tensor.PArray [1; 1]); ("v_net_size", Tensor.PInt 3)].
End Scenario.

(* ================================================================== *)
(** * Properties *)

Module BufferFacts.
Import Buffer.

Example scenario_split : split_buffer Scenario.obs_label Scenario.buf = Some Scenario.expected.
Proof. vm_compute. reflexivity. Qed.

Lemma filter_seq_StronglySorted (f : nat -> bool) (start n : nat) :
  StronglySorted lt (List.filter f (seq start n)).
Proof.
  revert start. induction n as [|n IH]; intros start; simpl; [constructor|].
  destruct (f start); [|apply IH].
  constructor; [apply IH|].
  apply Forall_forall. intros x Hx.
  apply list_elem_of_In, filter_In in Hx as [Hx _]. apply in_seq in Hx. lia.
Qed.

Lemma filter_orb_disjoint {A} (f g : A -> bool) (l : list A) :
  (forall x, f x = true -> g x = false) ->
  List.filter (fun x => f x || g x) l ≡ₚ List.filter f l ++ List.filter g l.
Proof.
  intros Hdis. induction l as [|x l IH]; simpl; [done|].
  destruct (f x) eqn:Hf; simpl.
  - rewrite (Hdis x Hf) in *. by constructor.
  - destruct (g x); simpl; [|done].
    rewrite IH. by rewrite Permutation_middle.
Qed.

Lemma filter_all_true {A} (f : A -> bool) (l : list A) :
  (forall x, In x l -> f x = true) -> List.filter f l = l.
Proof.
  induction l as [|x l IH]; intros H; simpl; [done|].
  rewrite H by (left; done). f_equal. apply IH. intros y Hy. apply H. by right.
Qed.

Lemma filter_all_false {A} (l : list A) : List.filter (fun _ => false) l = [].
Proof. by induction l. Qed.

Lemma concat_task_filters (lab : nat -> Z) (ts : list Z) (l : list nat) :
  NoDup ts ->
  concat (map (fun t => List.filter (fun i => Z.eqb (lab i) t) l) ts)
    ≡ₚ List.filter (fun i => existsb (Z.eqb (lab i)) ts) l.
Proof.
  induction ts as [|t ts IH]; intros Hnd; simpl.
  - by rewrite filter_all_false.
  - apply NoDup_cons in Hnd as [Hnin Hnd].
    rewrite (IH Hnd).
    rewrite (filter_orb_disjoint (fun i => Z.eqb (lab i) t)
               (fun i => existsb (Z.eqb (lab i)) ts)); [|].
    + apply Permutation_app; [|done].
      apply reflexive_eq, filter_ext. intros i. by rewrite Z.eqb_sym.
    + intros i Hi. apply Z.eqb_eq in Hi. subst t.
      apply not_true_iff_false. intros Hex.
      apply existsb_exists in Hex as [y [Hy Heq]]. apply Z.eqb_eq in Heq. subst y.
      apply Hnin. by apply list_elem_of_In.
Qed.

Lemma tasks_list_NoDup (labels : list Z) : NoDup (tasks_list labels).
Proof.
  unfold tasks_list. rewrite merge_sort_Permutation. apply NoDup_remove_dups.
Qed.

Lemma elem_of_tasks_list (labels : list Z) (t : Z) : t ∈ tasks_list labels <-> t ∈ labels.
Proof.
  unfold tasks_list. rewrite merge_sort_Permutation. apply elem_of_remove_dups.
Qed.

Lemma StronglySorted_le_NoDup_lt (l : list Z) :
  StronglySorted Z.le l -> NoDup l -> StronglySorted Z.lt l.
Proof.
  induction l as [|x l IH]; intros Hs Hnd; [constructor|].
  apply StronglySorted_inv in Hs as [Hs Hall].
  apply NoDup_cons in Hnd as [Hnin Hnd].
  constructor; [by apply IH|].
  apply Forall_forall. intros y Hy.
  assert (x <= y) by (by eapply Forall_forall in Hall).
  assert (x <> y) by (intros ->; done). lia.
Qed.

Lemma tasks_list_sorted (labels : list Z) : StronglySorted Z.lt (tasks_list labels).
Proof.
  apply StronglySorted_le_NoDup_lt; [|apply tasks_list_NoDup].
  apply StronglySorted_merge_sort; [intros ???; lia|apply _].
Qed.

Lemma task_indices_partition (labels : list Z) :
  concat (map (task_indices labels) (tasks_list labels)) ≡ₚ seq 0 (length labels).
Proof.
  unfold task_indices.
  rewrite (concat_task_filters (fun i => nth i labels 0)) by apply tasks_list_NoDup.
  apply reflexive_eq, filter_all_true. intros i Hi.
  apply in_seq in Hi. apply existsb_exists. exists (nth i labels 0).
  split; [|apply Z.eqb_refl].
  apply list_elem_of_In, elem_of_tasks_list, list_elem_of_In, nth_In. lia.
Qed.

Lemma task_indices_lt (labels : list Z) (t : Z) (i : nat) :
  i ∈ task_indices labels t -> (i < length labels)%nat.
Proof.
  unfold task_indices. intros Hi.
  apply list_elem_of_In, filter_In in Hi as [Hi _]. apply in_seq in Hi. lia.
Qed.

Lemma index_list_is_Some {A} (xs : list A) (idx : list nat) :
  (forall i, i ∈ idx -> (i < length xs)%nat) -> is_Some (index_list xs idx).
Proof.
  intros H. apply mapM_is_Some_2, Forall_forall. intros i Hi.
  apply lookup_lt_is_Some_2. by apply H.
Qed.

Lemma index_list_length {A} (xs ys : list A) (idx : list nat) :
  index_list xs idx = Some ys -> length ys = length idx.
Proof. intros H. apply mapM_Some_1 in H. symmetry. by eapply Forall2_length. Qed.

Lemma dict_set_fresh {V} (d : list (Z * V)) (k : Z) (v : V) :
  k ∉ dict_keys d -> dict_set d k v = d ++ [(k, v)].
Proof.
  induction d as [|[k' v'] d IH]; intros Hk; simpl; [done|].
  unfold dict_keys in Hk. simpl in Hk. apply not_elem_of_cons in Hk as [Hne Hk].
  rewrite decide_False by done. f_equal. by apply IH.
Qed.

Lemma dict_get_NoDup {V} (d : list (Z * V)) (k : Z) (v : V) :
  NoDup (dict_keys d) -> (k, v) ∈ d -> dict_get d k = Some v.
Proof.
  induction d as [|[k' v'] d IH]; intros Hnd Hin; simpl; [by apply elem_of_nil in Hin|].
  unfold dict_keys in Hnd. simpl in Hnd. apply NoDup_cons in Hnd as [Hnin Hnd].
  apply elem_of_cons in Hin as [Heq|Hin].
  - injection Heq as -> ->. by rewrite decide_True.
  - rewrite decide_False; [by apply IH|].
    intros ->. apply Hnin. apply list_elem_of_fmap. by exists (k', v).
Qed.

Lemma mapM_dict_get_keys {V} (full d : list (Z * V)) :
  (forall k v, (k, v) ∈ d -> dict_get full k = Some v) ->
  mapM (fun k => v ← dict_get full k; Some (k, v)) (dict_keys d) = Some d.
Proof.
  induction d as [|[k v] d IH]; intros H; simpl; [done|].
  rewrite (H k v) by (left; done). simpl.
  rewrite IH; [done|]. intros k' v' Hin. apply H. by right.
Qed.

Lemma make_task_buffer_is_Some {Obs Act Mask LP Rew Ret}
    (b : RolloutBuffer Obs Act Mask LP Rew Ret) (labels : list Z) (t : Z) :
  well_formed b -> length labels = length (observations b) ->
  is_Some (make_task_buffer b labels t).
Proof.
  intros (Ha & Hl & Hr & Hs) Hlen.
  assert (Hidx : forall n, n = length (observations b) ->
            forall i, i ∈ task_indices labels t -> (i < n)%nat).
  { intros n -> i Hi. rewrite <- Hlen. by eapply task_indices_lt. }
  unfold make_task_buffer.
  destruct (index_list_is_Some (observations b) (task_indices labels t)) as [o ->]; [by apply Hidx|].
  destruct (index_list_is_Some (actions b) (task_indices labels t)) as [a ->]; [by apply Hidx|].
  destruct (index_list_is_Some (logprobs b) (task_indices labels t)) as [l ->]; [by apply Hidx|].
  destruct (index_list_is_Some (rewards b) (task_indices labels t)) as [r ->]; [by apply Hidx|].
  destruct (index_list_is_Some (returns b) (task_indices labels t)) as [x ->]; [by apply Hidx|].
  simpl. by eexists.
Qed.

Lemma split_loop_fresh {Obs Act Mask LP Rew Ret}
    (b : RolloutBuffer Obs Act Mask LP Rew Ret) (labels : list Z) (ts : list Z) acc :
  NoDup ts ->
  (forall t, t ∈ ts -> t ∉ dict_keys acc) ->
  (forall t, t ∈ ts -> is_Some (make_task_buffer b labels t)) ->
  exists new, split_loop b labels ts acc = Some (acc ++ new) /\
    dict_keys new = ts /\
    forall t sb, (t, sb) ∈ new -> make_task_buffer b labels t = Some sb.
Proof.
  revert acc. induction ts as [|t ts IH]; intros acc Hnd Hfresh Hsome; simpl.
  - exists []. rewrite app_nil_r. split; [done|]. split; [done|].
    intros t sb Hin. by apply elem_of_nil in Hin.
  - apply NoDup_cons in Hnd as [Hnin Hnd].
    destruct (Hsome t ltac:(by left)) as [tb Htb]. rewrite Htb. simpl.
    rewrite dict_set_fresh by (apply Hfresh; constructor).
    destruct (IH (acc ++ [(t, tb)])) as (new & Hrun & Hkeys & Hnew); [done| | |].
    + intros t' Ht'. unfold dict_keys. rewrite fmap_app. simpl.
      rewrite elem_of_app, list_elem_of_singleton. intros [Hacc| ->]; [|done].
      revert Hacc. apply Hfresh. by right.
    + intros t' Ht'. apply Hsome. by right.
    + exists ((t, tb) :: new). rewrite Hrun, <- app_assoc. simpl.
      split; [done|]. split; [unfold dict_keys in *; simpl; by f_equal|].
      intros t' sb Hin. apply elem_of_cons in Hin as [Heq|Hin].
      * by injection Heq as -> ->.
      * by apply Hnew.
Qed.

Lemma merge_sort_tasks_list (labels : list Z) :
  merge_sort Z.le (tasks_list labels) = tasks_list labels.
Proof.
  apply (Sorted_unique Z.le).
  - apply Sorted_merge_sort, _.
  - apply Sorted_merge_sort, _.
  - apply merge_sort_Permutation.
Qed.

Lemma sum_sizes {Obs Act Mask LP Rew Ret} (labels : list Z)
    (m : list (Z * RolloutBuffer Obs Act Mask LP Rew Ret)) :
  (forall t sb, (t, sb) ∈ m -> length (observations sb) = length (task_indices labels t)) ->
  sum_list (map (fun e => length (observations e.2)) m)
    = length (concat (map (task_indices labels) (dict_keys m))).
Proof.
  induction m as [|[t sb] m IH]; intros H; simpl; [done|].
  rewrite length_app, (H t sb) by (left; done).
  f_equal. apply IH. intros t' sb' Hin. apply H. by right.
Qed.

Lemma split_buffer_shape {Obs Act Mask LP Rew Ret} (lab : Obs -> Z)
    (b : RolloutBuffer Obs Act Mask LP Rew Ret) :
  well_formed b ->
  exists m, split_buffer lab b = Some m /\
    dict_keys m = tasks_list (v_net_size_list lab b) /\
    forall t sb, (t, sb) ∈ m -> make_task_buffer b (v_net_size_list lab b) t = Some sb.
Proof.
  intros Hwf. unfold split_buffer.
  destruct (split_loop_fresh b (v_net_size_list lab b) (tasks_list (v_net_size_list lab b)) [])
    as (new & Hrun & Hkeys & Hnew).
  - apply tasks_list_NoDup.
  - intros t _ Ht. by apply elem_of_nil in Ht.
  - intros t _. apply make_task_buffer_is_Some; [done|].
    unfold v_net_size_list. by rewrite length_map.
  - rewrite Hrun. simpl. exists new.
    rewrite Hkeys, merge_sort_tasks_list, <- Hkeys.
    rewrite (mapM_dict_get_keys new new).
    + done.
    + intros k v Hin. apply dict_get_NoDup; [|done].
      rewrite Hkeys. apply tasks_list_NoDup.
Qed.

(** C1: [_split_buffer] partitions the buffer.  For a buffer whose five
    parallel sequences are index-aligned, it returns a mapping whose keys
    are the distinct [v_net_size] labels in strictly ascending order; the
    index sets [np.where(labels == t)] of the keys together are a
    permutation of [0 .. N-1] (pairwise disjoint, covering every index
    once); the sub-buffer sizes sum to N; each index set is strictly
    increasing and each sub-buffer holds exactly the entries of the five
    sequences at those indices.  On labels 3,3,5,5,5,3 it yields key 3 with
    indices 0,1,5 and key 5 with indices 2,3,4, in the order [3; 5]. *)
Theorem split_buffer_partition :
  (split_buffer Scenario.obs_label Scenario.buf = Some Scenario.expected /\
   dict_keys Scenario.expected = [3; 5] /\
   task_indices [3; 3; 5; 5; 5; 3] 3 = [0; 1; 5]%nat /\
   task_indices [3; 3; 5; 5; 5; 3] 5 = [2; 3; 4]%nat) /\
  forall (Obs Act Mask LP Rew Ret : Type) (lab : Obs -> Z)
         (b : RolloutBuffer Obs Act Mask LP Rew Ret),
    well_formed b ->
    exists m, split_buffer lab b = Some m /\
      dict_keys m = tasks_list (v_net_size_list lab b) /\
      StronglySorted Z.lt (dict_keys m) /\
      concat (map (task_indices (v_net_size_list lab b)) (dict_keys m))
        ≡ₚ seq 0 (length (observations b)) /\
      sum_list (map (fun e => length (observations e.2)) m) = length (observations b) /\
      forall t sb, (t, sb) ∈ m ->
        let idx := task_indices (v_net_size_list lab b) t in
        StronglySorted lt idx /\
        index_list (observations b) idx = Some (observations sb) /\
        index_list (actions b) idx = Some (actions sb) /\
        index_list (logprobs b) idx = Some (logprobs sb) /\
        index_list (rewards b) idx = Some (rewards sb) /\
        index_list (returns b) idx = Some (returns sb).
Proof.
  split; [vm_compute; repeat split|].
  intros Obs Act Mask LP Rew Ret lab b Hwf.
  destruct (split_buffer_shape lab b Hwf) as (m & Hsplit & Hkeys & Hm).
  assert (Hn : length (v_net_size_list lab b) = length (observations b))
    by (unfold v_net_size_list; by rewrite length_map).
  assert (Hsub : forall t sb, (t, sb) ∈ m ->
    let idx := task_indices (v_net_size_list lab b) t in
    StronglySorted lt idx /\
    index_list (observations b) idx = Some (observations sb) /\
    index_list (actions b) idx = Some (actions sb) /\
    index_list (logprobs b) idx = Some (logprobs sb) /\
    index_list (rewards b) idx = Some (rewards sb) /\
    index_list (returns b) idx = Some (returns sb)).
  { intros t sb Hin idx. specialize (Hm t sb Hin).
    split; [apply filter_seq_StronglySorted|].
    unfold make_task_buffer in Hm. fold idx in Hm.
    destruct (index_list (observations b) idx) eqn:Ho; [|done]. simpl in Hm.
    destruct (index_list (actions b) idx) eqn:Ha; [|done]. simpl in Hm.
    destruct (index_list (logprobs b) idx) eqn:Hl; [|done]. simpl in Hm.
    destruct (index_list (rewards b) idx) eqn:Hr; [|done]. simpl in Hm.
    destruct (index_list (returns b) idx) eqn:Hx; [|done]. simpl in Hm.
    injection Hm as <-. done. }
  exists m. split; [done|]. split; [done|].
  split; [rewrite Hkeys; apply tasks_list_sorted|].
  assert (Hperm : concat (map (task_indices (v_net_size_list lab b)) (dict_keys m))
                    ≡ₚ seq 0 (length (observations b))).
  { rewrite Hkeys, <- Hn. apply task_indices_partition. }
  split; [done|]. split; [|done].
  rewrite (sum_sizes (v_net_size_list lab b)).
  - by rewrite Hperm, length_seq.
  - intros t sb Hin. destruct (Hsub t sb Hin) as (_ & Ho & _).
    by apply index_list_length in Ho.
Qed.

Lemma split_loop_values {Obs Act Mask LP Rew Ret}
    (P : RolloutBuffer Obs Act Mask LP Rew Ret -> Prop)
    (b : RolloutBuffer Obs Act Mask LP Rew Ret) (labels ts : list Z) acc res :
  (forall t sb, make_task_buffer b labels t = Some sb -> P sb) ->
  (forall t sb, (t, sb) ∈ acc -> P sb) ->
  split_loop b labels ts acc = Some res ->
  forall t sb, (t, sb) ∈ res -> P sb.
Proof.
  intros Hmk. revert acc. induction ts as [|t ts IH]; intros acc Hacc Hrun; simpl in Hrun.
  - by injection Hrun as <-.
  - destruct (make_task_buffer b labels t) as [tb|] eqn:Htb; [|done]. simpl in Hrun.
    intros t0 sb0 Hin0. refine (IH (dict_set acc t tb) _ Hrun t0 sb0 Hin0).
    clear Hrun IH Hin0.
    induction acc as [|[k v] acc IHa]; simpl; intros t' sb Hin.
    + apply list_elem_of_singleton in Hin. injection Hin as -> ->. by eapply Hmk.
    + case_decide; apply elem_of_cons in Hin as [Heq|Hin].
      * injection Heq as -> ->. by eapply Hmk.
      * eapply Hacc. by right.
      * injection Heq as -> ->. eapply Hacc. by left.
      * eapply IHa; [|done]. intros ???. eapply Hacc. by right.
Qed.

Lemma dict_get_elem_of {V} (d : list (Z * V)) (k : Z) (v : V) :
  dict_get d k = Some v -> (k, v) ∈ d.
Proof.
  induction d as [|[k' v'] d IH]; simpl; [done|].
  case_decide as Hk; intros Hget.
  - injection Hget as ->. subst. by left.
  - right. by apply IH.
Qed.

(** C10: [_split_buffer] never copies [action_masks]: every sub-buffer it
    returns keeps the empty [action_masks] of a fresh [RolloutBuffer()],
    whatever masks the source buffer holds. *)
Theorem split_buffer_no_action_masks {Obs Act Mask LP Rew Ret} (lab : Obs -> Z)
    (b : RolloutBuffer Obs Act Mask LP Rew Ret) m :
  split_buffer lab b = Some m ->
  forall t sb, (t, sb) ∈ m -> action_masks sb = action_masks (@RolloutBuffer_new Obs Act Mask LP Rew Ret).
Proof.
  unfold split_buffer. intros Hs.
  destruct (split_loop b _ _ []) as [tb|] eqn:Hrun; [|done]. simpl in Hs.
  intros t sb Hin.
  apply mapM_Some_1 in Hs. apply list_elem_of_lookup in Hin as [i Hi].
  destruct (Forall2_lookup_r _ _ _ _ _ Hs Hi) as (k & _ & Hk).
  destruct (dict_get tb k) as [v|] eqn:Hget; [|done]. simpl in Hk. injection Hk as -> ->.
  apply dict_get_elem_of in Hget.
  refine (split_loop_values (fun sb => action_masks sb = []) b _ _ [] tb _ _ Hrun _ _ Hget).
  - intros t' sb' Hmk. unfold make_task_buffer in Hmk. by simplify_option_eq.
  - intros ?? H. by apply elem_of_nil in H.
Qed.

Lemma split_buffer_no_action_masks_witness :
  split_buffer Scenario.obs_label Scenario.buf = Some Scenario.expected /\
  action_masks (snd (nth 0 Scenario.expected (0, RolloutBuffer_new))) = [].
Proof.
  split; [vm_compute; reflexivity|].
  apply (split_buffer_no_action_masks Scenario.obs_label Scenario.buf Scenario.expected
           ltac:(vm_compute; reflexivity) 3).
  vm_compute. left.
Defined.
End BufferFacts.

Module RoutingFacts.
Import Agent.

Lemma dict_get_keys {K V} `{EqDecision K} (d : list (K * V)) (k : K) :
  k ∈ dict_keys d <-> is_Some (dict_get d k).
Proof.
  induction d as [|[k' v'] d IH]; simpl.
  - split; [intros H; by apply elem_of_nil in H|intros [? H]; done].
  - unfold dict_keys in *. simpl. rewrite elem_of_cons, IH.
    case_decide as Hk; split; intros Hx; try by eauto.
    destruct Hx as [->|Hx]; done.
Qed.

(** C8: when the single-policy override is set (a value other than [0])
    and [self.task_policies] has no entry for it, [solve] raises
    [KeyError] before anything else happens: the searcher's policy is not
    changed and the inherited solver is never run. *)
Theorem solve_override_missing_raises {Obs Act Mask LP Rew Ret Inst Sol : Type}
    (num_nodes : Inst -> Z)
    (base_solve : Inst -> M (St Obs Act Mask LP Rew Ret) Sol)
    (instance : Inst) (s : St Obs Act Mask LP Rew Ret) :
  ne_zero (infer_with_single_task_policy_id s) = true ->
  dict_get (task_policies s) (infer_with_single_task_policy_id s) = None ->
  solve num_nodes base_solve instance s = (Raise key_error, s).
Proof.
  intros Hne Hmiss. unfold solve, get_task_policy, St.bind, gets, lift, raise. simpl.
  rewrite Hne, Hmiss. reflexivity.
Qed.

Lemma solve_override_missing_raises_witness :
  solve Scenario.inst_nodes Scenario.base_solve_echo 5 Scenario.agent0_infer5
    = (Raise key_error, Scenario.agent0_infer5).
Proof.
  apply solve_override_missing_raises; vm_compute; reflexivity.
Defined.

(** C9: the override is switched off exactly by the value [0], which is
    also the default of [__init__]'s keyword argument.  With [0], [solve]
    routes by size: the task policy of the instance's node count when one
    exists, the meta-policy otherwise (so a task policy for id [0] is only
    used for instances with 0 nodes); with any other value [v] that has a
    task policy, [solve] uses that policy whatever the instance. *)
Theorem solve_override_zero_disabled :
  (infer_id_of_kwargs [] = KInt 0 /\
   forall v, ne_zero v = false <-> v = KInt 0) /\
  forall {Obs Act Mask LP Rew Ret Inst Sol : Type}
    (num_nodes : Inst -> Z) (base_solve : Inst -> M (St Obs Act Mask LP Rew Ret) Sol)
    (instance : Inst) (s : St Obs Act Mask LP Rew Ret),
    (infer_with_single_task_policy_id s = KInt 0 ->
     solve num_nodes base_solve instance s
       = base_solve instance
           (set_searcher_policy
              (match dict_get (task_policies s) (KInt (num_nodes instance)) with
               | Some l => l
               | None => meta_policy s
               end) s)) /\
    (forall l, ne_zero (infer_with_single_task_policy_id s) = true ->
     dict_get (task_policies s) (infer_with_single_task_policy_id s) = Some l ->
     solve num_nodes base_solve instance s
       = base_solve instance (set_searcher_policy l s)).
Proof.
  split.
  - split; [reflexivity|].
    intros [k|[|p|p]]; simpl; split; intros H; try done; by injection H.
  - intros Obs Act Mask LP Rew Ret Inst Sol num_nodes base_solve instance s. split.
    + intros H0. unfold solve, get_task_policy, St.bind, gets, modify, lift, ret.
      simpl. rewrite H0. simpl.
      case_bool_decide as Hin.
      * apply dict_get_keys in Hin as [l Hl]. rewrite Hl. reflexivity.
      * destruct (dict_get (task_policies s) (KInt (num_nodes instance))) eqn:Hg;
          [|reflexivity].
        exfalso. apply Hin, dict_get_keys. by rewrite Hg.
    + intros l Hne Hl. unfold solve, get_task_policy, St.bind, gets, modify, lift, ret.
      simpl. rewrite Hne, Hl. reflexivity.
Qed.

Lemma solve_override_zero_disabled_witness :
  fst (solve Scenario.inst_nodes Scenario.base_solve_echo 3 Scenario.agent0) = Ok 2%nat /\
  fst (solve Scenario.inst_nodes Scenario.base_solve_echo 0 Scenario.agent0) = Ok 0%nat.
Proof.
  split.
  - rewrite (proj1 (proj2 solve_override_zero_disabled _ _ _ _ _ _ _ _
                       Scenario.inst_nodes Scenario.base_solve_echo 3 Scenario.agent0)
             ltac:(reflexivity)).
    reflexivity.
  - rewrite (proj1 (proj2 solve_override_zero_disabled _ _ _ _ _ _ _ _
                       Scenario.inst_nodes Scenario.base_solve_echo 0 Scenario.agent0)
             ltac:(reflexivity)).
    reflexivity.
Defined.
End RoutingFacts.

Module UpdateFacts.
Import Buffer Agent.

Section Frame.
Context {Obs Act Mask LP Rew Ret : Type}.
Abbreviation State := (St Obs Act Mask LP Rew Ret).

(** What the set-up of [_fine_tuning_update] may change: policies,
    optimizers and the task dictionaries, never a buffer. *)
Definition heap_frame (s s' : State) : Prop :=
  bufs s' = bufs s /\ buffer s' = buffer s /\ (next_loc s <= next_loc s')%nat.

Definition preserves {A} (m : M State A) : Prop := forall s, heap_frame s (snd (m s)).

Lemma heap_frame_refl s : heap_frame s s.
Proof. repeat split; lia. Qed.

Lemma heap_frame_trans s1 s2 s3 : heap_frame s1 s2 -> heap_frame s2 s3 -> heap_frame s1 s3.
Proof. intros (H1 & H2 & H3) (H4 & H5 & H6). repeat split; congruence || lia. Qed.

Lemma preserves_bind {A B} (m : M State A) (k : A -> M State B) :
  preserves m -> (forall a, preserves (k a)) -> preserves (St.bind m k).
Proof.
  intros Hm Hk s. unfold St.bind. specialize (Hm s).
  destruct (m s) as [[a|e] s1]; simpl in *; [|done].
  eapply heap_frame_trans; [exact Hm|]. apply Hk.
Qed.

Lemma preserves_ret {A} (a : A) : preserves (ret a).
Proof. intros s. apply heap_frame_refl. Qed.
Lemma preserves_raise {A} e : preserves (@raise _ A e).
Proof. intros s. apply heap_frame_refl. Qed.
Lemma preserves_gets {A} (f : State -> A) : preserves (gets f).
Proof. intros s. apply heap_frame_refl. Qed.
Lemma preserves_lift {A} (o : option A) e : preserves (lift o e).
Proof. destruct o; [apply preserves_ret|apply preserves_raise]. Qed.

Lemma preserves_create_task_policy k : preserves (@create_task_policy Obs Act Mask LP Rew Ret k).
Proof.
  unfold create_task_policy, get_task_policy.
  repeat (apply preserves_bind; intros; try apply preserves_gets; try apply preserves_lift);
    intros s; unfold heap_frame, modify, deepcopy_policy, Adam; simpl; repeat split; lia.
Qed.

Lemma preserves_ensure_task_policy k : preserves (@ensure_task_policy Obs Act Mask LP Rew Ret k).
Proof.
  unfold ensure_task_policy. apply preserves_bind; [apply preserves_gets|].
  intros tp. case_bool_decide; [apply preserves_ret|apply preserves_create_task_policy].
Qed.

Lemma preserves_for {A} (xs : list A) (body : A -> M State unit) :
  (forall x, preserves (body x)) -> preserves (for_ xs body).
Proof.
  intros Hb. induction xs as [|x xs IH]; simpl; [apply preserves_ret|].
  by apply preserves_bind.
Qed.
End Frame.

Ltac run_M := unfold St.bind, gets, modify, ret, raise, lift in *; simpl in *.

Section Loop.
Context {Obs Act Mask LP Rew Ret : Type}.
Abbreviation State := (St Obs Act Mask LP Rew Ret).
Variable obs_v_net_size : Obs -> Z.
Variable gu : RolloutBuffer Obs Act Mask LP Rew Ret -> Params -> OptState ->
              option exc * (Params * OptState * RolloutBuffer Obs Act Mask LP Rew Ret).

Lemma upd_other {A} (h : loc -> A) (l l' : loc) (v : A) : l' <> l -> upd h l v l' = h l'.
Proof. intros Hne. unfold upd. destruct (Nat.eqb_spec l' l); done. Qed.

Lemma alloc_task_buffers_spec tbs (s s' : State) r :
  alloc_task_buffers tbs s = (r, s') ->
  exists tls, r = Ok tls /\ buffer s' = buffer s /\ (next_loc s <= next_loc s')%nat /\
    (forall l, (l < next_loc s)%nat -> bufs s' l = bufs s l) /\
    map fst tls = map fst tbs /\
    Forall (fun e => next_loc s <= e.2 < next_loc s')%nat tls.
Proof.
  revert s s' r. induction tbs as [|[t b] tbs IH]; intros s s' r Hrun; simpl in Hrun.
  - injection Hrun as <- <-. exists []. repeat split; try done; lia.
  - unfold St.bind, new_buffer, ret in Hrun. simpl in Hrun.
    destruct (alloc_task_buffers tbs _) as [r' s1] eqn:Hrest.
    destruct (IH _ _ _ Hrest) as (tls & -> & Hb & Hn & Hh & Hk & Hf). simpl in *.
    injection Hrun as <- <-. exists ((t, next_loc s) :: tls).
    split; [done|]. split; [done|]. split; [lia|].
    split; [|split; [simpl; by f_equal|]].
    + intros l Hl. rewrite Hh by lia. apply upd_other. lia.
    + constructor; [simpl; lia|].
      eapply Forall_impl; [exact Hf|]. simpl. intros [? ?]; simpl; lia.
Qed.

Lemma task_step_frame (e : Z * loc) (s s' : State) r (N : loc) :
  (N <= e.2)%nat -> task_step gu e s = (r, s') ->
  next_loc s' = next_loc s /\ (forall l, (l < N)%nat -> bufs s' l = bufs s l) /\
  (r = Ok tt -> buffer s' = e.2).
Proof.
  destruct e as [t bl]. simpl. intros HN Hrun.
  unfold task_step, get_task_policy, get_task_optimizer, super_update in Hrun.
  run_M.
  destruct (dict_get (task_policies s) (KInt t)) as [pl|]; simpl in Hrun;
    [|injection Hrun as <- <-; repeat split; done].
  destruct (dict_get (task_optimizers s) (KInt t)) as [ol|]; simpl in Hrun;
    [|injection Hrun as <- <-; repeat split; done].
  destruct (gu _ _ _) as [[ex|] [[p o] b]]; injection Hrun as <- <-; simpl;
    (split; [done|]); (split; [intros l Hl; apply upd_other; lia|]); done.
Qed.

Lemma for_task_steps (tls : list (Z * loc)) (s s' : State) r (N : loc) :
  Forall (fun e => N <= e.2)%nat tls -> for_ tls (task_step gu) s = (r, s') ->
  next_loc s' = next_loc s /\ (forall l, (l < N)%nat -> bufs s' l = bufs s l) /\
  (tls = [] -> s' = s) /\
  (r = Ok tt -> forall pre e, tls = pre ++ [e] -> buffer s' = e.2).
Proof.
  revert s s' r. induction tls as [|x tls IH]; intros s s' r Hall Hrun; simpl in Hrun.
  - injection Hrun as <- <-. split; [done|]. split; [done|]. split; [done|].
    intros _ pre e Heq. destruct pre; discriminate.
  - apply Forall_cons in Hall as [Hx Hall].
    unfold St.bind in Hrun.
    destruct (task_step gu x s) as [[[]|ex] s1] eqn:Hstep.
    + destruct (task_step_frame x s s1 _ N Hx Hstep) as (Hn1 & Hb1 & Hbuf1).
      destruct (IH s1 s' r Hall Hrun) as (Hn2 & Hb2 & Hnil & Hlast).
      split; [congruence|]. split; [intros l Hl; rewrite Hb2, Hb1 by done; done|].
      split; [done|]. intros Hr pre e Heq.
      destruct pre as [|y pre]; simpl in Heq; injection Heq as -> Heq.
      * subst tls. rewrite (Hnil eq_refl). by apply Hbuf1.
      * by apply (Hlast Hr pre e).
    + injection Hrun as <- <-.
      destruct (task_step_frame x s s1 _ N Hx Hstep) as (Hn1 & Hb1 & _).
      repeat split; try done.
Qed.



Lemma for_cons {A} (x : A) (xs : list A) (body : A -> M State unit) :
  for_ (x :: xs) body = St.bind (body x) (fun _ => for_ xs body).
Proof. reflexivity. Qed.

Lemma for_app {A} (xs ys : list A) (body : A -> M State unit) (s : State) :
  for_ (xs ++ ys) body s = St.bind (for_ xs body) (fun _ => for_ ys body) s.
Proof.
  revert s. induction xs as [|x xs IH]; intros s; simpl; [done|].
  unfold St.bind at 1 3. unfold St.bind at 1. cbn beta.
  destruct (body x s) as [[[]|e] s1]; [|done].
  rewrite IH. done.
Qed.

Lemma prepare_update_spec (s s0 : State) tls :
  prepare_update obs_v_net_size s = (Ok tls, s0) ->
  buffer s0 = buffer s /\ (next_loc s <= next_loc s0)%nat /\
  (forall l, (l < next_loc s)%nat -> bufs s0 l = bufs s l) /\
  Forall (fun e => next_loc s <= e.2 < next_loc s0)%nat tls /\
  exists m, split_buffer obs_v_net_size (bufs s (buffer s)) = Some m /\ map fst tls = map fst m.
Proof.
  intros Hrun. unfold prepare_update in Hrun.
  unfold St.bind at 1, gets at 1 in Hrun. simpl in Hrun.
  unfold St.bind at 1 in Hrun.
  pose proof (preserves_for (stats_task_dist_keys obs_v_net_size (bufs s (buffer s)))
                (fun t => ensure_task_policy (KInt t)) (fun t => preserves_ensure_task_policy _) s)
    as Hfr.
  destruct (for_ _ _ s) as [[[]|ex] s1]; [|discriminate]. simpl in Hfr.
  destruct Hfr as (Hb & Hbuf & Hn).
  unfold St.bind at 1, gets at 1 in Hrun. simpl in Hrun.
  unfold St.bind at 1 in Hrun.
  rewrite Hb, Hbuf in Hrun.
  destruct (split_buffer obs_v_net_size (bufs s (buffer s))) as [m|] eqn:Hsplit;
    simpl in Hrun; [|discriminate].
  unfold ret in Hrun. simpl in Hrun.
  destruct (alloc_task_buffers_spec m s1 s0 (Ok tls) Hrun) as (tls' & [= <-] & Hb2 & Hn2 & Hh & Hk & Hf).
  split; [congruence|]. split; [lia|].
  split; [intros l Hl; rewrite Hh by lia; by rewrite Hb|].
  split; [|by exists m].
  eapply Forall_impl; [exact Hf|]. simpl. intros ? ?; lia.
Qed.
End Loop.

Lemma tasks_list_nil : tasks_list [] = [].
Proof. reflexivity. Qed.

Lemma prepare_tasks_nonempty {Obs Act Mask LP Rew Ret} (lab : Obs -> Z)
    (s s0 : St Obs Act Mask LP Rew Ret) tls :
  well_formed (bufs s (buffer s)) ->
  prepare_update lab s = (Ok tls, s0) ->
  (observations (bufs s (buffer s)) = [] <-> tls = []).
Proof.
  intros Hwf Hp.
  destruct (prepare_update_spec lab s s0 tls Hp) as (_ & _ & _ & _ & m & Hsplit & Hk).
  destruct (BufferFacts.split_buffer_shape lab _ Hwf) as (m' & Hsplit' & Hk' & _).
  rewrite Hsplit in Hsplit'. injection Hsplit' as <-.
  unfold dict_keys in Hk'. rewrite Hk' in Hk.
  split.
  - intros Hnil. unfold v_net_size_list in Hk. rewrite Hnil in Hk. simpl in Hk.
    rewrite tasks_list_nil in Hk. by destruct tls.
  - intros ->. destruct (observations (bufs s (buffer s))) as [|o os] eqn:Ho; [done|].
    exfalso. assert (Hin : lab o ∈ tasks_list (v_net_size_list lab (bufs s (buffer s)))).
    { apply BufferFacts.elem_of_tasks_list. unfold v_net_size_list. rewrite Ho. left. }
    rewrite <- Hk in Hin. simpl in Hin. by apply elem_of_nil in Hin.
Qed.



(** C3: when the generic update raises on the sub-buffer of task [t], the
    exception leaves [update()] at once: the state it leaves is the one
    the failing call produced, so no later task is processed, and the
    original buffer object is not cleared.  The agent's [buffer]
    attribute is left on the failing task's sub-buffer, a different
    object. *)
Theorem update_raise_propagates {Obs Act Mask LP Rew Ret} (lab : Obs -> Z) gu
    (s s0 s1 s2 : St Obs Act Mask LP Rew Ret) tls pre (t : Z) (l : loc) post pl ol (e : exc) :
  (buffer s < next_loc s)%nat ->
  prepare_update lab s = (Ok tls, s0) ->
  tls = pre ++ (t, l) :: post ->
  for_ pre (task_step gu) s0 = (Ok tt, s1) ->
  dict_get (task_policies s1) (KInt t) = Some pl ->
  dict_get (task_optimizers s1) (KInt t) = Some ol ->
  super_update gu (set_active pl ol l s1) = (Raise e, s2) ->
  update lab gu s = (Raise e, s2) /\
  bufs s2 (buffer s) = bufs s (buffer s) /\
  buffer s2 = l /\ l <> buffer s.
Proof.
  intros Hfresh Hp Htls Hpre Hpl Hol Hsup.
  destruct (prepare_update_spec lab s s0 tls Hp) as (Hb0 & Hn0 & Hh0 & Hf0 & _).
  rewrite Htls in Hf0. apply Forall_app in Hf0 as [Hfpre Hfl].
  apply Forall_cons in Hfl as [Hl _]. simpl in Hl.
  destruct (for_task_steps gu pre s0 s1 (Ok tt) (next_loc s)) as (_ & Hh1 & _);
    [eapply Forall_impl; [exact Hfpre|]; simpl; intros ? ?; lia|done|].
  assert (Hstep : task_step gu (t, l) s1 = (Raise e, s2)).
  { unfold task_step, get_task_policy, get_task_optimizer. run_M.
    rewrite Hpl. simpl. rewrite Hol. simpl. exact Hsup. }
  split.
  - unfold update, fine_tuning_update.
    unfold St.bind at 1, gets at 1. simpl.
    unfold St.bind at 1. rewrite Hp.
    unfold St.bind at 1. rewrite Htls, for_app.
    unfold St.bind at 1. rewrite Hpre. cbv beta iota.
    rewrite for_cons. unfold St.bind at 1. rewrite Hstep. reflexivity.
  - unfold super_update in Hsup. simpl in Hsup.
    destruct (gu _ _ _) as [[ex|] [[p o] b]]; [|discriminate].
    injection Hsup as <- <-. simpl.
    split; [|split; [done|lia]].
    rewrite upd_other by lia. rewrite Hh1 by lia. apply Hh0. done.
Qed.

Lemma update_raise_propagates_witness :
  update Scenario.obs_label Scenario.gu_fail5 Scenario.agent0
    = (Raise Scenario.nan_error, Scenario.fail_s2) /\
  bufs Scenario.fail_s2 6%nat = Scenario.buf /\
  buffer Scenario.fail_s2 = 10%nat.
Proof.
  pose proof (update_raise_propagates Scenario.obs_label Scenario.gu_fail5 Scenario.agent0
              Scenario.fail_s0 Scenario.fail_s1 Scenario.fail_s2
              [(3, 9%nat); (5, 10%nat)] [(3, 9%nat)] 5 10%nat [] 7%nat 8%nat Scenario.nan_error)
    as H.
  destruct H as (H1 & H2 & H3 & _).
  - vm_compute. lia.
  - vm_compute. reflexivity.
  - reflexivity.
  - vm_compute. reflexivity.
  - vm_compute. reflexivity.
  - vm_compute. reflexivity.
  - vm_compute. reflexivity.
  - split; [exact H1|]. split; [|exact H3].
    change (buffer Scenario.agent0) with 6%nat in H2. rewrite H2. reflexivity.
Defined.

(** C3, as the claim states it, fails in its last part: after the generic
    update raised on task 5, the agent's buffer is the sub-buffer of task 5
    (three steps), not the original six-step buffer, so the original
    contents are no longer reachable through the agent. *)
Lemma update_raise_buffer_not_original :
  fst (update Scenario.obs_label Scenario.gu_fail5 Scenario.agent0) = Raise Scenario.nan_error /\
  observations (bufs (snd (update Scenario.obs_label Scenario.gu_fail5 Scenario.agent0))
                     (buffer (snd (update Scenario.obs_label Scenario.gu_fail5 Scenario.agent0))))
    = [(5, 2%nat); (5, 3%nat); (5, 4%nat)] /\
  observations (bufs Scenario.agent0 (buffer Scenario.agent0))
    = [(3, 0%nat); (3, 1%nat); (5, 2%nat); (5, 3%nat); (5, 4%nat); (3, 5%nat)].
Proof. vm_compute. repeat split. Qed.
End UpdateFacts.

Module LoadFacts.
Import Agent.

Section Dicts.
Context {K V : Type} `{EqDecision K}.

Lemma dict_get_set (d : list (K * V)) k v k' :
  dict_get (dict_set d k v) k' = if decide (k' = k) then Some v else dict_get d k'.
Proof.
  induction d as [|[k0 v0] d IH]; simpl; [done|].
  destruct (decide (k = k0)) as [H0|H0]; simpl; [|rewrite IH];
    repeat case_decide; subst; congruence.
Qed.

Lemma dict_keys_set_elem (d : list (K * V)) k v k' :
  k' ∈ dict_keys (dict_set d k v) <-> k' = k \/ k' ∈ dict_keys d.
Proof.
  rewrite !RoutingFacts.dict_get_keys, dict_get_set.
  case_decide as Hk; split; intros Hx.
  - by left.
  - by eexists.
  - by right.
  - by destruct Hx.
Qed.

Lemma dict_keys_set_NoDup (d : list (K * V)) k v :
  NoDup (dict_keys d) -> NoDup (dict_keys (dict_set d k v)).
Proof.
  induction d as [|[k0 v0] d IH]; intros Hnd; simpl.
  - constructor; [apply not_elem_of_nil|constructor].
  - unfold dict_keys in *. simpl in *. apply NoDup_cons in Hnd as [Hn Hnd].
    case_decide as Hk; simpl; [subst; by constructor|].
    constructor; [|by apply IH].
    change (k0 ∉ dict_keys (dict_set d k v)). rewrite dict_keys_set_elem.
    intros [->|Hin]; done.
Qed.

Lemma dict_set_fresh' (d : list (K * V)) k v :
  k ∉ dict_keys d -> dict_set d k v = d ++ [(k, v)].
Proof.
  induction d as [|[k0 v0] d IH]; intros Hk; simpl; [done|].
  unfold dict_keys in Hk. simpl in Hk. apply not_elem_of_cons in Hk as [Hne Hk].
  rewrite decide_False by done. f_equal. by apply IH.
Qed.

Lemma dict_get_Some_snd (d : list (K * V)) k v : dict_get d k = Some v -> v ∈ map snd d.
Proof.
  induction d as [|[k0 v0] d IH]; simpl; [done|].
  case_decide; intros Hg; [injection Hg as ->; by left|right; by apply IH].
Qed.

Lemma dict_get_inj (d : list (K * V)) k1 k2 v :
  NoDup (map snd d) -> dict_get d k1 = Some v -> dict_get d k2 = Some v -> k1 = k2.
Proof.
  induction d as [|[k0 v0] d IH]; simpl; [done|].
  intros Hnd. apply NoDup_cons in Hnd as [Hn Hnd].
  case_decide as H1; case_decide as H2; intros E1 E2; subst; try done.
  - injection E1 as ->. exfalso. apply Hn. by eapply dict_get_Some_snd.
  - injection E2 as ->. exfalso. apply Hn. by eapply dict_get_Some_snd.
  - by eapply IH.
Qed.

Lemma dict_get_None (d : list (K * V)) k : dict_get d k = None <-> k ∉ dict_keys d.
Proof.
  rewrite RoutingFacts.dict_get_keys. destruct (dict_get d k); split; intros H.
  - done.
  - exfalso. apply H. by eexists.
  - by intros [? ?].
  - done.
Qed.
End Dicts.

Lemma bind_ok {S A B} (m : M S A) (k : A -> M S B) s a s' :
  m s = (Ok a, s') -> St.bind m k s = k a s'.
Proof. intros H. unfold St.bind. by rewrite H. Qed.

Lemma bind_gets {S A B} (f : S -> A) (k : A -> M S B) s :
  St.bind (gets f) k s = k (f s) s.
Proof. reflexivity. Qed.

Lemma try_ok {S A} (m : M S A) h s a s' :
  m s = (Ok a, s') -> try_except m h s = (Ok a, s').
Proof. intros H. unfold try_except. by rewrite H. Qed.

Lemma val_get_policy a b : val_get (VDict [(KStr "policy", a); (KStr "optimizer", b)]) (KStr "policy") = Ok a.
Proof. reflexivity. Qed.
Lemma val_get_optimizer a b : val_get (VDict [(KStr "policy", a); (KStr "optimizer", b)]) (KStr "optimizer") = Ok b.
Proof. reflexivity. Qed.
Lemma val_get_meta a b : val_get (VDict [(KStr "meta_policy", a); (KStr "task_policies", b)]) (KStr "meta_policy") = Ok a.
Proof. reflexivity. Qed.
Lemma val_get_tasks a b : val_get (VDict [(KStr "meta_policy", a); (KStr "task_policies", b)]) (KStr "task_policies") = Ok b.
Proof. reflexivity. Qed.

Lemma NoDup_snoc' {A} (l : list A) x : NoDup l -> x ∉ l -> NoDup (l ++ [x]).
Proof.
  intros Hl Hx. apply NoDup_app. split; [done|]. split; [|apply NoDup_singleton].
  intros y Hy Hy'. apply list_elem_of_singleton in Hy'. subst. done.
Qed.

Lemma Forall_upd_fresh {A} (P : A -> Prop) (h : loc -> A) (x : loc) (v : A) (L : list loc) :
  Forall (fun l => l < x)%nat L -> Forall (fun l => P (h l)) L -> Forall (fun l => P (upd h x v l)) L.
Proof.
  intros Hlt HL. rewrite Forall_forall in *. intros l Hl.
  rewrite UpdateFacts.upd_other; [by apply HL|]. specialize (Hlt l Hl). lia.
Qed.

Lemma for_cons_L {S A} (x : A) (xs : list A) (body : A -> M S unit) :
  for_ (x :: xs) body = St.bind (body x) (fun _ => for_ xs body).
Proof. reflexivity. Qed.

Section Load.
Context {Obs Act Mask LP Rew Ret : Type}.
Abbreviation State := (St Obs Act Mask LP Rew Ret).

Lemma getv_ok v k w (t : State) : val_get v k = Ok w -> getv v k t = (Ok w, t).
Proof. intros H. unfold getv. by rewrite H. Qed.

Lemma get_task_policy_ok k l (t : State) :
  dict_get (task_policies t) k = Some l -> get_task_policy k t = (Ok l, t).
Proof. intros H. unfold get_task_policy, St.bind, gets. simpl. by rewrite H. Qed.

Lemma get_task_optimizer_ok k l (t : State) :
  dict_get (task_optimizers t) k = Some l -> get_task_optimizer k t = (Ok l, t).
Proof. intros H. unfold get_task_optimizer, St.bind, gets. simpl. by rewrite H. Qed.

Lemma policy_load_ok l P (t : State) :
  length P = length (pols t l) ->
  policy_load_state_dict l (VParams P) t
    = (Ok tt, set_heaps (upd (pols t) l P) (opts t) (bufs t) (next_loc t) t).
Proof.
  intros H. unfold policy_load_state_dict, St.bind, gets. simpl.
  rewrite H, Nat.eqb_refl. reflexivity.
Qed.

Lemma optimizer_load_ok l O (t : State) :
  O.1 = (opts t l).1 ->
  optimizer_load_state_dict l (VOpt O) t
    = (Ok tt, set_heaps (pols t) (upd (opts t) l O) (bufs t) (next_loc t) t).
Proof.
  intros H. destruct O as [m st]. simpl in H.
  unfold optimizer_load_state_dict, St.bind, gets. simpl.
  rewrite H, Nat.eqb_refl. reflexivity.
Qed.

Lemma Forall_upd {A} (P : A -> Prop) (h : loc -> A) (x : loc) (v : A) (L : list loc) :
  Forall (fun l => P (h l)) L -> P v -> Forall (fun l => P (upd h x v l)) L.
Proof.
  intros HL Hv. eapply Forall_impl; [exact HL|]. intros l Hl. unfold upd.
  destruct (Nat.eqb l x); done.
Qed.

Lemma wf_write_policy n (t : State) l P :
  wf_agent n t -> length P = n ->
  wf_agent n (set_heaps (upd (pols t) l P) (opts t) (bufs t) (next_loc t) t).
Proof.
  unfold wf_agent, set_heaps. simpl. intros (H1 & H2 & H3 & H4 & H5 & H6 & H7 & H8) HP.
  repeat split; try done. by apply (Forall_upd (fun p => length p = n)).
Qed.

Lemma wf_write_optimizer n (t : State) l O :
  wf_agent n t -> O.1 = n ->
  wf_agent n (set_heaps (pols t) (upd (opts t) l O) (bufs t) (next_loc t) t).
Proof.
  unfold wf_agent, set_heaps. simpl. intros (H1 & H2 & H3 & H4 & H5 & H6 & H7 & H8) HO.
  repeat split; try done. by apply (Forall_upd (fun o => o.1 = n)).
Qed.

Section Wf.
Variables (n : nat) (t : State).
Hypothesis Hwf : wf_agent n t.

Lemma wf_pol_lt k l : dict_get (task_policies t) k = Some l -> (l < next_loc t)%nat.
Proof.
  destruct Hwf as (_ & _ & _ & _ & H5 & _). intros Hg.
  rewrite Forall_forall in H5. apply H5. right. by eapply dict_get_Some_snd.
Qed.
Lemma wf_opt_lt k l : dict_get (task_optimizers t) k = Some l -> (l < next_loc t)%nat.
Proof.
  destruct Hwf as (_ & _ & _ & _ & _ & H6 & _). intros Hg.
  rewrite Forall_forall in H6. apply H6. right. by eapply dict_get_Some_snd.
Qed.
Lemma wf_pol_len k l : dict_get (task_policies t) k = Some l -> length (pols t l) = n.
Proof.
  destruct Hwf as (_ & _ & _ & _ & _ & _ & H7 & _). intros Hg.
  rewrite Forall_forall in H7. apply H7. right. by eapply dict_get_Some_snd.
Qed.
Lemma wf_opt_len k l : dict_get (task_optimizers t) k = Some l -> (opts t l).1 = n.
Proof.
  destruct Hwf as (_ & _ & _ & _ & _ & _ & _ & H8). intros Hg.
  rewrite Forall_forall in H8. apply H8. right. by eapply dict_get_Some_snd.
Qed.
Lemma wf_pol_not_meta k : dict_get (task_policies t) k <> Some (meta_policy t).
Proof.
  destruct Hwf as (_ & _ & H3 & _). apply NoDup_cons in H3 as [Hn _].
  intros Hg. apply Hn. by eapply dict_get_Some_snd.
Qed.
Lemma wf_opt_not_meta k : dict_get (task_optimizers t) k <> Some (meta_optimizer t).
Proof.
  destruct Hwf as (_ & _ & _ & H4 & _). apply NoDup_cons in H4 as [Hn _].
  intros Hg. apply Hn. by eapply dict_get_Some_snd.
Qed.
Lemma wf_pol_inj k1 k2 l :
  dict_get (task_policies t) k1 = Some l -> dict_get (task_policies t) k2 = Some l -> k1 = k2.
Proof.
  destruct Hwf as (_ & _ & H3 & _). apply NoDup_cons in H3 as [_ Hnd].
  by apply dict_get_inj.
Qed.
Lemma wf_opt_inj k1 k2 l :
  dict_get (task_optimizers t) k1 = Some l -> dict_get (task_optimizers t) k2 = Some l -> k1 = k2.
Proof.
  destruct Hwf as (_ & _ & _ & H4 & _). apply NoDup_cons in H4 as [_ Hnd].
  by apply dict_get_inj.
Qed.
Lemma wf_opt_of_pol k : is_Some (dict_get (task_policies t) k) -> is_Some (dict_get (task_optimizers t) k).
Proof.
  destruct Hwf as (_ & H2 & _). rewrite <- !RoutingFacts.dict_get_keys, H2. done.
Qed.
Lemma wf_opt_none k : dict_get (task_policies t) k = None -> dict_get (task_optimizers t) k = None.
Proof.
  destruct Hwf as (_ & H2 & _). rewrite !dict_get_None, H2. done.
Qed.
End Wf.

Lemma ensure_spec n (t : State) k :
  wf_agent n t ->
  exists t1, ensure_task_policy k t = (Ok tt, t1) /\ wf_agent n t1 /\
    meta_policy t1 = meta_policy t /\ meta_optimizer t1 = meta_optimizer t /\
    (next_loc t <= next_loc t1)%nat /\
    (forall k' l, dict_get (task_policies t) k' = Some l -> dict_get (task_policies t1) k' = Some l) /\
    (forall k' l, dict_get (task_optimizers t) k' = Some l -> dict_get (task_optimizers t1) k' = Some l) /\
    (forall k' l, dict_get (task_policies t1) k' = Some l -> dict_get (task_policies t) k' = None -> (next_loc t <= l)%nat) /\
    (forall k' l, dict_get (task_optimizers t1) k' = Some l -> dict_get (task_optimizers t) k' = None -> (next_loc t <= l)%nat) /\
    is_Some (dict_get (task_policies t1) k) /\
    (forall l, (l < next_loc t)%nat -> pols t1 l = pols t l) /\
    (forall l, (l < next_loc t)%nat -> opts t1 l = opts t l).
Proof.
  intros Hwf. unfold ensure_task_policy. rewrite bind_gets.
  case_bool_decide as Hin.
  - exists t. split; [done|]. split; [exact Hwf|].
    split; [done|]. split; [done|]. split; [lia|].
    split; [done|]. split; [done|].
    split; [intros k' l H1 H2; congruence|]. split; [intros k' l H1 H2; congruence|].
    split; [by apply RoutingFacts.dict_get_keys|]. split; done.
  - unfold create_task_policy, get_task_policy, deepcopy_policy, Adam, St.bind, gets, modify, lift, ret.
    simpl. rewrite dict_get_set, decide_True by done. simpl.
    eexists. split; [reflexivity|].
    unfold set_task_optimizers, set_heaps, set_task_policies. simpl.
    pose proof Hwf as (H1 & H2 & H3 & H4 & H5 & H6 & H7 & H8).
    assert (Hin' : k ∉ dict_keys (task_optimizers t)) by (rewrite H2; done).
    assert (Hu : upd (pols t) (next_loc t) (pols t (meta_policy t)) (next_loc t)
                 = pols t (meta_policy t)) by (unfold upd; by rewrite Nat.eqb_refl).
    rewrite Hu.
    split.
    { unfold wf_agent. simpl. rewrite !dict_set_fresh' by done.
      unfold dict_keys in *. rewrite !map_app. simpl. rewrite !app_comm_cons.
      split; [apply NoDup_snoc'; done|].
      split; [by rewrite H2|].
      split; [apply NoDup_snoc'; [done|]; intros Hx;
              rewrite Forall_forall in H5; apply H5 in Hx; lia|].
      split; [apply NoDup_snoc'; [done|]; intros Hx;
              rewrite Forall_forall in H6; apply H6 in Hx; lia|].
      split; [apply Forall_app; split; [eapply Forall_impl; [exact H5|]; simpl; lia|];
              constructor; [lia|constructor]|].
      split; [apply Forall_app; split; [eapply Forall_impl; [exact H6|]; simpl; lia|];
              constructor; [lia|constructor]|].
      split; apply Forall_app; split.
      - apply (Forall_upd_fresh (fun p => length p = n)); [|done].
        eapply Forall_impl; [exact H5|]. simpl. lia.
      - constructor; [|constructor]. rewrite Hu. exact (Forall_inv H7).
      - apply (Forall_upd_fresh (fun o => o.1 = n)); [|done].
        eapply Forall_impl; [exact H6|]. simpl. lia.
      - constructor; [|constructor]. unfold upd. rewrite Nat.eqb_refl. simpl.
        exact (Forall_inv H7). }
    split; [done|]. split; [done|]. split; [lia|].
    split; [intros k' l Hg; rewrite dict_get_set; case_decide; [|done];
            subst; exfalso; apply Hin, RoutingFacts.dict_get_keys; by eexists|].
    split; [intros k' l Hg; rewrite dict_get_set; case_decide; [|done];
            subst; exfalso; apply Hin', RoutingFacts.dict_get_keys; by eexists|].
    split; [intros k' l Hg Hn; rewrite dict_get_set in Hg; case_decide;
            [injection Hg as <-; lia|congruence]|].
    split; [intros k' l Hg Hn; rewrite dict_get_set in Hg; case_decide;
            [injection Hg as <-; lia|congruence]|].
    split; [rewrite dict_get_set, decide_True by done; by eexists|].
    split; intros l Hl; apply UpdateFacts.upd_other; lia.
Qed.

Lemma upd_same {A} (h : loc -> A) l v : upd h l v l = v.
Proof. unfold upd. by rewrite Nat.eqb_refl. Qed.

Lemma load_task_spec n (V : Val) tps k P O (t : State) :
  val_get V (KStr "task_policies") = Ok (VDict tps) ->
  dict_get tps k = Some (VDict [(KStr "policy", VParams P); (KStr "optimizer", VOpt O)]) ->
  length P = n -> O.1 = n -> wf_agent n t ->
  exists t', load_task V k t = (Ok tt, t') /\ wf_agent n t' /\
    meta_policy t' = meta_policy t /\ meta_optimizer t' = meta_optimizer t /\
    (next_loc t <= next_loc t')%nat /\
    (forall k' l, dict_get (task_policies t) k' = Some l -> dict_get (task_policies t') k' = Some l) /\
    (forall k' l, dict_get (task_optimizers t) k' = Some l -> dict_get (task_optimizers t') k' = Some l) /\
    (forall k' l, dict_get (task_policies t') k' = Some l -> dict_get (task_policies t) k' = None -> (next_loc t <= l)%nat) /\
    (forall k' l, dict_get (task_optimizers t') k' = Some l -> dict_get (task_optimizers t) k' = None -> (next_loc t <= l)%nat) /\
    (forall l, (l < next_loc t)%nat -> dict_get (task_policies t) k <> Some l -> pols t' l = pols t l) /\
    (forall l, (l < next_loc t)%nat -> dict_get (task_optimizers t) k <> Some l -> opts t' l = opts t l) /\
    exists pl ol, dict_get (task_policies t') k = Some pl /\ dict_get (task_optimizers t') k = Some ol /\
                  pols t' pl = P /\ opts t' ol = O.
Proof.
  intros HV Htps HP HO Hwf.
  destruct (ensure_spec n t k Hwf)
    as (t1 & Hens & Hwf1 & Hm1 & Hmo1 & Hn1 & Hc1 & Hco1 & Hd1 & Hdo1 & [pl Hpl] & Hp1 & Ho1).
  destruct (wf_opt_of_pol n t1 Hwf1 k (ex_intro _ pl Hpl)) as [ol Hol].
  assert (Hlen : length P = length (pols t1 pl)) by (rewrite HP; symmetry; by eapply wf_pol_len).
  assert (Hlen' : O.1 = (opts t1 ol).1) by (rewrite HO; symmetry; by eapply wf_opt_len).
  assert (Htk : val_get (VDict tps) k = Ok (VDict [(KStr "policy", VParams P); (KStr "optimizer", VOpt O)]))
    by (simpl; by rewrite Htps).
  set (t2 := set_heaps (upd (pols t1) pl P) (opts t1) (bufs t1) (next_loc t1) t1).
  set (t3 := set_heaps (pols t2) (upd (opts t2) ol O) (bufs t2) (next_loc t2) t2).
  exists t3. split.
  { unfold load_task.
    rewrite (bind_ok _ _ _ _ _ Hens). cbv beta.
    rewrite (bind_ok _ _ _ _ _ (get_task_policy_ok _ _ _ Hpl)). cbv beta.
    rewrite (bind_ok _ _ _ _ _ (getv_ok _ _ _ t1 HV)). cbv beta.
    rewrite (bind_ok _ _ _ _ _ (getv_ok _ _ _ t1 Htk)). cbv beta.
    rewrite (bind_ok _ _ _ _ _ (getv_ok _ _ _ t1 (val_get_policy _ _))). cbv beta.
    rewrite (bind_ok _ _ _ _ _ (policy_load_ok pl P t1 Hlen)). cbv beta. fold t2.
    rewrite (bind_ok _ _ _ _ _ (get_task_optimizer_ok k ol t2 Hol)). cbv beta.
    rewrite (bind_ok _ _ _ _ _ (getv_ok _ _ _ t2 HV)). cbv beta.
    rewrite (bind_ok _ _ _ _ _ (getv_ok _ _ _ t2 Htk)). cbv beta.
    rewrite (bind_ok _ _ _ _ _ (getv_ok _ _ _ t2 (val_get_optimizer _ _))). cbv beta.
    exact (optimizer_load_ok ol O t2 Hlen'). }
  split; [apply wf_write_optimizer; [apply wf_write_policy|]; done|].
  split; [exact Hm1|]. split; [exact Hmo1|]. split; [exact Hn1|].
  split; [exact Hc1|]. split; [exact Hco1|]. split; [exact Hd1|]. split; [exact Hdo1|].
  split.
  { intros l Hl Hne. unfold t3, t2, set_heaps. simpl.
    rewrite UpdateFacts.upd_other; [by apply Hp1|]. intros ->.
    destruct (dict_get (task_policies t) k) as [l0|] eqn:Hg.
    - apply Hc1 in Hg. rewrite Hpl in Hg. injection Hg as ->. by apply Hne.
    - specialize (Hd1 _ _ Hpl Hg). lia. }
  split.
  { intros l Hl Hne. unfold t3, t2, set_heaps. simpl.
    rewrite UpdateFacts.upd_other; [by apply Ho1|]. intros ->.
    destruct (dict_get (task_optimizers t) k) as [l0|] eqn:Hg.
    - apply Hco1 in Hg. rewrite Hol in Hg. injection Hg as ->. by apply Hne.
    - specialize (Hdo1 _ _ Hol Hg). lia. }
  exists pl, ol. split; [exact Hpl|]. split; [exact Hol|].
  unfold t3, t2, set_heaps. simpl. split; apply upd_same.
Qed.

Lemma load_tasks_spec n (V : Val) tps (ks : list PyKey) (t : State) :
  val_get V (KStr "task_policies") = Ok (VDict tps) ->
  NoDup ks ->
  (forall k, k ∈ ks -> exists P O,
     dict_get tps k = Some (VDict [(KStr "policy", VParams P); (KStr "optimizer", VOpt O)]) /\
     length P = n /\ O.1 = n) ->
  wf_agent n t ->
  exists t', for_ ks (load_task V) t = (Ok tt, t') /\ wf_agent n t' /\
    meta_policy t' = meta_policy t /\ meta_optimizer t' = meta_optimizer t /\
    (next_loc t <= next_loc t')%nat /\
    (forall k' l, dict_get (task_policies t) k' = Some l -> dict_get (task_policies t') k' = Some l) /\
    (forall k' l, dict_get (task_optimizers t) k' = Some l -> dict_get (task_optimizers t') k' = Some l) /\
    (forall k' l, dict_get (task_policies t') k' = Some l -> dict_get (task_policies t) k' = None -> (next_loc t <= l)%nat) /\
    (forall k' l, dict_get (task_optimizers t') k' = Some l -> dict_get (task_optimizers t) k' = None -> (next_loc t <= l)%nat) /\
    (forall l, (l < next_loc t)%nat -> (forall k, k ∈ ks -> dict_get (task_policies t) k <> Some l) ->
       pols t' l = pols t l) /\
    (forall l, (l < next_loc t)%nat -> (forall k, k ∈ ks -> dict_get (task_optimizers t) k <> Some l) ->
       opts t' l = opts t l) /\
    (forall k P O, k ∈ ks ->
       dict_get tps k = Some (VDict [(KStr "policy", VParams P); (KStr "optimizer", VOpt O)]) ->
       exists pl ol, dict_get (task_policies t') k = Some pl /\ dict_get (task_optimizers t') k = Some ol /\
                     pols t' pl = P /\ opts t' ol = O).
Proof.
  intros HV. revert t. induction ks as [|k ks IH]; intros t Hnd Hgood Hwf.
  - exists t. split; [done|]. split; [exact Hwf|].
    split; [done|]. split; [done|]. split; [lia|].
    split; [done|]. split; [done|].
    split; [intros k' l H1 H2; congruence|]. split; [intros k' l H1 H2; congruence|].
    split; [done|]. split; [done|].
    intros k P O Hin. by apply elem_of_nil in Hin.
  - apply NoDup_cons in Hnd as [Hk Hnd].
    destruct (Hgood k ltac:(by left)) as (P & O & Htps & HP & HO).
    destruct (load_task_spec n V tps k P O t HV Htps HP HO Hwf)
      as (t1 & Hstep & Hwf1 & Hm1 & Hmo1 & Hn1 & Hc1 & Hco1 & Hd1 & Hdo1 & Hp1 & Ho1 & Hfin1).
    destruct (IH t1 Hnd (fun k' Hk' => Hgood k' ltac:(by right)) Hwf1)
      as (t' & Hrest & Hwf' & Hm' & Hmo' & Hn' & Hc' & Hco' & Hd' & Hdo' & Hp' & Ho' & Hfin').
    exists t'. split.
    { rewrite for_cons_L. rewrite (bind_ok _ _ _ _ _ Hstep). exact Hrest. }
    split; [exact Hwf'|]. split; [congruence|]. split; [congruence|]. split; [lia|].
    split; [intros k' l Hg; by apply Hc', Hc1|].
    split; [intros k' l Hg; by apply Hco', Hco1|].
    split.
    { intros k' l Hg Hn. destruct (dict_get (task_policies t1) k') as [l1|] eqn:E.
      - pose proof (Hc' _ _ E) as E'. rewrite Hg in E'. injection E' as <-. by apply (Hd1 k').
      - specialize (Hd' _ _ Hg E). lia. }
    split.
    { intros k' l Hg Hn. destruct (dict_get (task_optimizers t1) k') as [l1|] eqn:E.
      - pose proof (Hco' _ _ E) as E'. rewrite Hg in E'. injection E' as <-. by apply (Hdo1 k').
      - specialize (Hdo' _ _ Hg E). lia. }
    split.
    { intros l Hl Hnot. rewrite Hp'.
      - apply Hp1; [done|]. apply Hnot. by left.
      - lia.
      - intros k' Hk' Hg. destruct (dict_get (task_policies t) k') as [l0|] eqn:E.
        + pose proof (Hc1 _ _ E) as E'. rewrite Hg in E'. injection E' as ->.
          apply (Hnot k'); [by right|done].
        + specialize (Hd1 _ _ Hg E). lia. }
    split.
    { intros l Hl Hnot. rewrite Ho'.
      - apply Ho1; [done|]. apply Hnot. by left.
      - lia.
      - intros k' Hk' Hg. destruct (dict_get (task_optimizers t) k') as [l0|] eqn:E.
        + pose proof (Hco1 _ _ E) as E'. rewrite Hg in E'. injection E' as ->.
          apply (Hnot k'); [by right|done].
        + specialize (Hdo1 _ _ Hg E). lia. }
    intros k' P' O' Hin Htps'. apply elem_of_cons in Hin as [->|Hin]; [|by apply Hfin'].
    rewrite Htps in Htps'. injection Htps' as <- <-.
    destruct Hfin1 as (pl & ol & Hpl & Hol & HPl & HOl).
    exists pl, ol. split; [by apply Hc'|]. split; [by apply Hco'|]. split.
    + rewrite Hp'; [done|by eapply wf_pol_lt|].
      intros k'' Hk'' Hg. apply Hk. by rewrite <- (wf_pol_inj n t1 Hwf1 k'' k pl Hg Hpl).
    + rewrite Ho'; [done|by eapply wf_opt_lt|].
      intros k'' Hk'' Hg. apply Hk. by rewrite <- (wf_opt_inj n t1 Hwf1 k'' k ol Hg Hol).
Qed.

(** The entry [save_model] writes for a policy and its optimizer, and the
    [task_policies] dictionary it builds from [model_list]. *)
Definition saved_entry (t : State) (pl ol : loc) : Val :=
  VDict [(KStr "policy", VParams (pols t pl)); (KStr "optimizer", VOpt (opts t ol))].

Definition saved_tasks (t : State) (ml : list (PyKey * loc * loc)) (acc : list (PyKey * Val))
    : list (PyKey * Val) :=
  fold_left (fun acc e => dict_set acc e.1.1 (saved_entry t e.1.2 e.2)) ml acc.

Definition listed (t : State) (k : PyKey) (e : PyKey * loc * loc) : Prop :=
  e.1.1 = k /\ dict_get (task_policies t) k = Some e.1.2 /\ dict_get (task_optimizers t) k = Some e.2.

Lemma model_list_spec ks (t t' : State) r :
  model_list ks t = (r, t') -> t' = t /\ forall ml, r = Ok ml -> Forall2 (listed t) ks ml.
Proof.
  revert r t'. induction ks as [|k ks IH]; intros r t' Hrun; simpl in Hrun.
  - unfold ret in Hrun. injection Hrun as <- <-. split; [done|].
    intros ml [= <-]. constructor.
  - unfold get_task_policy, get_task_optimizer, St.bind, gets, lift, ret, raise in Hrun.
    simpl in Hrun.
    destruct (dict_get (task_policies t) k) as [pl|] eqn:Hpl; simpl in Hrun;
      [|injection Hrun as <- <-; split; [done|]; discriminate].
    destruct (dict_get (task_optimizers t) k) as [ol|] eqn:Hol; simpl in Hrun;
      [|injection Hrun as <- <-; split; [done|]; discriminate].
    destruct (model_list ks t) as [r1 t1].
    destruct (IH r1 t1 eq_refl) as [-> Hf].
    destruct r1 as [ml1|e]; injection Hrun as <- <-; split; try done.
    intros ml [= <-]. constructor; [done|]. by apply Hf.
Qed.

Lemma task_entries_spec ml acc (t : State) :
  task_entries ml acc t = (Ok (saved_tasks t ml acc), t).
Proof.
  revert acc. induction ml as [|[[k pl] ol] ml IH]; intros acc; simpl; [done|].
  unfold state_dict_entry, St.bind, gets, ret. simpl. apply IH.
Qed.

Lemma save_model_spec fname (t t1 : State) :
  save_model fname t = (Ok tt, t1) ->
  exists ml, Forall2 (listed t) (dict_keys (task_policies t)) ml /\
    t1 = set_files (dict_set (files t) (path_join (model_dir t) fname)
           (Archive (VDict [(KStr "meta_policy", saved_entry t (meta_policy t) (meta_optimizer t));
                            (KStr "task_policies", VDict (saved_tasks t ml []))]))) t.
Proof.
  intros Hrun. unfold save_model in Hrun.
  rewrite bind_gets in Hrun. cbv beta in Hrun. rewrite bind_gets in Hrun. cbv beta in Hrun.
  unfold St.bind at 1 in Hrun.
  destruct (model_list (dict_keys (task_policies t)) t) as [[ml|e] t'] eqn:Hml; [|discriminate].
  destruct (model_list_spec _ _ _ _ Hml) as [-> HF].
  exists ml. split; [by apply HF|].
  rewrite bind_gets in Hrun. cbv beta in Hrun. rewrite bind_gets in Hrun. cbv beta in Hrun.
  unfold St.bind at 1, state_dict_entry at 1 in Hrun. simpl in Hrun.
  rewrite (bind_ok _ _ _ _ _ (task_entries_spec ml [] t)) in Hrun.
  unfold torch_save, modify in Hrun. injection Hrun as <-. reflexivity.
Qed.

Lemma saved_tasks_NoDup (t : State) ml acc :
  NoDup (dict_keys acc) -> NoDup (dict_keys (saved_tasks t ml acc)).
Proof.
  revert acc. induction ml as [|e ml IH]; intros acc Hnd; simpl; [done|].
  apply IH. by apply dict_keys_set_NoDup.
Qed.

Lemma saved_tasks_other (t : State) ml acc k :
  k ∉ map (fun e => e.1.1) ml -> dict_get (saved_tasks t ml acc) k = dict_get acc k.
Proof.
  revert acc. induction ml as [|e ml IH]; intros acc Hk; [reflexivity|].
  simpl in Hk. apply not_elem_of_cons in Hk as [Hne Hk].
  change (dict_get (saved_tasks t ml (dict_set acc e.1.1 (saved_entry t e.1.2 e.2))) k
          = dict_get acc k).
  rewrite IH by done. rewrite dict_get_set. by rewrite decide_False.
Qed.

Lemma saved_tasks_in (t : State) ml acc k pl ol :
  NoDup (map (fun e => e.1.1) ml) -> (k, pl, ol) ∈ ml ->
  dict_get (saved_tasks t ml acc) k = Some (saved_entry t pl ol).
Proof.
  revert acc. induction ml as [|e ml IH]; intros acc Hnd Hin; [by apply elem_of_nil in Hin|].
  simpl in Hnd. apply NoDup_cons in Hnd as [Hn Hnd].
  apply elem_of_cons in Hin as [<-|Hin]; simpl.
  - change (dict_get (saved_tasks t ml (dict_set acc k (saved_entry t pl ol))) k
            = Some (saved_entry t pl ol)).
    rewrite saved_tasks_other by done. rewrite dict_get_set. by rewrite decide_True.
  - by apply IH.
Qed.

Lemma saved_tasks_cases (t : State) ml acc k v :
  dict_get (saved_tasks t ml acc) k = Some v ->
  dict_get acc k = Some v \/ exists pl ol, (k, pl, ol) ∈ ml /\ v = saved_entry t pl ol.
Proof.
  revert acc. induction ml as [|[[k0 pl] ol] ml IH]; intros acc Hg; simpl in Hg; [by left|].
  destruct (IH _ Hg) as [Hg'|(pl' & ol' & Hin & ->)].
  - rewrite dict_get_set in Hg'. simpl in Hg'. case_decide as Hk.
    + subst. injection Hg' as <-. right. exists pl, ol. split; [by left|done].
    + by left.
  - right. exists pl', ol'. split; [by right|done].
Qed.

Lemma Forall2_listed_keys (t : State) ks ml :
  Forall2 (listed t) ks ml -> map (fun e => e.1.1) ml = ks.
Proof. induction 1 as [|k e ks ml [He _] _ IH]; simpl; [done|]. by rewrite He, IH. Qed.

Lemma Forall2_listed_r (t : State) ks ml e :
  Forall2 (listed t) ks ml -> e ∈ ml ->
  dict_get (task_policies t) e.1.1 = Some e.1.2 /\ dict_get (task_optimizers t) e.1.1 = Some e.2.
Proof.
  induction 1 as [|k e' ks ml (He & H1 & H2) _ IH]; intros Hin; [by apply elem_of_nil in Hin|].
  apply elem_of_cons in Hin as [->|Hin]; [|by apply IH].
  rewrite He. done.
Qed.

Lemma Forall2_listed_l (t : State) ks ml k :
  Forall2 (listed t) ks ml -> k ∈ ks -> exists e, e ∈ ml /\ listed t k e.
Proof.
  induction 1 as [|k' e ks ml Hl _ IH]; intros Hin; [by apply elem_of_nil in Hin|].
  apply elem_of_cons in Hin as [->|Hin].
  - exists e. split; [by left|done].
  - destruct (IH Hin) as (e' & He' & Hl'). exists e'. split; [by right|done].
Qed.

Lemma torch_load_ok path v (t : State) :
  dict_get (files t) path = Some (Archive v) -> torch_load path t = (Ok v, t).
Proof. intros H. unfold torch_load. rewrite bind_gets. by rewrite H. Qed.
End Load.

(** C5: a checkpoint written by [save_model] restores, when [load_model]
    reads it into an agent of the same architecture ([n] parameters per
    policy, as [wf_agent] states), the meta-policy's parameters and
    optimizer state and, for every task policy of the saving agent, its
    parameters and optimizer state.  A task policy the loading agent
    already holds is overwritten in place; one it lacks is a new object
    (allocated during the load, as the deep copy of the meta-policy). *)
Theorem save_load_round_trip {Obs Act Mask LP Rew Ret} n fname
    (s s1 s' : St Obs Act Mask LP Rew Ret) :
  wf_agent n s -> wf_agent n s' ->
  save_model fname s = (Ok tt, s1) ->
  dict_get (files s') (path_join (model_dir s) fname)
    = dict_get (files s1) (path_join (model_dir s) fname) ->
  exists s2, load_model (path_join (model_dir s) fname) s' = (Ok tt, s2) /\
    wf_agent n s2 /\
    meta_policy s2 = meta_policy s' /\ meta_optimizer s2 = meta_optimizer s' /\
    pols s2 (meta_policy s2) = pols s (meta_policy s) /\
    opts s2 (meta_optimizer s2) = opts s (meta_optimizer s) /\
    forall k pl ol, dict_get (task_policies s) k = Some pl -> dict_get (task_optimizers s) k = Some ol ->
      exists pl' ol', dict_get (task_policies s2) k = Some pl' /\
        dict_get (task_optimizers s2) k = Some ol' /\
        pols s2 pl' = pols s pl /\ opts s2 ol' = opts s ol /\
        (forall l, dict_get (task_policies s') k = Some l -> pl' = l) /\
        (dict_get (task_policies s') k = None -> (next_loc s' <= pl')%nat /\ (next_loc s' <= ol')%nat).
Proof.
  intros Hwf Hwf' Hsave Hfile.
  destruct (save_model_spec fname s s1 Hsave) as (ml & HF & ->).
  set (path := path_join (model_dir s) fname) in *.
  set (E := saved_entry s (meta_policy s) (meta_optimizer s)).
  set (tps := saved_tasks s ml []).
  set (V := VDict [(KStr "meta_policy", E); (KStr "task_policies", VDict tps)]).
  assert (Hf : dict_get (files s') path = Some (Archive V)).
  { rewrite Hfile. unfold set_files. simpl. rewrite dict_get_set. by rewrite decide_True. }
  pose proof Hwf as (H1 & _ & _ & _ & _ & _ & H7 & H8).
  pose proof Hwf' as (_ & _ & _ & _ & H5' & H6' & H7' & H8').
  set (P0 := pols s (meta_policy s)). set (O0 := opts s (meta_optimizer s)).
  assert (HP0 : length P0 = length (pols s' (meta_policy s'))).
  { unfold P0. rewrite (Forall_inv H7), (Forall_inv H7'). done. }
  set (t0 := set_heaps (upd (pols s') (meta_policy s') P0) (opts s') (bufs s') (next_loc s') s').
  assert (HO0 : O0.1 = (opts t0 (meta_optimizer t0)).1).
  { unfold O0. simpl. rewrite (Forall_inv H8), (Forall_inv H8'). done. }
  set (t0' := set_heaps (pols t0) (upd (opts t0) (meta_optimizer t0) O0) (bufs t0) (next_loc t0) t0).
  assert (Hwf0 : wf_agent n t0').
  { apply wf_write_optimizer; [apply wf_write_policy; [done|]|].
    - unfold P0. exact (Forall_inv H7).
    - unfold O0. exact (Forall_inv H8). }
  assert (HV : val_get V (KStr "task_policies") = Ok (VDict tps)) by apply val_get_tasks.
  assert (Hnd : NoDup (dict_keys tps)) by (apply saved_tasks_NoDup; constructor).
  assert (Hndml : NoDup (map (fun e => e.1.1) ml)) by (by rewrite (Forall2_listed_keys s _ _ HF)).
  assert (Hgood : forall k, k ∈ dict_keys tps -> exists P O,
     dict_get tps k = Some (VDict [(KStr "policy", VParams P); (KStr "optimizer", VOpt O)]) /\
     length P = n /\ O.1 = n).
  { intros k Hk. apply RoutingFacts.dict_get_keys in Hk as [v Hv].
    destruct (saved_tasks_cases s ml [] k v Hv) as [Hnil|(pl & ol & Hin & ->)]; [done|].
    destruct (Forall2_listed_r s _ _ _ HF Hin) as [Hpl Hol]. simpl in Hpl, Hol.
    exists (pols s pl), (opts s ol). split; [exact Hv|].
    split; [by eapply wf_pol_len|by eapply wf_opt_len]. }
  destruct (load_tasks_spec n V tps (dict_keys tps) t0' HV Hnd Hgood Hwf0)
    as (t' & Hrest & Hwf2 & Hm' & Hmo' & Hn' & Hc' & Hco' & Hd' & Hdo' & Hp' & Ho' & Hfin').
  exists t'. split.
  { apply try_ok.
    rewrite (bind_ok _ _ _ _ _ (torch_load_ok path V s' Hf)). cbv beta.
    rewrite bind_gets. cbv beta.
    rewrite (bind_ok _ _ _ _ _ (getv_ok V (KStr "meta_policy") E s' (val_get_meta _ _))). cbv beta.
    rewrite (bind_ok _ _ _ _ _ (getv_ok E (KStr "policy") (VParams P0) s' (val_get_policy _ _))).
    cbv beta.
    rewrite (bind_ok _ _ _ _ _ (policy_load_ok (meta_policy s') P0 s' HP0)). cbv beta. fold t0.
    rewrite bind_gets. cbv beta.
    rewrite (bind_ok _ _ _ _ _ (getv_ok V (KStr "meta_policy") E t0 (val_get_meta _ _))). cbv beta.
    rewrite (bind_ok _ _ _ _ _ (getv_ok E (KStr "optimizer") (VOpt O0) t0 (val_get_optimizer _ _))).
    cbv beta.
    rewrite (bind_ok _ _ _ _ _ (optimizer_load_ok (meta_optimizer t0) O0 t0 HO0)). cbv beta.
    fold t0'.
    rewrite (bind_ok _ _ _ _ _ (getv_ok _ _ _ t0' HV)). cbv beta.
    exact Hrest. }
  split; [exact Hwf2|].
  split; [exact Hm'|]. split; [exact Hmo'|].
  split.
  { rewrite Hm'. rewrite Hp'.
    - unfold t0', t0, set_heaps. simpl. apply upd_same.
    - exact (Forall_inv H5').
    - intros k _. exact (wf_pol_not_meta n s' Hwf' k). }
  split.
  { rewrite Hmo'. rewrite Ho'.
    - unfold t0', t0, set_heaps. simpl. apply upd_same.
    - exact (Forall_inv H6').
    - intros k _. exact (wf_opt_not_meta n s' Hwf' k). }
  intros k pl ol Hpl Hol.
  assert (Hk : k ∈ dict_keys (task_policies s)) by (apply RoutingFacts.dict_get_keys; by eexists).
  destruct (Forall2_listed_l s _ _ k HF Hk) as ([[k0 pl0] ol0] & Hin & Hk0 & Hpl0 & Hol0).
  simpl in Hk0, Hpl0, Hol0. subst k0.
  rewrite Hpl in Hpl0. injection Hpl0 as <-. rewrite Hol in Hol0. injection Hol0 as <-.
  assert (Htk : dict_get tps k = Some (saved_entry s pl ol)) by (by apply saved_tasks_in).
  assert (Hktps : k ∈ dict_keys tps) by (apply RoutingFacts.dict_get_keys; by eexists).
  destruct (Hfin' k (pols s pl) (opts s ol) Hktps Htk) as (pl' & ol' & Hpl' & Hol' & HPl & HOl).
  exists pl', ol'. split; [done|]. split; [done|]. split; [done|]. split; [done|].
  split.
  { intros l Hl. pose proof (Hc' k l Hl) as Ec. rewrite Hpl' in Ec. by injection Ec. }
  intros Hnone. split.
  - exact (Hd' k pl' Hpl' Hnone).
  - exact (Hdo' k ol' Hol' (wf_opt_none n s' Hwf' k Hnone)).
Qed.

Lemma pair_fst {A B} (p : A * B) a : fst p = a -> p = (a, snd p).
Proof. destruct p. simpl. by intros ->. Qed.

Lemma save_load_round_trip_witness :
  exists s2, load_model (path_join "save" "ckpt") Scenario.fresh_agent = (Ok tt, s2) /\
    pols s2 0%nat = [1; 2] /\
    exists pl, dict_get (task_policies s2) (KInt 3) = Some pl /\ pols s2 pl = [3; 4] /\ (3 <= pl)%nat.
Proof.
  destruct (save_load_round_trip 2 "ckpt" Scenario.agent0 Scenario.saved_agent0 Scenario.fresh_agent)
    as (s2 & Hload & _ & Hm & _ & Hp & _ & Htask).
  - apply (bool_decide_unpack (wf_agent 2 Scenario.agent0)). vm_compute. exact I.
  - apply (bool_decide_unpack (wf_agent 2 Scenario.fresh_agent)). vm_compute. exact I.
  - apply pair_fst. vm_compute. reflexivity.
  - reflexivity.
  - exists s2. split; [exact Hload|]. split; [change 0%nat with (meta_policy Scenario.fresh_agent); rewrite <- Hm, Hp; reflexivity|].
    destruct (Htask (KInt 3) 2%nat 3%nat) as (pl & ol & Hpl & _ & Hpp & _ & _ & Hnew);
      [reflexivity|reflexivity|].
    exists pl. split; [exact Hpl|]. split; [exact Hpp|]. by destruct (Hnew eq_refl).
Defined.


End LoadFacts.

Module TensorFacts.
Import Tensor.

(** C6: for an observation dictionary holding the five fields
    [obs_as_tensor] reads, the single-observation call and the call on the
    one-element list both succeed and map every key to the same value (the
    two dictionaries list their keys in different orders). *)
Theorem obs_as_tensor_single_as_batch {Data Batch Arr Tensor Device : Type}
    (gp : PyObj -> PyObj -> Data) (bf : list Data -> Batch) (bt : Batch -> Device -> Batch)
    (na : list PyObj -> Arr) (ft lt : Arr -> Tensor) (tt : Tensor -> Device -> Tensor)
    (kvs : list (string * PyObj)) (device : Device) :
  Forall (fun k => is_Some (dict_get kvs k)) obs_keys ->
  exists d1 d2, obs_as_tensor gp bf bt na ft lt tt (PDict kvs) device = Ok d1 /\
                obs_as_tensor gp bf bt na ft lt tt (PList [PDict kvs]) device = Ok d2 /\
                forall k, dict_get d1 k = dict_get d2 k.
Proof.
  unfold obs_keys. intros Hk.
  repeat match goal with
         | H : Forall _ (_ :: _) |- _ => apply Forall_cons in H as [[? ?] H]
         end.
  unfold obs_as_tensor, getitem, rbind. simpl.
  repeat match goal with H : dict_get kvs _ = Some _ |- _ => rewrite H; clear H end.
  eexists _, _. split; [reflexivity|]. split; [reflexivity|].
  intros k. simpl. repeat case_decide; subst; congruence.
Qed.

Lemma obs_as_tensor_single_as_batch_witness :
  exists d1 d2, Scenario.obs_as_tensor_stub Scenario.obs1 "cpu" = Ok d1 /\
                Scenario.obs_as_tensor_stub (PList [Scenario.obs1]) "cpu" = Ok d2 /\
                forall k, dict_get d1 k = dict_get d2 k.
Proof.
  apply (obs_as_tensor_single_as_batch _ _ _ _ _ _ _ _ "cpu").
  repeat constructor; eexists; reflexivity.
Defined.

(** C7, as the code has it: any input that is neither a dictionary nor a
    list makes [obs_as_tensor] raise at once, before any field is read; the
    exception is a plain [Exception] (which [except TypeError] does not
    catch) whose message is ["Unrecognized type of observation <class '"]
    followed by the type's name and ["'>"]. *)
Theorem obs_as_tensor_rejects_other {Data Batch Arr Tensor Device : Type}
    (gp : PyObj -> PyObj -> Data) (bf : list Data -> Batch) (bt : Batch -> Device -> Batch)
    (na : list PyObj -> Arr) (ft lt : Arr -> Tensor) (tt : Tensor -> Device -> Tensor)
    (obs : PyObj) (device : Device) :
  (forall kvs, obs <> PDict kvs) -> (forall xs, obs <> PList xs) ->
  obs_as_tensor gp bf bt na ft lt tt obs device
    = Raise (mkExc Exception ("Unrecognized type of observation <class '" +:+ type_name obs +:+ "'>")) /\
  is_subclass Exception TypeError = false.
Proof.
  intros Hd Hl. split; [|reflexivity].
  destruct obs as [kvs|xs| | | | |]; [by destruct (Hd kvs)|by destruct (Hl xs)|..]; reflexivity.
Qed.

Lemma obs_as_tensor_rejects_other_witness :
  Scenario.obs_as_tensor_stub (PTuple [Scenario.obs1]) "cpu"
    = Raise (mkExc Exception ("Unrecognized type of observation <class '" +:+ type_name (PTuple [Scenario.obs1]) +:+ "'>")) /\
  is_subclass Exception TypeError = false.
Proof.
  apply obs_as_tensor_rejects_other; intros ? H; discriminate H.
Defined.

(** C7, as the claim states it, fails: a tuple of observations is refused
    with an exception of class [Exception], not [TypeError]. *)
Lemma obs_as_tensor_tuple_not_type_error :
  Scenario.obs_as_tensor_stub (PTuple [Scenario.obs1]) "cpu"
    = Raise (mkExc Exception "Unrecognized type of observation <class 'tuple'>") /\
  is_subclass Exception TypeError = false.
Proof. split; reflexivity. Qed.
End TensorFacts.


Module SplitMore.
Import Buffer.

Lemma index_list_None {A} (xs : list A) (idx : list nat) (i : nat) :
  i ∈ idx -> (length xs <= i)%nat -> index_list xs idx = None.
Proof.
  intros Hi Hl. apply mapM_None_2, Exists_exists. exists i.
  split; [done|]. simpl. by apply lookup_ge_None_2.
Qed.

Lemma make_task_buffer_is_Some_ge {Obs Act Mask LP Rew Ret}
    (b : RolloutBuffer Obs Act Mask LP Rew Ret) (labels : list Z) (t : Z) :
  (forall i, (i < length labels)%nat ->
     (i < length (observations b) /\ i < length (actions b) /\ i < length (logprobs b) /\
      i < length (rewards b) /\ i < length (returns b))%nat) ->
  is_Some (make_task_buffer b labels t).
Proof.
  intros H.
  assert (Hidx : forall i, i ∈ task_indices labels t ->
            (i < length (observations b) /\ i < length (actions b) /\ i < length (logprobs b) /\
             i < length (rewards b) /\ i < length (returns b))%nat).
  { intros i Hi. apply H. by eapply BufferFacts.task_indices_lt. }
  unfold make_task_buffer.
  destruct (BufferFacts.index_list_is_Some (observations b) (task_indices labels t)) as [o ->];
    [intros i Hi; apply Hidx, Hi|].
  destruct (BufferFacts.index_list_is_Some (actions b) (task_indices labels t)) as [a ->];
    [intros i Hi; apply Hidx, Hi|].
  destruct (BufferFacts.index_list_is_Some (logprobs b) (task_indices labels t)) as [l ->];
    [intros i Hi; apply Hidx, Hi|].
  destruct (BufferFacts.index_list_is_Some (rewards b) (task_indices labels t)) as [r ->];
    [intros i Hi; apply Hidx, Hi|].
  destruct (BufferFacts.index_list_is_Some (returns b) (task_indices labels t)) as [x ->];
    [intros i Hi; apply Hidx, Hi|].
  simpl. by eexists.
Qed.

Lemma split_loop_None {Obs Act Mask LP Rew Ret}
    (b : RolloutBuffer Obs Act Mask LP Rew Ret) (labels ts : list Z) (t : Z) acc :
  t ∈ ts -> make_task_buffer b labels t = None -> split_loop b labels ts acc = None.
Proof.
  revert acc. induction ts as [|t' ts IH]; intros acc Ht Hn; [by apply elem_of_nil in Ht|].
  simpl. apply elem_of_cons in Ht as [->|Ht].
  - by rewrite Hn.
  - destruct (make_task_buffer b labels t'); simpl; [by apply IH|done].
Qed.

Lemma sum_sizes_f {Obs Act Mask LP Rew Ret} (f : RolloutBuffer Obs Act Mask LP Rew Ret -> nat)
    (labels : list Z) (m : list (Z * RolloutBuffer Obs Act Mask LP Rew Ret)) :
  (forall t sb, (t, sb) ∈ m -> f sb = length (task_indices labels t)) ->
  sum_list (map (fun e => f e.2) m) = length (concat (map (task_indices labels) (dict_keys m))).
Proof.
  induction m as [|[t sb] m IH]; intros H; simpl; [done|].
  rewrite length_app, (H t sb) by (left; done).
  f_equal. apply IH. intros t' sb' Hin. apply H. by right.
Qed.

Lemma split_buffer_shape_ge {Obs Act Mask LP Rew Ret} (lab : Obs -> Z)
    (b : RolloutBuffer Obs Act Mask LP Rew Ret) :
  (forall i, (i < length (observations b) ->
     i < length (actions b) /\ i < length (logprobs b) /\
     i < length (rewards b) /\ i < length (returns b))%nat) ->
  exists m, split_buffer lab b = Some m /\
    dict_keys m = tasks_list (v_net_size_list lab b) /\
    forall t sb, (t, sb) ∈ m -> make_task_buffer b (v_net_size_list lab b) t = Some sb.
Proof.
  intros Hge. unfold split_buffer.
  assert (Hn : length (v_net_size_list lab b) = length (observations b))
    by (unfold v_net_size_list; by rewrite length_map).
  destruct (BufferFacts.split_loop_fresh b (v_net_size_list lab b) (tasks_list (v_net_size_list lab b)) [])
    as (new & Hrun & Hkeys & Hnew).
  - apply BufferFacts.tasks_list_NoDup.
  - intros t _ Ht. by apply elem_of_nil in Ht.
  - intros t _. apply make_task_buffer_is_Some_ge. intros i Hi. rewrite Hn in Hi.
    split; [done|]. by apply Hge.
  - rewrite Hrun. simpl. exists new.
    rewrite Hkeys, BufferFacts.merge_sort_tasks_list, <- Hkeys.
    rewrite (BufferFacts.mapM_dict_get_keys new new).
    + done.
    + intros k v Hin. apply BufferFacts.dict_get_NoDup; [|done].
      rewrite Hkeys. apply BufferFacts.tasks_list_NoDup.
Qed.

Lemma split_buffer_None_of_short {Obs Act Mask LP Rew Ret} (lab : Obs -> Z)
    (b : RolloutBuffer Obs Act Mask LP Rew Ret) (i : nat) :
  (i < length (observations b))%nat ->
  (length (actions b) <= i \/ length (logprobs b) <= i \/
   length (rewards b) <= i \/ length (returns b) <= i)%nat ->
  split_buffer lab b = None.
Proof.
  intros Hi Hshort. set (labels := v_net_size_list lab b).
  assert (Hn : length labels = length (observations b))
    by (unfold labels, v_net_size_list; by rewrite length_map).
  set (t := nth i labels 0).
  assert (Hidx : i ∈ task_indices labels t).
  { unfold task_indices. apply list_elem_of_In, filter_In. split.
    - apply in_seq. lia.
    - apply Z.eqb_refl. }
  assert (Ht : t ∈ tasks_list labels).
  { apply BufferFacts.elem_of_tasks_list, list_elem_of_In, nth_In. lia. }
  assert (Hmk : make_task_buffer b labels t = None).
  { unfold make_task_buffer.
    destruct (index_list (observations b) _); simpl; [|done].
    destruct Hshort as [H|[H|[H|H]]].
    - by rewrite (index_list_None _ _ i Hidx H).
    - destruct (index_list (actions b) _); simpl; [|done].
      by rewrite (index_list_None _ _ i Hidx H).
    - destruct (index_list (actions b) _); simpl; [|done].
      destruct (index_list (logprobs b) _); simpl; [|done].
      by rewrite (index_list_None _ _ i Hidx H).
    - destruct (index_list (actions b) _); simpl; [|done].
      destruct (index_list (logprobs b) _); simpl; [|done].
      destruct (index_list (rewards b) _); simpl; [|done].
      by rewrite (index_list_None _ _ i Hidx H). }
  unfold split_buffer. fold labels. by rewrite (split_loop_None b labels _ t [] Ht Hmk).
Qed.

Lemma split_buffer_Some_long {Obs Act Mask LP Rew Ret} (lab : Obs -> Z)
    (b : RolloutBuffer Obs Act Mask LP Rew Ret) :
  is_Some (split_buffer lab b) ->
  (forall i, (i < length (observations b) ->
     i < length (actions b) /\ i < length (logprobs b) /\
     i < length (rewards b) /\ i < length (returns b))%nat).
Proof.
  intros [m Hm] i Hi.
  destruct (Nat.lt_ge_cases i (length (actions b))) as [Ha|Ha];
    [|by rewrite (split_buffer_None_of_short lab b i Hi (or_introl Ha)) in Hm].
  destruct (Nat.lt_ge_cases i (length (logprobs b))) as [Hl|Hl];
    [|by rewrite (split_buffer_None_of_short lab b i Hi (or_intror (or_introl Hl))) in Hm].
  destruct (Nat.lt_ge_cases i (length (rewards b))) as [Hr|Hr];
    [|by rewrite (split_buffer_None_of_short lab b i Hi (or_intror (or_intror (or_introl Hr)))) in Hm].
  destruct (Nat.lt_ge_cases i (length (returns b))) as [Hx|Hx];
    [|by rewrite (split_buffer_None_of_short lab b i Hi (or_intror (or_intror (or_intror Hx)))) in Hm].
  done.
Qed.

Lemma split_buffer_Some_shape {Obs Act Mask LP Rew Ret} (lab : Obs -> Z)
    (b : RolloutBuffer Obs Act Mask LP Rew Ret) m :
  split_buffer lab b = Some m ->
  dict_keys m = tasks_list (v_net_size_list lab b) /\
  forall t sb, (t, sb) ∈ m -> make_task_buffer b (v_net_size_list lab b) t = Some sb.
Proof.
  intros Hm.
  destruct (split_buffer_shape_ge lab b) as (m' & Hm' & Hkeys & Hmk);
    [apply (split_buffer_Some_long lab); by eexists|].
  rewrite Hm in Hm'. injection Hm' as <-. done.
Qed.

(** X1: [_split_buffer] returns, instead of raising IndexError, exactly when the buffer has no observation or each of its actions, logprobs, rewards and returns lists is at least as long as its observations; when it returns, each of the five lists of the task buffers adds up to the number of observations. *)
Theorem split_buffer_defined_iff {Obs Act Mask LP Rew Ret} (lab : Obs -> Z)
    (b : RolloutBuffer Obs Act Mask LP Rew Ret) :
  (is_Some (split_buffer lab b) <->
     observations b = [] \/
     (length (observations b) <= length (actions b) /\
      length (observations b) <= length (logprobs b) /\
      length (observations b) <= length (rewards b) /\
      length (observations b) <= length (returns b))%nat) /\
  forall m, split_buffer lab b = Some m ->
    sum_list (map (fun e => length (observations e.2)) m) = length (observations b) /\
    sum_list (map (fun e => length (actions e.2)) m) = length (observations b) /\
    sum_list (map (fun e => length (logprobs e.2)) m) = length (observations b) /\
    sum_list (map (fun e => length (rewards e.2)) m) = length (observations b) /\
    sum_list (map (fun e => length (returns e.2)) m) = length (observations b).
Proof.
  pose proof (split_buffer_Some_long lab b) as Hdir.
  split.
  - split.
    + intros Hs. specialize (Hdir Hs).
      destruct (observations b) as [|o os] eqn:Ho; [by left|right].
      rewrite <- Ho in *. set (N := length (observations b)) in *.
      assert (HN : (0 < N)%nat) by (unfold N; rewrite Ho; simpl; lia).
      destruct (Hdir (N - 1)%nat ltac:(lia)) as (H1 & H2 & H3 & H4). lia.
    + intros Hc. destruct (split_buffer_shape_ge lab b) as (m & Hm & _); [|by eexists].
      intros i Hi. destruct Hc as [Ho|(H1 & H2 & H3 & H4)].
      * rewrite Ho in Hi. simpl in Hi. lia.
      * lia.
  - intros m Hm.
    destruct (split_buffer_Some_shape lab b m Hm) as (Hkeys & Hmk).
    set (labels := v_net_size_list lab b) in *.
    assert (Hn : length labels = length (observations b))
      by (unfold labels, v_net_size_list; by rewrite length_map).
    assert (Hperm : length (concat (map (task_indices labels) (dict_keys m))) = length (observations b)).
    { rewrite Hkeys, (BufferFacts.task_indices_partition labels), length_seq. done. }
    assert (Hf : forall t sb, (t, sb) ∈ m ->
      length (observations sb) = length (task_indices labels t) /\
      length (actions sb) = length (task_indices labels t) /\
      length (logprobs sb) = length (task_indices labels t) /\
      length (rewards sb) = length (task_indices labels t) /\
      length (returns sb) = length (task_indices labels t)).
    { intros t sb Hin. specialize (Hmk t sb Hin). unfold make_task_buffer in Hmk.
      destruct (index_list (observations b) _) eqn:E1; [|done]. simpl in Hmk.
      destruct (index_list (actions b) _) eqn:E2; [|done]. simpl in Hmk.
      destruct (index_list (logprobs b) _) eqn:E3; [|done]. simpl in Hmk.
      destruct (index_list (rewards b) _) eqn:E4; [|done]. simpl in Hmk.
      destruct (index_list (returns b) _) eqn:E5; [|done]. simpl in Hmk.
      injection Hmk as <-. simpl.
      apply BufferFacts.index_list_length in E1, E2, E3, E4, E5. done. }
    rewrite <- Hperm.
    split; [apply (sum_sizes_f (fun sb => length (observations sb))); intros t sb Hin; apply (Hf t sb Hin)|].
    split; [apply (sum_sizes_f (fun sb => length (actions sb))); intros t sb Hin; apply (Hf t sb Hin)|].
    split; [apply (sum_sizes_f (fun sb => length (logprobs sb))); intros t sb Hin; apply (Hf t sb Hin)|].
    split; [apply (sum_sizes_f (fun sb => length (rewards sb))); intros t sb Hin; apply (Hf t sb Hin)|].
    apply (sum_sizes_f (fun sb => length (returns sb))); intros t sb Hin; apply (Hf t sb Hin).
Qed.

End SplitMore.


Module CounterFacts.
Import Buffer Agent Lifecycle.

Lemma dict_keys_set {V} (d : list (Z * V)) k v :
  dict_keys (dict_set d k v) = if bool_decide (k ∈ dict_keys d) then dict_keys d else dict_keys d ++ [k].
Proof.
  induction d as [|[k0 v0] d IH]; simpl; [done|].
  unfold dict_keys in *. simpl.
  destruct (decide (k = k0)) as [Hk|Hk].
  - subst. rewrite bool_decide_true by (left). done.
  - simpl. rewrite IH. case_bool_decide as H1; case_bool_decide as H2.
    + done.
    + exfalso. apply H2. by right.
    + exfalso. apply elem_of_cons in H2 as [->|H2]; done.
    + done.
Qed.

Lemma Counter_keys_fold (l : list Z) acc :
  dict_keys (fold_left (fun d x => dict_set d x (from_option id 0%nat (dict_get d x) + 1)%nat) l acc) = fold_left (fun acc x => if bool_decide (x ∈ acc) then acc else acc ++ [x]) l (dict_keys acc).
Proof.
  revert acc. induction l as [|x l IH]; intros acc; simpl; [done|].
  rewrite IH. rewrite dict_keys_set. done.
Qed.

Lemma Counter_get_fold (l : list Z) acc t :
  dict_get (fold_left (fun d x => dict_set d x (from_option id 0%nat (dict_get d x) + 1)%nat) l acc) t =
    match dict_get acc t with
    | Some c => Some (c + count_occ Z.eq_dec l t)%nat
    | None => if bool_decide (t ∈ l) then Some (count_occ Z.eq_dec l t) else None
    end.
Proof.
  revert acc. induction l as [|x l IH]; intros acc; simpl.
  - destruct (dict_get acc t); [by rewrite Nat.add_0_r|].
    done.
  - rewrite IH. rewrite LoadFacts.dict_get_set.
    destruct (Z.eq_dec x t) as [->|Hne].
    + rewrite decide_True by done.
      destruct (dict_get acc t) as [c|]; simpl.
      * f_equal. lia.
      * rewrite bool_decide_true by left. f_equal.
    + rewrite decide_False by congruence.
      destruct (dict_get acc t) as [c|]; [done|].
      rewrite (bool_decide_ext (t ∈ x :: l) (t ∈ l)); [done|].
      rewrite elem_of_cons. split; [|by right]. intros [->|H]; done.
Qed.

Lemma sum_set_incr (d : list (Z * nat)) x :
  sum_list (map snd (dict_set d x (from_option id 0%nat (dict_get d x) + 1)%nat)) = (sum_list (map snd d) + 1)%nat.
Proof.
  induction d as [|[k c] d IH]; simpl; [done|].
  case_decide as Hk; simpl.
  - subst. lia.
  - rewrite IH. lia.
Qed.

Lemma Counter_sum_fold (l : list Z) acc :
  sum_list (map snd (fold_left (fun d x => dict_set d x (from_option id 0%nat (dict_get d x) + 1)%nat) l acc)) = (sum_list (map snd acc) + length l)%nat.
Proof.
  revert acc. induction l as [|x l IH]; intros acc; simpl; [lia|].
  rewrite IH, sum_set_incr. lia.
Qed.

Lemma length_filter_map {A B} (f : B -> bool) (g : A -> B) (l : list A) :
  length (List.filter f (map g l)) = length (List.filter (fun x => f (g x)) l).
Proof. induction l as [|x l IH]; simpl; [done|]. destruct (f (g x)); simpl; by rewrite IH. Qed.

Lemma task_indices_count (labels : list Z) t :
  length (task_indices labels t) = count_occ Z.eq_dec labels t.
Proof.
  unfold task_indices. induction labels as [|x l IH]; [done|].
  cbn [length seq List.filter]. rewrite <- seq_shift. cbn [nth].
  destruct (Z.eq_dec x t) as [->|Hne].
  - rewrite Z.eqb_refl, count_occ_cons_eq by done. cbn [length].
    rewrite length_filter_map. by rewrite IH.
  - replace (x =? t) with false by (symmetry; by apply Z.eqb_neq).
    rewrite count_occ_cons_neq by done.
    rewrite length_filter_map. by rewrite IH.
Qed.

(** X2: [_stats_task_dist] counts the labels: its keys are the distinct labels in order of first occurrence, each label present maps to its number of occurrences, any other has no entry, and the counts add up to the number of observations. *)
Theorem stats_task_dist_counts {Obs Act Mask LP Rew Ret} (lab : Obs -> Z)
    (b : RolloutBuffer Obs Act Mask LP Rew Ret) :
  dict_keys (stats_task_dist lab b) = stats_task_dist_keys lab b /\
  (forall t, dict_get (stats_task_dist lab b) t =
     if bool_decide (t ∈ v_net_size_list lab b)
     then Some (count_occ Z.eq_dec (v_net_size_list lab b) t) else None) /\
  sum_list (map snd (stats_task_dist lab b)) = length (observations b).
Proof.
  unfold stats_task_dist, Counter, stats_task_dist_keys, dedup_first.
  split; [|split].
  - apply (Counter_keys_fold _ []).
  - intros t. apply (Counter_get_fold _ [] t).
  - rewrite (Counter_sum_fold _ []). unfold v_net_size_list. simpl. by rewrite length_map.
Qed.

(** X3: when [_split_buffer] succeeds, the task distribution and the split agree: they have the same task ids, and the count of each task is the number of observations in its task buffer. *)
Theorem stats_task_dist_split_sizes {Obs Act Mask LP Rew Ret} (lab : Obs -> Z)
    (b : RolloutBuffer Obs Act Mask LP Rew Ret) m :
  split_buffer lab b = Some m ->
  (forall t, is_Some (dict_get (stats_task_dist lab b) t) <-> t ∈ dict_keys m) /\
  forall t sb, (t, sb) ∈ m -> dict_get (stats_task_dist lab b) t = Some (length (observations sb)).
Proof.
  intros Hm. destruct (SplitMore.split_buffer_Some_shape lab b m Hm) as (Hkeys & Hmk).
  assert (Hget : forall t, dict_get (stats_task_dist lab b) t =
     if bool_decide (t ∈ v_net_size_list lab b)
     then Some (count_occ Z.eq_dec (v_net_size_list lab b) t) else None)
    by (intros t; apply (Counter_get_fold _ [] t)).
  split.
  - intros t. rewrite Hget, Hkeys, BufferFacts.elem_of_tasks_list.
    case_bool_decide as Ht; split; intros H; try done; by destruct H.
  - intros t sb Hin. specialize (Hmk t sb Hin).
    assert (Ht : t ∈ v_net_size_list lab b).
    { apply BufferFacts.elem_of_tasks_list. rewrite <- Hkeys.
      apply list_elem_of_fmap. by exists (t, sb). }
    rewrite Hget, bool_decide_true by done. f_equal.
    rewrite <- task_indices_count.
    unfold make_task_buffer in Hmk.
    destruct (index_list (observations b) _) eqn:E1; [|done]. simpl in Hmk.
    destruct (index_list (actions b) _); [|done]. simpl in Hmk.
    destruct (index_list (logprobs b) _); [|done]. simpl in Hmk.
    destruct (index_list (rewards b) _); [|done]. simpl in Hmk.
    destruct (index_list (returns b) _); [|done]. simpl in Hmk.
    injection Hmk as <-. simpl. symmetry. by apply BufferFacts.index_list_length in E1.
Qed.
Lemma stats_task_dist_split_sizes_witness :
  split_buffer Scenario.obs_label Scenario.buf = Some Scenario.expected /\
  (forall t, is_Some (dict_get (stats_task_dist Scenario.obs_label Scenario.buf) t) <->
             t ∈ dict_keys Scenario.expected) /\
  (forall t sb, (t, sb) ∈ Scenario.expected ->
     dict_get (stats_task_dist Scenario.obs_label Scenario.buf) t = Some (length (observations sb))).
Proof.
  assert (H : split_buffer Scenario.obs_label Scenario.buf = Some Scenario.expected)
    by (vm_compute; reflexivity).
  split; [exact H|]. exact (CounterFacts.stats_task_dist_split_sizes _ _ _ H).
Defined.
End CounterFacts.


Module UpdateMore.
Import Buffer Agent.

Section Frames.
Context {Obs Act Mask LP Rew Ret : Type}.
Abbreviation State := (St Obs Act Mask LP Rew Ret).
Variable lab : Obs -> Z.
Variable gu : RolloutBuffer Obs Act Mask LP Rew Ret -> Params -> OptState ->
              option exc * (Params * OptState * RolloutBuffer Obs Act Mask LP Rew Ret).

(** Steps that leave [self.task_policies] as it is. *)
Definition tp_pres {A} (m : M State A) : Prop :=
  forall s, task_policies (snd (m s)) = task_policies s.

Lemma tp_pres_bind {A B} (m : M State A) (k : A -> M State B) :
  tp_pres m -> (forall a, tp_pres (k a)) -> tp_pres (St.bind m k).
Proof.
  intros Hm Hk s. unfold St.bind. specialize (Hm s).
  destruct (m s) as [[a|e] s1]; simpl in *; [|done]. by rewrite Hk.
Qed.

Lemma tp_after {A B} (m : M State A) (k : A -> M State B) s :
  (forall a, tp_pres (k a)) -> task_policies (snd (St.bind m k s)) = task_policies (snd (m s)).
Proof.
  intros Hk. unfold St.bind. destruct (m s) as [[a|e] s1]; simpl; [apply Hk|done].
Qed.

Lemma tp_pres_gets {A} (f : State -> A) : tp_pres (gets f).
Proof. intros s. done. Qed.
Lemma tp_pres_ret {A} (a : A) : tp_pres (@ret State A a).
Proof. intros s. done. Qed.
Lemma tp_pres_lift {A} (o : option A) e : tp_pres (@lift State A o e).
Proof. intros s. by destruct o. Qed.

Lemma tp_pres_for {A} (xs : list A) (body : A -> M State unit) :
  (forall x, tp_pres (body x)) -> tp_pres (for_ xs body).
Proof.
  intros Hb. induction xs as [|x xs IH]; simpl; [apply tp_pres_ret|].
  by apply tp_pres_bind.
Qed.

Lemma tp_pres_alloc tbs : tp_pres (@alloc_task_buffers Obs Act Mask LP Rew Ret tbs).
Proof.
  induction tbs as [|[t b] tbs IH]; simpl; [apply tp_pres_ret|].
  apply tp_pres_bind; [intros s; done|]. intros l.
  apply tp_pres_bind; [done|]. intros r. apply tp_pres_ret.
Qed.

Lemma tp_pres_task_step e : tp_pres (task_step gu e).
Proof.
  destruct e as [t bl]. unfold task_step, get_task_policy, get_task_optimizer.
  repeat first [apply tp_pres_bind; [|intros ?] | apply tp_pres_gets | apply tp_pres_lift
               | apply tp_pres_ret | (intros s; done)].
  unfold super_update. intros s. by repeat case_match.
Qed.

Lemma tp_pres_write_buffer l b : tp_pres (@write_buffer Obs Act Mask LP Rew Ret l b).
Proof. intros s. done. Qed.

Lemma ensure_keys k (s : State) :
  exists s1, ensure_task_policy k s = (Ok tt, s1) /\
    dict_keys (task_policies s1) =
      (if bool_decide (k ∈ dict_keys (task_policies s)) then dict_keys (task_policies s)
       else dict_keys (task_policies s) ++ [k]) /\
    (forall k' l, dict_get (task_policies s) k' = Some l -> dict_get (task_policies s1) k' = Some l).
Proof.
  unfold ensure_task_policy. rewrite LoadFacts.bind_gets.
  case_bool_decide as Hin.
  - exists s. done.
  - unfold create_task_policy, get_task_policy, deepcopy_policy, Adam, St.bind, gets, modify, lift, ret.
    simpl. rewrite LoadFacts.dict_get_set, decide_True by done. simpl.
    eexists. split; [reflexivity|]. simpl.
    rewrite LoadFacts.dict_set_fresh' by done. split.
    + unfold dict_keys. by rewrite fmap_app.
    + intros k' l Hg. rewrite <- LoadFacts.dict_set_fresh' by done.
      rewrite LoadFacts.dict_get_set. case_decide; [|done].
      subst. exfalso. apply Hin, RoutingFacts.dict_get_keys. by eexists.
Qed.

Lemma ensure_loop (ts : list Z) (s : State) :
  NoDup ts ->
  exists s1, for_ ts (fun t => ensure_task_policy (KInt t)) s = (Ok tt, s1) /\
    dict_keys (task_policies s1) =
      dict_keys (task_policies s) ++
      map KInt (List.filter (fun t => negb (bool_decide (KInt t ∈ dict_keys (task_policies s)))) ts) /\
    (forall k' l, dict_get (task_policies s) k' = Some l -> dict_get (task_policies s1) k' = Some l).
Proof.
  revert s. induction ts as [|t ts IH]; intros s Hnd.
  - exists s. simpl. by rewrite app_nil_r.
  - apply NoDup_cons in Hnd as [Hnin Hnd].
    destruct (ensure_keys (KInt t) s) as (s1 & Hs1 & Hk1 & Hg1).
    destruct (IH s1 Hnd) as (s2 & Hs2 & Hk2 & Hg2).
    exists s2. split; [rewrite LoadFacts.for_cons_L; by rewrite (LoadFacts.bind_ok _ _ _ _ _ Hs1)|].
    split; [|intros k' l Hg; by apply Hg2, Hg1].
    rewrite Hk2, Hk1. simpl.
    case_bool_decide as Hin; simpl.
    + done.
    + rewrite <- app_assoc. simpl. f_equal. f_equal. f_equal.
      apply filter_ext_in. intros x Hx. f_equal. apply bool_decide_ext.
      rewrite elem_of_app, list_elem_of_singleton. split; [|by left].
      intros [H|H]; [done|]. injection H as ->. exfalso. apply Hnin. by apply list_elem_of_In.
Qed.

Lemma dedup_first_NoDup (l : list Z) : NoDup (dedup_first l).
Proof.
  unfold dedup_first.
  assert (Hg : forall acc, NoDup acc ->
            NoDup (fold_left (fun acc x => if bool_decide (x ∈ acc) then acc else acc ++ [x]) l acc)).
  { induction l as [|x l IH]; intros acc Hacc; simpl; [done|].
    apply IH. case_bool_decide; [done|]. by apply LoadFacts.NoDup_snoc'. }
  apply Hg. constructor.
Qed.

Lemma dedup_first_elem (l : list Z) x : x ∈ dedup_first l <-> x ∈ l.
Proof.
  unfold dedup_first.
  assert (Hg : forall acc, x ∈ fold_left (fun acc x => if bool_decide (x ∈ acc) then acc else acc ++ [x]) l acc
                            <-> x ∈ acc \/ x ∈ l).
  { induction l as [|y l IH]; intros acc; simpl.
    - split; [by left|]. intros [H|H]; [done|by apply elem_of_nil in H].
    - rewrite IH, elem_of_cons. case_bool_decide as Hy.
      + naive_solver.
      + rewrite elem_of_app, list_elem_of_singleton. naive_solver. }
  rewrite Hg. split; [intros [H|H]; [by apply elem_of_nil in H|done]|by right].
Qed.


Lemma tp_update (s : State) :
  task_policies (snd (update lab gu s)) =
  task_policies (snd (for_ (stats_task_dist_keys lab (bufs s (buffer s)))
                        (fun t => ensure_task_policy (KInt t)) s)).
Proof.
  unfold update, fine_tuning_update. rewrite LoadFacts.bind_gets.
  rewrite tp_after.
  2:{ intros tbs. apply tp_pres_bind; [apply tp_pres_for, tp_pres_task_step|intros _].
      apply tp_pres_bind; [apply tp_pres_gets|intros b0]. apply tp_pres_write_buffer. }
  unfold prepare_update. rewrite LoadFacts.bind_gets. apply tp_after.
  intros _. apply tp_pres_bind; [apply tp_pres_gets|intros b'].
  apply tp_pres_bind; [apply tp_pres_lift|intros tbs]. apply tp_pres_alloc.
Qed.

(** X5: after [update], whether it returns or raises, [task_policies] holds the keys it had, with the same objects, followed by one new key per label of the buffer that had none, in order of first occurrence; every label of the buffer then has a task policy. *)
Theorem update_registers_task_policies (s : State) :
  let s' := snd (update lab gu s) in
  let keys := dict_keys (task_policies s) in
  dict_keys (task_policies s') =
    keys ++ map KInt (List.filter (fun t => negb (bool_decide (KInt t ∈ keys)))
                        (stats_task_dist_keys lab (bufs s (buffer s)))) /\
  (forall k l, dict_get (task_policies s) k = Some l -> dict_get (task_policies s') k = Some l) /\
  (forall t, t ∈ v_net_size_list lab (bufs s (buffer s)) ->
             is_Some (dict_get (task_policies s') (KInt t))).
Proof.
  simpl. rewrite tp_update.
  destruct (ensure_loop (stats_task_dist_keys lab (bufs s (buffer s))) s
              (dedup_first_NoDup _)) as (s1 & Hs1 & Hk & Hg).
  rewrite Hs1. simpl. split; [done|]. split; [done|].
  intros t Ht. apply RoutingFacts.dict_get_keys. rewrite Hk, elem_of_app.
  destruct (decide (KInt t ∈ dict_keys (task_policies s))) as [Hin|Hin]; [by left|right].
  apply list_elem_of_fmap. exists t. split; [done|].
  apply list_elem_of_In, filter_In. split; [|by rewrite bool_decide_false].
  apply list_elem_of_In. unfold stats_task_dist_keys. by apply dedup_first_elem.
Qed.

(** X4: [update] on an empty buffer creates no task policy, runs no generic update and only replaces the meta buffer's contents by an empty buffer. *)
Theorem update_empty_buffer (s : State) :
  observations (bufs s (buffer s)) = [] ->
  update lab gu s =
    (Ok tt, set_heaps (pols s) (opts s) (upd (bufs s) (buffer s) RolloutBuffer_new) (next_loc s) s).
Proof.
  intros He. unfold update, fine_tuning_update, prepare_update, stats_task_dist_keys, v_net_size_list.
  rewrite !LoadFacts.bind_gets. unfold St.bind at 1. rewrite LoadFacts.bind_gets, He.
  assert (Hsp : split_buffer lab (bufs s (buffer s)) = Some []).
  { unfold split_buffer, v_net_size_list. rewrite He. reflexivity. }
  unfold St.bind, ret, gets, lift. cbv beta iota. cbn [map dedup_first fold_left for_].
  unfold ret. cbv beta iota. rewrite Hsp. reflexivity.
Qed.

Lemma dict_set_snd {K V} `{EqDecision K} (d : list (K * V)) k v v' :
  v' ∈ map snd (dict_set d k v) -> v' = v \/ v' ∈ map snd d.
Proof.
  induction d as [|[k0 v0] d IH]; simpl.
  - rewrite list_elem_of_singleton. by left.
  - case_decide; simpl; rewrite !elem_of_cons; [naive_solver|].
    intros [->|Hv]; [by right; left|]. destruct (IH Hv); [by left|by right; right].
Qed.

(** The meta-policy and meta-optimizer are objects of their own: no task
    entry names them and both were allocated. *)
Definition meta_inv (s : State) : Prop :=
  (meta_policy s ∉ map snd (task_policies s)) /\
  (meta_optimizer s ∉ map snd (task_optimizers s)) /\
  (meta_policy s < next_loc s)%nat /\ (meta_optimizer s < next_loc s)%nat.

Definition meta_kept (s s' : State) : Prop :=
  meta_inv s' /\ meta_policy s' = meta_policy s /\ meta_optimizer s' = meta_optimizer s /\
  pols s' (meta_policy s) = pols s (meta_policy s) /\
  opts s' (meta_optimizer s) = opts s (meta_optimizer s).

Definition keeps_meta {A} (m : M State A) : Prop :=
  forall s, meta_inv s -> meta_kept s (snd (m s)).

Lemma meta_kept_refl s : meta_inv s -> meta_kept s s.
Proof. intros Hs. split; [done|]. by repeat split. Qed.

Lemma meta_kept_trans s1 s2 s3 : meta_kept s1 s2 -> meta_kept s2 s3 -> meta_kept s1 s3.
Proof.
  intros (H1 & Hm1 & Ho1 & Hp1 & Hq1) (H2 & Hm2 & Ho2 & Hp2 & Hq2).
  split; [done|]. rewrite <- Hm1, <- Ho1. repeat split; congruence.
Qed.

Lemma keeps_meta_bind {A B} (m : M State A) (k : A -> M State B) :
  keeps_meta m -> (forall a, keeps_meta (k a)) -> keeps_meta (St.bind m k).
Proof.
  intros Hm Hk s Hs. specialize (Hm s Hs). unfold St.bind.
  destruct (m s) as [[a|e] s1]; simpl in *; [|done].
  eapply meta_kept_trans; [done|]. apply Hk, Hm.
Qed.

Lemma keeps_meta_gets {A} (f : State -> A) : keeps_meta (gets f).
Proof. intros s Hs. by apply meta_kept_refl. Qed.
Lemma keeps_meta_ret {A} (a : A) : keeps_meta (@ret State A a).
Proof. intros s Hs. by apply meta_kept_refl. Qed.
Lemma keeps_meta_lift {A} (o : option A) e : keeps_meta (@lift State A o e).
Proof. intros s Hs. destruct o; by apply meta_kept_refl. Qed.

Lemma keeps_meta_for {A} (xs : list A) (body : A -> M State unit) :
  (forall x, keeps_meta (body x)) -> keeps_meta (for_ xs body).
Proof.
  intros Hb. induction xs as [|x xs IH]; simpl; [apply keeps_meta_ret|].
  by apply keeps_meta_bind.
Qed.

Lemma keeps_meta_new_buffer b : keeps_meta (@new_buffer Obs Act Mask LP Rew Ret b).
Proof. intros s (H1 & H2 & H3 & H4). repeat split; simpl; try done; lia. Qed.

Lemma keeps_meta_write_buffer l b : keeps_meta (@write_buffer Obs Act Mask LP Rew Ret l b).
Proof. intros s (H1 & H2 & H3 & H4). by repeat split. Qed.

Lemma keeps_meta_alloc tbs : keeps_meta (@alloc_task_buffers Obs Act Mask LP Rew Ret tbs).
Proof.
  induction tbs as [|[t b] tbs IH]; simpl; [apply keeps_meta_ret|].
  apply keeps_meta_bind; [apply keeps_meta_new_buffer|intros l].
  apply keeps_meta_bind; [done|intros r]. apply keeps_meta_ret.
Qed.

Lemma keeps_meta_create k : keeps_meta (@create_task_policy Obs Act Mask LP Rew Ret k).
Proof.
  intros s (H1 & H2 & H3 & H4).
  unfold create_task_policy, get_task_policy, deepcopy_policy, Adam, St.bind, gets, modify, lift, ret.
  simpl. rewrite LoadFacts.dict_get_set, decide_True by done. simpl.
  split; [split; [|split]|]; simpl.
  - intros Hin. apply dict_set_snd in Hin as [Hin|Hin]; [lia|done].
  - intros Hin. apply dict_set_snd in Hin as [Hin|Hin]; [lia|done].
  - lia.
  - split; [done|]. split; [done|]. split.
    + apply UpdateFacts.upd_other. lia.
    + apply UpdateFacts.upd_other. lia.
Qed.

Lemma keeps_meta_ensure k : keeps_meta (@ensure_task_policy Obs Act Mask LP Rew Ret k).
Proof.
  unfold ensure_task_policy. apply keeps_meta_bind; [apply keeps_meta_gets|intros tp].
  case_bool_decide; [apply keeps_meta_ret|apply keeps_meta_create].
Qed.

Lemma keeps_meta_task_step e : keeps_meta (task_step gu e).
Proof.
  destruct e as [t bl]. intros s Hs. destruct Hs as (H1 & H2 & H3 & H4).
  unfold task_step, get_task_policy, get_task_optimizer, St.bind, gets, lift, modify, ret, raise.
  destruct (dict_get (task_policies s) (KInt t)) as [pl|] eqn:E1; simpl; [|by repeat split].
  destruct (dict_get (task_optimizers s) (KInt t)) as [ol|] eqn:E2; simpl; [|by repeat split].
  apply LoadFacts.dict_get_Some_snd in E1, E2.
  assert (pl <> meta_policy s) by (intros ->; done).
  assert (ol <> meta_optimizer s) by (intros ->; done).
  unfold super_update. simpl.
  repeat case_match; simpl; (split; [by repeat split|]);
    (split; [done|]); (split; [done|]);
    split; apply UpdateFacts.upd_other; done.
Qed.

Lemma keeps_meta_update : keeps_meta (update lab gu).
Proof.
  unfold update, fine_tuning_update, prepare_update.
  apply keeps_meta_bind; [apply keeps_meta_gets|intros mb].
  apply keeps_meta_bind.
  - apply keeps_meta_bind; [apply keeps_meta_gets|intros b].
    apply keeps_meta_bind; [apply keeps_meta_for; intros t; apply keeps_meta_ensure|intros _].
    apply keeps_meta_bind; [apply keeps_meta_gets|intros b'].
    apply keeps_meta_bind; [apply keeps_meta_lift|intros tbs]. apply keeps_meta_alloc.
  - intros tbs. apply keeps_meta_bind; [apply keeps_meta_for, keeps_meta_task_step|intros _].
    apply keeps_meta_bind; [apply keeps_meta_gets|intros b0]. apply keeps_meta_write_buffer.
Qed.

(** X6: when no task entry shares the meta-policy's or the meta-optimizer's object and both are allocated, [update], whether it returns or raises, keeps both objects, the meta-policy's parameters and the meta-optimizer's state, and no task entry shares them afterwards. *)
Theorem update_keeps_meta_policy (s : State) :
  meta_policy s ∉ map snd (task_policies s) ->
  meta_optimizer s ∉ map snd (task_optimizers s) ->
  (meta_policy s < next_loc s)%nat -> (meta_optimizer s < next_loc s)%nat ->
  let s' := snd (update lab gu s) in
  meta_policy s' = meta_policy s /\ meta_optimizer s' = meta_optimizer s /\
  pols s' (meta_policy s) = pols s (meta_policy s) /\
  opts s' (meta_optimizer s) = opts s (meta_optimizer s) /\
  (meta_policy s' ∉ map snd (task_policies s')) /\
  (meta_optimizer s' ∉ map snd (task_optimizers s')).
Proof.
  intros H1 H2 H3 H4. simpl.
  destruct (keeps_meta_update s (conj H1 (conj H2 (conj H3 H4)))) as ((G1 & G2 & _) & Hm & Ho & Hp & Hq).
  done.
Qed.

End Frames.
Lemma update_empty_buffer_witness :
  observations (bufs Scenario.fresh_agent (buffer Scenario.fresh_agent)) = [] /\
  update Scenario.obs_label Scenario.gu_step Scenario.fresh_agent =
    (Ok tt, set_heaps (pols Scenario.fresh_agent) (opts Scenario.fresh_agent)
              (upd (bufs Scenario.fresh_agent) (buffer Scenario.fresh_agent) RolloutBuffer_new)
              (next_loc Scenario.fresh_agent) Scenario.fresh_agent).
Proof.
  split; [reflexivity|]. apply UpdateMore.update_empty_buffer. reflexivity.
Defined.

Lemma update_keeps_meta_policy_witness :
  (meta_policy Scenario.agent0 ∉ map snd (task_policies Scenario.agent0)) /\
  (meta_optimizer Scenario.agent0 ∉ map snd (task_optimizers Scenario.agent0)) /\
  (meta_policy Scenario.agent0 < next_loc Scenario.agent0)%nat /\
  (meta_optimizer Scenario.agent0 < next_loc Scenario.agent0)%nat /\
  let s' := snd (update Scenario.obs_label Scenario.gu_step Scenario.agent0) in
  meta_policy s' = meta_policy Scenario.agent0 /\ meta_optimizer s' = meta_optimizer Scenario.agent0 /\
  pols s' (meta_policy Scenario.agent0) = pols Scenario.agent0 (meta_policy Scenario.agent0) /\
  opts s' (meta_optimizer Scenario.agent0) = opts Scenario.agent0 (meta_optimizer Scenario.agent0) /\
  (meta_policy s' ∉ map snd (task_policies s')) /\
  (meta_optimizer s' ∉ map snd (task_optimizers s')).
Proof.
  assert (H1 : meta_policy Scenario.agent0 ∉ map snd (task_policies Scenario.agent0))
    by (apply (bool_decide_unpack _); vm_compute; reflexivity).
  assert (H2 : meta_optimizer Scenario.agent0 ∉ map snd (task_optimizers Scenario.agent0))
    by (apply (bool_decide_unpack _); vm_compute; reflexivity).
  assert (H3 : (meta_policy Scenario.agent0 < next_loc Scenario.agent0)%nat) by (simpl; lia).
  assert (H4 : (meta_optimizer Scenario.agent0 < next_loc Scenario.agent0)%nat) by (simpl; lia).
  split; [exact H1|]. split; [exact H2|]. split; [exact H3|]. split; [exact H4|].
  exact (UpdateMore.update_keeps_meta_policy _ _ _ H1 H2 H3 H4).
Defined.
End UpdateMore.


Module LifecycleFacts.
Import Buffer Agent Lifecycle.

Section Life.
Context {Obs Act Mask LP Rew Ret Inst R : Type}.
Abbreviation State := (St Obs Act Mask LP Rew Ret).

Lemma ensure_absent (k : PyKey) (s : State) :
  k ∉ dict_keys (task_policies s) ->
  exists t1, ensure_task_policy k s = (Ok tt, t1) /\
    dict_get (task_policies t1) k = Some (next_loc s) /\
    dict_get (task_optimizers t1) k = Some (S (next_loc s)) /\
    pols t1 (next_loc s) = pols s (meta_policy s) /\
    opts t1 (S (next_loc s)) = (length (pols s (meta_policy s)), []).
Proof.
  intros Hin. unfold ensure_task_policy. rewrite LoadFacts.bind_gets, bool_decide_false by done.
  unfold create_task_policy, get_task_policy, deepcopy_policy, Adam, St.bind, gets, modify, lift, ret.
  simpl. rewrite LoadFacts.dict_get_set, decide_True by done. simpl.
  eexists. split; [reflexivity|]. simpl.
  rewrite !LoadFacts.dict_get_set, !decide_True by done.
  split; [done|]. split; [done|]. unfold upd. by rewrite !Nat.eqb_refl.
Qed.

Lemma learn_with_instance_ensure (nn : Inst -> Z) (bl : Inst -> M State R) inst :
  learn_with_instance nn bl inst =
  St.bind (ensure_task_policy (KInt (nn inst))) (fun _ =>
    pl <- get_task_policy (KInt (nn inst)) ;;
    modify (fun s => set_active pl (optimizer s) (buffer s) s) ;;
    ol <- get_task_optimizer (KInt (nn inst)) ;;
    modify (fun s => set_active (policy s) ol (buffer s) s) ;;
    bl inst).
Proof. reflexivity. Qed.

(** X7: on a well-formed agent, [learn_with_instance] hands over to the inherited [learn_with_instance] a well-formed state whose active policy and optimizer are the task entries for the instance's size; the entries it had, the meta-policy and the buffers are kept, and an entry it creates is a new object holding the meta-policy's parameters, with a new optimizer over a group of the same size. *)
Theorem learn_with_instance_installs_task_policy n (nn : Inst -> Z) (bl : Inst -> M State R)
    inst (s : State) :
  wf_agent n s ->
  let k := KInt (nn inst) in
  exists s1, learn_with_instance nn bl inst s = bl inst s1 /\
    wf_agent n s1 /\
    dict_get (task_policies s1) k = Some (policy s1) /\
    dict_get (task_optimizers s1) k = Some (optimizer s1) /\
    (forall k' l, dict_get (task_policies s) k' = Some l -> dict_get (task_policies s1) k' = Some l) /\
    meta_policy s1 = meta_policy s /\ meta_optimizer s1 = meta_optimizer s /\
    pols s1 (meta_policy s) = pols s (meta_policy s) /\
    buffer s1 = buffer s /\ bufs s1 = bufs s /\
    (k ∉ dict_keys (task_policies s) ->
       (next_loc s <= policy s1)%nat /\
       pols s1 (policy s1) = pols s (meta_policy s) /\ opts s1 (optimizer s1) = (n, [])).
Proof.
  intros Hwf k. rewrite learn_with_instance_ensure.
  destruct (LoadFacts.ensure_spec n s k Hwf)
    as (t1 & Ht1 & Hwf1 & Hm1 & Ho1 & Hn1 & Hg1 & _ & Hf1 & _ & [pl Hpl] & Hp1 & _).
  pose proof (UpdateFacts.preserves_ensure_task_policy k s) as Hfr. rewrite Ht1 in Hfr.
  destruct Hfr as (Hb & Hbuf & _).
  rewrite (LoadFacts.bind_ok _ _ _ _ _ Ht1).
  pose proof Hwf1 as (_ & Hk1 & _).
  assert (Hol : is_Some (dict_get (task_optimizers t1) k)).
  { apply RoutingFacts.dict_get_keys. rewrite Hk1. apply RoutingFacts.dict_get_keys. by eexists. }
  destruct Hol as [ol Hol].
  unfold get_task_policy, get_task_optimizer, St.bind, lift, modify, ret, gets. cbv beta iota.
  fold k. rewrite Hpl. cbv beta iota. cbn [task_optimizers set_active]. rewrite Hol. cbv beta iota.
  eexists. split; [reflexivity|].
  pose proof Hwf as (_ & _ & _ & _ & Hlt & _ & Hlen & _).
  assert (Hmlt : (meta_policy s < next_loc s)%nat) by (by inversion Hlt).
  split; [exact Hwf1|]. simpl.
  split; [done|]. split; [done|]. split; [done|].
  split; [done|]. split; [done|]. split; [by apply Hp1|]. split; [done|]. split; [done|].
  intros Hin. destruct (ensure_absent k s Hin) as (t2 & Ht2 & Hp2 & Ho2 & Hq2 & Hr2).
  rewrite Ht1 in Ht2. injection Ht2 as <-.
  rewrite Hp2 in Hpl. injection Hpl as <-. rewrite Ho2 in Hol. injection Hol as <-.
  split; [lia|]. split; [done|]. rewrite Hr2. f_equal. by inversion Hlen.
Qed.

(** X8: lines 72-79 of [__init__] make the meta-policy a new object holding the policy's parameters, with a new optimizer, leave both task dictionaries empty and every existing object as it was, and give a well-formed agent; [infer_with_single_task_policy_id] comes from the keyword arguments. *)
Theorem init_fresh_meta_policy kwargs (s0 : State) :
  (policy s0 < next_loc s0)%nat -> (optimizer s0 < next_loc s0)%nat ->
  let n := length (pols s0 (policy s0)) in
  exists s, init kwargs s0 = (Ok tt, s) /\
    wf_agent n s /\
    task_policies s = [] /\ task_optimizers s = [] /\
    meta_policy s <> policy s /\ meta_optimizer s <> optimizer s /\
    policy s = policy s0 /\ optimizer s = optimizer s0 /\
    pols s (meta_policy s) = pols s0 (policy s0) /\
    opts s (meta_optimizer s) = (n, []) /\
    (forall l, (l < next_loc s0)%nat -> pols s l = pols s0 l /\ opts s l = opts s0 l) /\
    infer_with_single_task_policy_id s = infer_id_of_kwargs kwargs.
Proof.
  intros Hp Ho n. unfold init, St.bind, gets, modify, deepcopy_policy, Adam. simpl.
  eexists. split; [reflexivity|]. simpl.
  assert (Hne : forall a b, (a < b)%nat -> Nat.eqb a b = false) by (intros; apply Nat.eqb_neq; lia).
  unfold upd. rewrite !Nat.eqb_refl.
  split.
  { unfold wf_agent. simpl.
    split; [constructor|]. split; [done|].
    split; [apply NoDup_singleton|]. split; [apply NoDup_singleton|].
    split; [constructor; [lia|constructor]|]. split; [constructor; [lia|constructor]|].
    split; (constructor; [|constructor]); simpl; by rewrite Nat.eqb_refl. }
  split; [done|]. split; [done|]. split; [lia|]. split; [lia|].
  do 4 (split; [done|]). split; [|done].
  intros l Hl. by rewrite !Hne by lia.
Qed.
End Life.
Lemma learn_with_instance_installs_task_policy_witness :
  wf_agent 2 Scenario.agent0 /\
  let k := KInt (Scenario.inst_nodes 5) in
  exists s1, learn_with_instance Scenario.inst_nodes (fun _ => St.ret tt) 5 Scenario.agent0 =
             St.ret tt s1 /\
    wf_agent 2 s1 /\
    dict_get (task_policies s1) k = Some (policy s1) /\
    dict_get (task_optimizers s1) k = Some (optimizer s1) /\
    (forall k' l, dict_get (task_policies Scenario.agent0) k' = Some l ->
                  dict_get (task_policies s1) k' = Some l) /\
    meta_policy s1 = meta_policy Scenario.agent0 /\ meta_optimizer s1 = meta_optimizer Scenario.agent0 /\
    pols s1 (meta_policy Scenario.agent0) = pols Scenario.agent0 (meta_policy Scenario.agent0) /\
    buffer s1 = buffer Scenario.agent0 /\ bufs s1 = bufs Scenario.agent0 /\
    (k ∉ dict_keys (task_policies Scenario.agent0) ->
       (next_loc Scenario.agent0 <= policy s1)%nat /\
       pols s1 (policy s1) = pols Scenario.agent0 (meta_policy Scenario.agent0) /\
       opts s1 (optimizer s1) = (2%nat, [])).
Proof.
  assert (Hw : wf_agent 2 Scenario.agent0) by (apply (bool_decide_unpack _); vm_compute; reflexivity).
  split; [exact Hw|].
  exact (LifecycleFacts.learn_with_instance_installs_task_policy 2 Scenario.inst_nodes
           (fun _ => St.ret tt) 5 Scenario.agent0 Hw).
Defined.

Lemma init_fresh_meta_policy_witness :
  (policy Scenario.agent0 < next_loc Scenario.agent0)%nat /\
  (optimizer Scenario.agent0 < next_loc Scenario.agent0)%nat /\
  let n := length (pols Scenario.agent0 (policy Scenario.agent0)) in
  exists s, init [("infer_with_single_task_policy_id"%string, KInt 5)] Scenario.agent0 = (Ok tt, s) /\
    wf_agent n s /\
    task_policies s = [] /\ task_optimizers s = [] /\
    meta_policy s <> policy s /\ meta_optimizer s <> optimizer s /\
    policy s = policy Scenario.agent0 /\ optimizer s = optimizer Scenario.agent0 /\
    pols s (meta_policy s) = pols Scenario.agent0 (policy Scenario.agent0) /\
    opts s (meta_optimizer s) = (n, []) /\
    (forall l, (l < next_loc Scenario.agent0)%nat ->
       pols s l = pols Scenario.agent0 l /\ opts s l = opts Scenario.agent0 l) /\
    infer_with_single_task_policy_id s =
      infer_id_of_kwargs [("infer_with_single_task_policy_id"%string, KInt 5)].
Proof.
  assert (Hp : (policy Scenario.agent0 < next_loc Scenario.agent0)%nat) by (simpl; lia).
  assert (Ho : (optimizer Scenario.agent0 < next_loc Scenario.agent0)%nat) by (simpl; lia).
  split; [exact Hp|]. split; [exact Ho|].
  exact (LifecycleFacts.init_fresh_meta_policy _ Scenario.agent0 Hp Ho).
Defined.
End LifecycleFacts.


Module TensorMore.
Import Tensor.

(** An observation [obs_as_tensor] can read: a dictionary holding the six
    fields. *)
Definition has_fields (o : PyObj) : Prop :=
  exists kvs, o = PDict kvs /\ Forall (fun k => is_Some (dict_get kvs k)) obs_keys.

(** [o[k]] where it is defined. *)
Definition field (o : PyObj) (k : string) : PyObj :=
  match getitem o k with Ok v => v | Raise _ => PNone end.

#[global] Instance has_fields_dec o : Decision (has_fields o).
Proof.
  destruct o as [kvs| | | | | |];
    try (right; intros (kvs' & H & _); discriminate H).
  destruct (decide (Forall (fun k => is_Some (dict_get kvs k)) obs_keys)) as [H|H].
  - left. by exists kvs.
  - right. intros (kvs' & [= <-] & H'). done.
Defined.

Section Batch.
Context {Data Batch Arr Tensor Device : Type}.
Variables (gp : PyObj -> PyObj -> Data) (bf : list Data -> Batch) (bt : Batch -> Device -> Batch)
          (na : list PyObj -> Arr) (ft lt : Arr -> Tensor) (tt : Tensor -> Device -> Tensor).

Lemma getitem_field o k : has_fields o -> k ∈ obs_keys -> getitem o k = Ok (field o k).
Proof.
  intros (kvs & -> & Hk) Hin. rewrite Forall_forall in Hk. destruct (Hk k Hin) as [v Hv].
  unfold field, getitem. by rewrite Hv.
Qed.

Lemma batch_loop_ok (os : list PyObj) acc :
  Forall has_fields os ->
  batch_loop gp os acc =
    Ok (mkLists (p_net_data_list acc ++ map (fun o => gp (field o "p_net_x") (field o "p_net_edge_index")) os)
                (v_net_x_list acc ++ map (fun o => field o "v_net_x") os)
                (v_net_size_list acc ++ map (fun o => field o "v_net_size") os)
                (curr_v_node_id_list acc ++ map (fun o => field o "curr_v_node_id") os)
                (action_mask_list acc ++ map (fun o => field o "action_mask") os)).
Proof.
  revert acc. induction os as [|o os IH]; intros acc Hall; simpl.
  - rewrite !app_nil_r. by destruct acc.
  - apply Forall_cons in Hall as [Ho Hall].
    unfold obs_keys in *.
    rewrite !(getitem_field o) by (done || (unfold obs_keys; set_solver)).
    simpl. rewrite IH by done. simpl. by rewrite <- !app_assoc.
Qed.

Lemma batch_loop_fail (os : list PyObj) acc :
  ~ Forall has_fields os -> exists e, batch_loop gp os acc = Raise e.
Proof.
  revert acc. induction os as [|o os IH]; intros acc Hall; simpl.
  - exfalso. by apply Hall.
  - destruct (decide (Forall has_fields os)) as [Hos|Hos].
    2:{ unfold rbind. repeat case_match; eauto. }
    assert (Ho : ~ has_fields o) by (intros Ho; by apply Hall; constructor).
    destruct o as [kvs| | | | | |]; unfold getitem, rbind; simpl; try by eexists.
    destruct (dict_get kvs "p_net_x") eqn:E1; [|by eexists].
    destruct (dict_get kvs "p_net_edge_index") eqn:E2; [|by eexists].
    destruct (dict_get kvs "v_net_x") eqn:E3; [|by eexists].
    destruct (dict_get kvs "v_net_size") eqn:E4; [|by eexists].
    destruct (dict_get kvs "curr_v_node_id") eqn:E5; [|by eexists].
    destruct (dict_get kvs "action_mask") eqn:E6; [|by eexists].
    exfalso. apply Ho. exists kvs. split; [done|].
    unfold obs_keys. repeat constructor; eexists; eassumption.
Qed.

(** X12: on a non-empty list of observations, [obs_as_tensor] succeeds when every element is a dictionary with the six fields, and then builds each batch from that field of the observations in input order, one row per observation; when some element is not such a dictionary it raises.  (On the empty list the outcome is [Batch.from_data_list([])]'s, which raises; [bf] stands for it on non-empty lists only.) *)
Theorem obs_as_tensor_batch_rows (os : list PyObj) (device : Device) :
  (os <> [] -> Forall has_fields os ->
   obs_as_tensor gp bf bt na ft lt tt (PList os) device =
     Ok [("p_net", TBatch (bt (bf (map (fun o => gp (field o "p_net_x") (field o "p_net_edge_index")) os)) device));
         ("v_net_x", TTensor (tt (ft (na (map (fun o => field o "v_net_x") os))) device));
         ("v_net_size", TTensor (tt (ft (na (map (fun o => field o "v_net_size") os))) device));
         ("curr_v_node_id", TTensor (tt (lt (na (map (fun o => field o "curr_v_node_id") os))) device));
         ("action_mask", TTensor (tt (ft (na (map (fun o => field o "action_mask") os))) device))]) /\
  (~ Forall has_fields os -> exists e, obs_as_tensor gp bf bt na ft lt tt (PList os) device = Raise e).
Proof.
  split.
  - intros _ Hall. simpl. by rewrite (batch_loop_ok os _ Hall).
  - intros Hn. destruct (batch_loop_fail os (mkLists [] [] [] [] []) Hn) as [e He].
    exists e. simpl. by rewrite He.
Qed.

Local Ltac fin :=
  split; [reflexivity|]; split; [repeat constructor; eexists; eassumption|];
  split; [done|]; reflexivity.

(** X13: an observation dictionary missing some of the six fields makes [obs_as_tensor] raise KeyError naming the first missing one, in the order the code reads them. *)
Theorem obs_as_tensor_missing_field (kvs : list (string * PyObj)) (device : Device) :
  ~ Forall (fun k => is_Some (dict_get kvs k)) obs_keys ->
  exists pre k post, obs_keys = pre ++ k :: post /\
    Forall (fun k' => is_Some (dict_get kvs k')) pre /\ dict_get kvs k = None /\
    obs_as_tensor gp bf bt na ft lt tt (PDict kvs) device = Raise (mkExc KeyError k).
Proof.
  intros Hn. unfold obs_as_tensor, getitem, rbind.
  destruct (dict_get kvs "p_net_x") eqn:E1.
  2:{ exists [], "p_net_x"%string, (drop 1 obs_keys). fin. }
  destruct (dict_get kvs "p_net_edge_index") eqn:E2.
  2:{ exists ["p_net_x"%string], "p_net_edge_index"%string, (drop 2 obs_keys).
      fin. }
  destruct (dict_get kvs "v_net_x") eqn:E3.
  2:{ exists ["p_net_x"; "p_net_edge_index"]%string, "v_net_x"%string, (drop 3 obs_keys).
      fin. }
  destruct (dict_get kvs "curr_v_node_id") eqn:E4.
  2:{ exists ["p_net_x"; "p_net_edge_index"; "v_net_x"]%string, "curr_v_node_id"%string, (drop 4 obs_keys).
      fin. }
  destruct (dict_get kvs "action_mask") eqn:E5.
  2:{ exists ["p_net_x"; "p_net_edge_index"; "v_net_x"; "curr_v_node_id"]%string, "action_mask"%string,
        (drop 5 obs_keys).
      fin. }
  destruct (dict_get kvs "v_net_size") eqn:E6.
  2:{ exists ["p_net_x"; "p_net_edge_index"; "v_net_x"; "curr_v_node_id"; "action_mask"]%string,
        "v_net_size"%string, [].
      fin. }
  exfalso. apply Hn. unfold obs_keys. repeat constructor; eexists; eassumption.
Qed.

End Batch.
Lemma obs_as_tensor_missing_field_witness :
  ~ Forall (fun k => is_Some (dict_get [("p_net_x"%string, PArray [1; 2])] k)) obs_keys /\
  exists pre k post, obs_keys = pre ++ k :: post /\
    Forall (fun k' => is_Some (dict_get [("p_net_x"%string, PArray [1; 2])] k')) pre /\
    dict_get [("p_net_x"%string, PArray [1; 2])] k = None /\
    Scenario.obs_as_tensor_stub (PDict [("p_net_x"%string, PArray [1; 2])]) "cpu"
      = Raise (mkExc KeyError k).
Proof.
  assert (Hn : ~ Forall (fun k => is_Some (dict_get [("p_net_x"%string, PArray [1; 2])] k)) obs_keys).
  { intros H. apply Forall_cons in H as [_ H]. apply Forall_cons in H as [[v Hv] _].
    vm_compute in Hv. discriminate Hv. }
  split; [exact Hn|].
  exact (TensorMore.obs_as_tensor_missing_field Scenario.pyg Scenario.batch_of Scenario.batch_on
           Scenario.np_rows Scenario.float_tensor Scenario.long_tensor Scenario.tensor_on _ "cpu" Hn).
Defined.
End TensorMore.


Module SaveLoadMore.
Import Buffer Agent.

Section Keep.
Context {Obs Act Mask LP Rew Ret : Type}.
Abbreviation State := (St Obs Act Mask LP Rew Ret).
Variable n : nat.

(** What loading a checkpoint never breaks: the bookkeeping of [wf_agent],
    the meta objects' identities and the task entries already present. *)
Definition kept (t t' : State) : Prop :=
  wf_agent n t' /\ meta_policy t' = meta_policy t /\ meta_optimizer t' = meta_optimizer t /\
  (forall k l, dict_get (task_policies t) k = Some l -> dict_get (task_policies t') k = Some l) /\
  (forall k l, dict_get (task_optimizers t) k = Some l -> dict_get (task_optimizers t') k = Some l).

Definition load_keeps {A} (m : M State A) : Prop :=
  forall t, wf_agent n t -> kept t (snd (m t)).

Lemma kept_refl t : wf_agent n t -> kept t t.
Proof. intros Hw. split; [done|]. by repeat split. Qed.

Lemma kept_trans t1 t2 t3 : kept t1 t2 -> kept t2 t3 -> kept t1 t3.
Proof.
  intros (_ & Hm1 & Ho1 & Hp1 & Hq1) (Hw2 & Hm2 & Ho2 & Hp2 & Hq2).
  split; [done|]. split; [congruence|]. split; [congruence|].
  split; intros k l H; auto.
Qed.

Lemma load_keeps_bind {A B} (m : M State A) (k : A -> M State B) :
  load_keeps m -> (forall a, load_keeps (k a)) -> load_keeps (St.bind m k).
Proof.
  intros Hm Hk t Hw. specialize (Hm t Hw). unfold St.bind.
  destruct (m t) as [[a|e] t1]; simpl in *; [|done].
  eapply kept_trans; [done|]. apply Hk, Hm.
Qed.

Lemma load_keeps_ret {A} (a : A) : load_keeps (@ret State A a).
Proof. intros t Hw. by apply kept_refl. Qed.
Lemma load_keeps_raise {A} e : load_keeps (@raise State A e).
Proof. intros t Hw. by apply kept_refl. Qed.
Lemma load_keeps_gets {A} (f : State -> A) : load_keeps (gets f).
Proof. intros t Hw. by apply kept_refl. Qed.
Lemma load_keeps_lift {A} (o : option A) e : load_keeps (@lift State A o e).
Proof. destruct o; [apply load_keeps_ret|apply load_keeps_raise]. Qed.
Lemma load_keeps_getv v k : load_keeps (@getv Obs Act Mask LP Rew Ret v k).
Proof. unfold getv. destruct (val_get v k); [apply load_keeps_ret|apply load_keeps_raise]. Qed.

Lemma load_keeps_for {A} (xs : list A) (body : A -> M State unit) :
  (forall x, load_keeps (body x)) -> load_keeps (for_ xs body).
Proof.
  intros Hb. induction xs as [|x xs IH]; simpl; [apply load_keeps_ret|].
  by apply load_keeps_bind.
Qed.

Lemma load_keeps_try {A} (m : M State A) h :
  load_keeps m -> (forall e, load_keeps (h e)) -> load_keeps (try_except m h).
Proof.
  intros Hm Hh t Hw. specialize (Hm t Hw). unfold try_except.
  destruct (m t) as [[a|e] t1]; simpl in *; [done|].
  eapply kept_trans; [done|]. apply Hh, Hm.
Qed.

Lemma load_keeps_torch_load path : load_keeps (@torch_load Obs Act Mask LP Rew Ret path).
Proof.
  unfold torch_load. apply load_keeps_bind; [apply load_keeps_gets|intros fs].
  repeat case_match; first [apply load_keeps_ret|apply load_keeps_raise].
Qed.

Lemma wf_write_policy_len (t : State) l q :
  wf_agent n t -> length q = length (pols t l) ->
  wf_agent n (set_heaps (upd (pols t) l q) (opts t) (bufs t) (next_loc t) t).
Proof.
  unfold wf_agent, set_heaps. simpl. intros (H1 & H2 & H3 & H4 & H5 & H6 & H7 & H8) Hq.
  repeat split; try done. rewrite Forall_forall in H7 |- *. intros l' Hl'.
  unfold upd. destruct (Nat.eqb_spec l' l) as [->|]; [rewrite Hq|]; by apply H7.
Qed.

Lemma wf_write_optimizer_len (t : State) l o :
  wf_agent n t -> o.1 = (opts t l).1 ->
  wf_agent n (set_heaps (pols t) (upd (opts t) l o) (bufs t) (next_loc t) t).
Proof.
  unfold wf_agent, set_heaps. simpl. intros (H1 & H2 & H3 & H4 & H5 & H6 & H7 & H8) Ho.
  repeat split; try done. rewrite Forall_forall in H8 |- *. intros l' Hl'.
  unfold upd. destruct (Nat.eqb_spec l' l) as [->|]; [rewrite Ho|]; by apply H8.
Qed.

Lemma load_keeps_policy_load l sd : load_keeps (@policy_load_state_dict Obs Act Mask LP Rew Ret l sd).
Proof.
  intros t Hw. unfold policy_load_state_dict. rewrite LoadFacts.bind_gets.
  destruct sd as [|q|]; try by apply kept_refl.
  destruct (Nat.eqb_spec (length q) (length (pols t l))) as [Hq|Hq]; [|by apply kept_refl].
  unfold write_policy, modify. simpl. split; [by apply wf_write_policy_len|]. repeat split; auto.
Qed.

Lemma load_keeps_optimizer_load l sd : load_keeps (@optimizer_load_state_dict Obs Act Mask LP Rew Ret l sd).
Proof.
  intros t Hw. unfold optimizer_load_state_dict. rewrite LoadFacts.bind_gets.
  destruct sd as [| |[m st]]; try by apply kept_refl.
  destruct (Nat.eqb_spec m (opts t l).1) as [Hm|Hm]; [|by apply kept_refl].
  unfold write_optimizer, modify. simpl. split; [by apply wf_write_optimizer_len|]. repeat split; auto.
Qed.

Lemma load_keeps_ensure k : load_keeps (@ensure_task_policy Obs Act Mask LP Rew Ret k).
Proof.
  intros t Hw. destruct (LoadFacts.ensure_spec n t k Hw) as (t1 & -> & Hw1 & Hm & Ho & _ & Hp & Hq & _).
  simpl. split; [done|]. by repeat split.
Qed.

Lemma load_keeps_load_task V k : load_keeps (@load_task Obs Act Mask LP Rew Ret V k).
Proof.
  unfold load_task, get_task_policy, get_task_optimizer.
  repeat first [ apply load_keeps_ensure | apply load_keeps_policy_load | apply load_keeps_optimizer_load
               | apply load_keeps_getv | apply load_keeps_gets | apply load_keeps_lift
               | apply load_keeps_bind; [|intros ?]].
Qed.

Lemma load_keeps_load_model path : load_keeps (@load_model Obs Act Mask LP Rew Ret path).
Proof.
  unfold load_model. apply load_keeps_try; [|intros; apply load_keeps_ret].
  apply load_keeps_bind; [apply load_keeps_torch_load|intros V].
  repeat first [ apply load_keeps_policy_load | apply load_keeps_optimizer_load
               | apply load_keeps_getv | apply load_keeps_gets
               | apply load_keeps_for; intros ?; apply load_keeps_load_task
               | apply load_keeps_bind; [|intros ?]].
  case_match; [apply load_keeps_ret|apply load_keeps_raise].
Qed.

(** X10: whatever the file at the path holds (nothing, corrupt bytes, a partial checkpoint, tensors of other shapes), [load_model] leaves a well-formed agent well formed, with the same meta-policy and meta-optimizer objects and every task entry it had. *)
Theorem load_model_keeps_bookkeeping path (s : State) :
  wf_agent n s ->
  let s' := snd (load_model path s) in
  wf_agent n s' /\ meta_policy s' = meta_policy s /\ meta_optimizer s' = meta_optimizer s /\
  (forall k l, dict_get (task_policies s) k = Some l -> dict_get (task_policies s') k = Some l) /\
  (forall k l, dict_get (task_optimizers s) k = Some l -> dict_get (task_optimizers s') k = Some l).
Proof. intros Hw. exact (load_keeps_load_model path s Hw). Qed.
End Keep.

Section Save.
Context {Obs Act Mask LP Rew Ret : Type}.
Abbreviation State := (St Obs Act Mask LP Rew Ret).

Lemma model_list_outcome ks (t : State) :
  (Forall (fun k => is_Some (dict_get (task_policies t) k) /\ is_Some (dict_get (task_optimizers t) k)) ks ->
   exists ml, model_list ks t = (Ok ml, t)) /\
  (~ Forall (fun k => is_Some (dict_get (task_policies t) k) /\ is_Some (dict_get (task_optimizers t) k)) ks ->
   model_list ks t = (Raise key_error, t)).
Proof.
  induction ks as [|k ks [IH1 IH2]]; simpl.
  - split; [by eexists|]. intros H. exfalso. by apply H.
  - unfold get_task_policy, get_task_optimizer, St.bind, gets, lift, ret, raise. simpl.
    rewrite Forall_cons. split.
    + intros [[[pl Hpl] [ol Hol]] Hall]. rewrite Hpl, Hol. simpl.
      destruct (IH1 Hall) as [ml Hml]. rewrite Hml. by eexists.
    + intros Hn. destruct (dict_get (task_policies t) k) as [pl|] eqn:Hpl; simpl; [|done].
      destruct (dict_get (task_optimizers t) k) as [ol|] eqn:Hol; simpl; [|done].
      rewrite IH2; [done|]. intros Hall. apply Hn. split; [split; by eexists|done].
Qed.

(** X9: [save_model] writes one archive at [os.path.join(model_dir, fname)] and changes nothing else when every task-policy key has an optimizer entry; when some key has none it raises KeyError, changes nothing and writes no file. *)
Theorem save_model_outcome fname (s : State) :
  let path := path_join (model_dir s) fname in
  (Forall (fun k => is_Some (dict_get (task_optimizers s) k)) (dict_keys (task_policies s)) ->
   exists V, save_model fname s = (Ok tt, set_files (dict_set (files s) path (Archive V)) s)) /\
  ((exists k, k ∈ dict_keys (task_policies s) /\ dict_get (task_optimizers s) k = None) ->
   save_model fname s = (Raise key_error, s)).
Proof.
  simpl. unfold save_model. rewrite !LoadFacts.bind_gets. split.
  - intros Hall. destruct (proj1 (model_list_outcome (dict_keys (task_policies s)) s)) as [ml Hml].
    + rewrite Forall_forall in Hall |- *. intros k Hk. split; [|by apply Hall].
      by apply RoutingFacts.dict_get_keys.
    + rewrite (LoadFacts.bind_ok _ _ _ _ _ Hml), !LoadFacts.bind_gets.
      unfold state_dict_entry, St.bind, gets, ret. simpl.
      rewrite (LoadFacts.task_entries_spec ml [] s). simpl. unfold torch_save, modify. by eexists.
  - intros (k & Hk & Hno). unfold St.bind at 1.
    rewrite (proj2 (model_list_outcome (dict_keys (task_policies s)) s)).
    + reflexivity.
    + rewrite Forall_forall. intros Hall. destruct (Hall k Hk) as [_ Ho]. rewrite Hno in Ho.
      by destruct Ho.
Qed.

(** X11: when the archive at the path gives no meta-policy state dict to load (it has no [meta_policy] entry, that entry is not a dictionary, or it has no [policy] key), [load_model] returns normally and changes nothing: the exception is raised before any [load_state_dict] call. *)
Theorem load_model_unloadable_meta path V (s : State) :
  dict_get (files s) path = Some (Archive V) ->
  (forall E, val_get V (KStr "meta_policy") = Ok E -> exists e, val_get E (KStr "policy") = Raise e) ->
  load_model path s = (Ok tt, s).
Proof.
  intros Hf Hq. unfold load_model, try_except.
  rewrite (LoadFacts.bind_ok _ _ _ _ _ (LoadFacts.torch_load_ok path V s Hf)), LoadFacts.bind_gets.
  unfold getv at 1. destruct (val_get V (KStr "meta_policy")) as [E|e] eqn:HE; [|reflexivity].
  unfold ret at 1, St.bind at 1. unfold getv at 1.
  destruct (Hq E eq_refl) as [e He]. rewrite He. reflexivity.
Qed.
End Save.
Lemma load_model_keeps_bookkeeping_witness :
  wf_agent 2 Scenario.agent0_ckpt /\
  let s' := snd (load_model "save/ckpt" Scenario.agent0_ckpt) in
  wf_agent 2 s' /\ meta_policy s' = meta_policy Scenario.agent0_ckpt /\
  meta_optimizer s' = meta_optimizer Scenario.agent0_ckpt /\
  (forall k l, dict_get (task_policies Scenario.agent0_ckpt) k = Some l ->
               dict_get (task_policies s') k = Some l) /\
  (forall k l, dict_get (task_optimizers Scenario.agent0_ckpt) k = Some l ->
               dict_get (task_optimizers s') k = Some l).
Proof.
  assert (Hw : wf_agent 2 Scenario.agent0_ckpt)
    by (apply (bool_decide_unpack _); vm_compute; reflexivity).
  split; [exact Hw|].
  exact (SaveLoadMore.load_model_keeps_bookkeeping 2 "save/ckpt" Scenario.agent0_ckpt Hw).
Defined.

Lemma load_model_unloadable_meta_witness :
  let V := VDict [(KStr "meta_policy", VDict [(KStr "optimizer", VOpt (2%nat, []))])] in
  let s := set_files [("save/other"%string, Archive V)] Scenario.agent0 in
  dict_get (files s) "save/other" = Some (Archive V) /\
  (forall E, val_get V (KStr "meta_policy") = Ok E -> exists e, val_get E (KStr "policy") = Raise e) /\
  load_model "save/other" s = (Ok tt, s).
Proof.
  intros V s.
  assert (Hf : dict_get (files s) "save/other" = Some (Archive V)) by reflexivity.
  assert (Hq : forall E, val_get V (KStr "meta_policy") = Ok E -> exists e, val_get E (KStr "policy") = Raise e).
  { intros E HE. vm_compute in HE. injection HE as <-. eexists. vm_compute. reflexivity. }
  split; [exact Hf|]. split; [exact Hq|].
  exact (SaveLoadMore.load_model_unloadable_meta "save/other" V s Hf Hq).
Defined.
End SaveLoadMore.


Module LoadRollback.
Import Buffer Agent.

Section Protect.
Context {Obs Act Mask LP Rew Ret : Type}.
Abbreviation State := (St Obs Act Mask LP Rew Ret).
Variables (n : nat) (mp mo : loc).

(** What the steps of [load_model] after the meta-policy's restore keep:
    the bookkeeping of [wf_agent], the meta objects [mp] and [mo], and the
    parameters and optimizer state they hold. *)
Definition protected (t t' : State) : Prop :=
  wf_agent n t' /\ meta_policy t' = mp /\ meta_optimizer t' = mo /\
  pols t' mp = pols t mp /\ opts t' mo = opts t mo.

Definition avoids {A} (m : M State A) : Prop :=
  forall t, wf_agent n t -> meta_policy t = mp -> meta_optimizer t = mo -> protected t (snd (m t)).

Lemma avoids_stay {A} (m : M State A) : (forall t, snd (m t) = t) -> avoids m.
Proof. intros H t Hw Hm Ho. rewrite H. split; [done|]. by repeat split. Qed.


Lemma avoids_gets {A} (f : State -> A) : avoids (gets f).
Proof. by apply avoids_stay. Qed.







End Protect.

Section Rollback.
Context {Obs Act Mask LP Rew Ret : Type}.
Abbreviation State := (St Obs Act Mask LP Rew Ret).




End Rollback.



End LoadRollback.
